(** * Burn-up model builder and projection engine

    A shallow embedding of [app/buildBurnupModel.ts] and of the what-if
    controls of [app/page.tsx] (the velocity and scope sliders and the
    scope override), with the properties of the sprint bucketing, origin
    derivation, normaliser, projection, re-parameterisation and overrides.

    Conventions of the embedding.

    - A JavaScript [number] is a value of [number]: [NaN], the two
      infinities, or a finite value carried as an exact rational (the
      results of arithmetic are stored in lowest terms).  Binary64
      rounding, overflow and the sign of zero are not represented; every
      arithmetic operator, comparison and [Math.*] function used by the
      source is written out below with its IEEE special cases.
      Statements about story counts or about the order of values do not
      depend on rounding.  The origin and the termination of the build need
      the value of a product and a quotient of the sprint length: they are
      stated for sprint lengths that are whole numbers of days
      ([whole_day_sprint_length]), where the source computes on whole
      numbers of days in milliseconds, without rounding.
    - Strings are ASCII: [trim] and [toUpperCase] act on the ASCII white
      space and letters, and agree with the source on strings of ASCII
      characters only.
    - No exception is represented.  The one the source can raise, the
      [RangeError] of spreading a very long array into [Math.min] or
      [Math.max], is excluded with [spreadable] where a statement says that
      the build returns.
    - [T | null] and optional fields are [option T].
    - The two unbounded [while] loops of the source take a [fuel] argument
      and answer [None] when it runs out; bounded [for] loops recurse on the
      remaining index range.
    - The host functions [Date.parse], [Number] (on strings) and [Date.now]
      are the fields of the [JsRuntime] class; [Date.UTC] and
      [Date.prototype.getUTCDay] follow ECMA-262. *)

From Stdlib Require Import ZArith QArith Qabs Qround Qreduction List String Ascii Bool Lia Lqa.
Import ListNotations.

Set Implicit Arguments.

(* ------------------------------------------------------------------ *)
(** ** JavaScript numbers                                              *)
(* ------------------------------------------------------------------ *)

Inductive number : Type :=
| NaN : number
| Inf (negative : bool) : number
| Fin (q : Q) : number.

Declare Scope js_scope.
Delimit Scope js_scope with js.
Bind Scope js_scope with number.

Definition of_Q (q : Q) : number := Fin (Qred q).
Definition of_Z (z : Z) : number := Fin (inject_Z z).
Definition of_nat (n : nat) : number := of_Z (Z.of_nat n).

Definition Qltb (p q : Q) : bool := negb (Qle_bool q p).

(** [Number.isFinite]. *)
Definition isFinite (x : number) : bool :=
  match x with Fin _ => true | _ => false end.

(** Truthiness of a number: [0] and [NaN] are falsy. *)
Definition truthy (x : number) : bool :=
  match x with
  | NaN => false
  | Inf _ => true
  | Fin q => negb (Qeq_bool q 0)
  end.

Definition num_neg (x : number) : number :=
  match x with
  | NaN => NaN
  | Inf s => Inf (negb s)
  | Fin q => of_Q (- q)
  end.

Definition num_add (x y : number) : number :=
  match x, y with
  | NaN, _ | _, NaN => NaN
  | Inf a, Inf b => if Bool.eqb a b then Inf a else NaN
  | Inf a, Fin _ => Inf a
  | Fin _, Inf b => Inf b
  | Fin p, Fin q => of_Q (p + q)
  end.

Definition num_sub (x y : number) : number := num_add x (num_neg y).

Definition num_mul (x y : number) : number :=
  match x, y with
  | NaN, _ | _, NaN => NaN
  | Inf a, Inf b => Inf (xorb a b)
  | Inf a, Fin q | Fin q, Inf a =>
      if Qeq_bool q 0 then NaN
      else if Qltb q 0 then Inf (negb a) else Inf a
  | Fin p, Fin q => of_Q (p * q)
  end.

Definition num_div (x y : number) : number :=
  match x, y with
  | NaN, _ | _, NaN => NaN
  | Inf _, Inf _ => NaN
  | Inf a, Fin q => if Qltb q 0 then Inf (negb a) else Inf a
  | Fin _, Inf _ => Fin 0
  | Fin p, Fin q =>
      if Qeq_bool q 0 then
        if Qeq_bool p 0 then NaN else Inf (Qltb p 0)
      else of_Q (p / q)
  end.

(** [x < y]; false as soon as one side is [NaN]. *)
Definition num_lt (x y : number) : bool :=
  match x, y with
  | NaN, _ | _, NaN => false
  | Inf true, Inf true => false
  | Inf true, _ => true
  | _, Inf true => false
  | Inf false, _ => false
  | Fin _, Inf false => true
  | Fin p, Fin q => Qltb p q
  end.

(** [x <= y]. *)
Definition num_le (x y : number) : bool :=
  match x, y with
  | NaN, _ | _, NaN => false
  | Inf true, _ => true
  | _, Inf true => false
  | _, Inf false => true
  | Inf false, Fin _ => false
  | Fin p, Fin q => Qle_bool p q
  end.

Definition num_gt (x y : number) : bool := num_lt y x.
Definition num_ge (x y : number) : bool := num_le y x.

(** [x === y] on numbers. *)
Definition num_eq (x y : number) : bool :=
  match x, y with
  | Inf a, Inf b => Bool.eqb a b
  | Fin p, Fin q => Qeq_bool p q
  | _, _ => false
  end.

Definition num_neq (x y : number) : bool := negb (num_eq x y).

Notation "x + y" := (num_add x y) : js_scope.
Notation "x - y" := (num_sub x y) : js_scope.
Notation "x * y" := (num_mul x y) : js_scope.
Notation "x / y" := (num_div x y) : js_scope.
Notation "x <? y" := (num_lt x y) : js_scope.
Notation "x <=? y" := (num_le x y) : js_scope.
Notation "x >? y" := (num_gt x y) : js_scope.
Notation "x >=? y" := (num_ge x y) : js_scope.
Notation "x === y" := (num_eq x y) (at level 70, no associativity) : js_scope.
Notation "x !== y" := (num_neq x y) (at level 70, no associativity) : js_scope.

(** [Math.max] and [Math.min] of two arguments. *)
Definition Math_max (x y : number) : number :=
  match x, y with
  | NaN, _ | _, NaN => NaN
  | _, _ => if num_lt x y then y else x
  end.

Definition Math_min (x y : number) : number :=
  match x, y with
  | NaN, _ | _, NaN => NaN
  | _, _ => if num_lt y x then y else x
  end.

(** [Math.max(...xs)] and [Math.min(...xs)]: the spread forms start from
    [-Infinity] and [+Infinity].  They are the values of the calls when the
    calls return: past the argument limit of the engine the spread throws. *)
Definition Math_max_list (xs : list number) : number :=
  fold_left Math_max xs (Inf true).

Definition Math_min_list (xs : list number) : number :=
  fold_left Math_min xs (Inf false).

Definition Math_floor (x : number) : number :=
  match x with Fin q => of_Z (Qfloor q) | _ => x end.

Definition Math_ceil (x : number) : number :=
  match x with Fin q => of_Z (Qceiling q) | _ => x end.

(** [Math.round] rounds halves toward +Infinity. *)
Definition Math_round (x : number) : number :=
  match x with Fin q => of_Z (Qfloor (q + (1 # 2))) | _ => x end.

(** [a || b] on numbers. *)
Definition num_or (a b : number) : number := if truthy a then a else b.

(** Truthiness and nullish tests of [number | null]. *)
Definition truthy_opt (o : option number) : bool :=
  match o with Some x => truthy x | None => false end.

Definition not_null {A : Type} (o : option A) : bool :=
  match o with Some _ => true | None => false end.

Definition DAY_MS : number := of_Z (24 * 60 * 60 * 1000).

(* ------------------------------------------------------------------ *)
(** ** Dates (ECMA-262 time values)                                    *)
(* ------------------------------------------------------------------ *)

(** [ToIntegerOrInfinity] on a finite value: truncation toward zero. *)
Definition Qtrunc (q : Q) : Z := Z.quot (Qnum q) (Zpos (Qden q)).

Definition msPerDay : Z := 86400000.
Definition maxTimeValue : Z := 8640000000000000.

(** [TimeClip]: a time value is an integer of magnitude at most 8.64e15. *)
Definition TimeClip (x : number) : option Z :=
  match x with
  | Fin q =>
      if Qle_bool (Qabs q) (inject_Z maxTimeValue) then Some (Qtrunc q) else None
  | _ => None
  end.

(** Day number of day [d] of month [m] (1..12) of year [y] in the
    proleptic Gregorian calendar, day 0 being 1970-01-01. *)
Definition days_from_civil (y m d : Z) : Z :=
  let y' := (if m <=? 2 then y - 1 else y)%Z in
  let era := (y' / 400)%Z in
  let yoe := (y' - era * 400)%Z in
  let mp := (if m >? 2 then m - 3 else m + 9)%Z in
  let doy := ((153 * mp + 2) / 5 + d - 1)%Z in
  let doe := (yoe * 365 + yoe / 4 - yoe / 100 + doy)%Z in
  (era * 146097 + doe - 719468)%Z.

(** [Date.UTC(year, month, date)]: [MakeFullYear], [MakeDay] with month
    overflow, [MakeDate] at midnight, then [TimeClip].  The result is [NaN]
    or an integral time value; the range is checked once, at the end. *)
Definition Date_UTC (year month date : number) : number :=
  match year, month, date with
  | Fin y, Fin m, Fin d =>
      let yi := Qtrunc y in
      let yr := (if (0 <=? yi) && (yi <=? 99) then 1900 + yi else yi)%Z in
      let mi := Qtrunc m in
      let ym := (yr + mi / 12)%Z in
      let mn := (mi mod 12)%Z in
      let day := (days_from_civil ym (mn + 1) 1 + Qtrunc d - 1)%Z in
      match TimeClip (of_Z (day * msPerDay)) with
      | Some t => of_Z t
      | None => NaN
      end
  | _, _, _ => NaN
  end.

(** [new Date(ms).getUTCDay()]: 0 = Sunday ... 6 = Saturday, [NaN] for an
    invalid date. *)
Definition getUTCDay (ms : number) : number :=
  match TimeClip ms with
  | Some t => of_Z ((t / msPerDay + 4) mod 7)
  | None => NaN
  end.

(* ------------------------------------------------------------------ *)
(** ** Strings                                                         *)
(* ------------------------------------------------------------------ *)

Definition is_white (c : ascii) : bool :=
  let n := nat_of_ascii c in
  ((9 <=? n) && (n <=? 13))%nat || (n =? 32)%nat.

Fixpoint trimStart (s : string) : string :=
  match s with
  | String c s' => if is_white c then trimStart s' else s
  | EmptyString => EmptyString
  end.

Fixpoint trimEnd (s : string) : string :=
  match s with
  | EmptyString => EmptyString
  | String c s' =>
      match trimEnd s' with
      | EmptyString => if is_white c then EmptyString else String c EmptyString
      | t => String c t
      end
  end.

(** [s.trim()] on strings of ASCII characters: the white space and line
    terminators stripped are the six that ASCII has (TAB, LF, VT, FF, CR and
    the space); the white space outside ASCII, such as U+00A0, is not
    stripped. *)
Definition trim (s : string) : string := trimEnd (trimStart s).

Definition upper_ascii (c : ascii) : ascii :=
  let n := nat_of_ascii c in
  if ((97 <=? n) && (n <=? 122))%nat then ascii_of_nat (n - 32) else c.

(** [s.toUpperCase()] on strings of ASCII characters, where only the
    letters a to z change. *)
Fixpoint toUpperCase (s : string) : string :=
  match s with
  | EmptyString => EmptyString
  | String c s' => String (upper_ascii c) (toUpperCase s')
  end.

(** [s.startsWith(p)]. *)
Definition startsWith (s p : string) : bool := prefix p s.

(** [s.includes(sub)]. *)
Fixpoint includes (s sub : string) : bool :=
  prefix sub s ||
  match s with
  | EmptyString => false
  | String _ s' => includes s' sub
  end.

(** [s.split(sep)] for a one-character separator. *)
Fixpoint split (sep : ascii) (s : string) : list string :=
  match s with
  | EmptyString => [EmptyString]
  | String c s' =>
      if Ascii.eqb c sep then EmptyString :: split sep s'
      else match split sep s' with
           | h :: t => String c h :: t
           | [] => [String c EmptyString]
           end
  end.

(** Truthiness of a string: only the empty string is falsy. *)
Definition nonempty (s : string) : bool :=
  match s with EmptyString => false | _ => true end.

(* ------------------------------------------------------------------ *)
(** ** Host functions                                                  *)
(* ------------------------------------------------------------------ *)

(** What the model takes from the JavaScript host: [Date.parse], the
    string case of [Number(...)], and the clock read by [Date.now()]. *)
Class JsRuntime : Type := {
  Date_parse : string -> number;
  Number_of_string : string -> number;
  Date_now : number
}.

(** [Number(x)] for [x : string | undefined]. *)
Definition Number_ `{JsRuntime} (x : option string) : number :=
  match x with
  | Some s => Number_of_string s
  | None => NaN
  end.

(* ------------------------------------------------------------------ *)
(** ** Types used by the burn-up logic                                 *)
(* ------------------------------------------------------------------ *)

Inductive StatusCategory : Type := ToDo | InProgress | Done.

Definition is_Done (c : option StatusCategory) : bool :=
  match c with Some Done => true | _ => false end.

Record BurnupIssue : Type := {
  key : option string;
  created : string;
  resolutiondate : option string;
  statusCategory : option StatusCategory;
  status : option string
}.

Record SprintSummary : Type := {
  index : number;
  startMs : number;
  endMs : number;
  scopeAtEnd : number;
  scopeAtStart : number;
  doneThisSprint : number;
  cumDoneEnd : number;
  isClosed : bool
}.

Record BurnupProjection : Type := {
  hasSignal : bool;
  fromSprintIndex : option number;
  fromTimeMs : option number;
  fromDone : option number;
  projectedDonePerSprint : option number;
  avgVelPerFTE : option number;
  projectedCompletionMs : option number;
  projectedCompletionEarlyMs : option number;
  projectedCompletionLateMs : option number;
  requiredFTEToHitTarget : option number;
  suggestedMaxFTE : option number;
  remainingStoriesFromAnchor : option number;
  sprintsRemainingToTarget : option number;
  requiredStoriesPerSprintToHitTarget : option number;
  recentStoriesPerSprint : option number
}.

Record BurnupModel : Type := {
  sprintLengthDays : number;
  originMs : number;
  targetDateMs : number;
  targetScope : number;
  latestScope : number;
  todayMs : number;
  currentSprintStartMs : number;
  currentSprintEndMs : number;
  sprints : list SprintSummary;
  projection : BurnupProjection;
  totalDoneStories : number;
  hasAnyDone : bool;
  isOnTrack : option bool;
  daysDeltaFromTarget : option number
}.

Module Input.
Record BuildBurnupInput : Type := {
  stories : list BurnupIssue;
  sprintStartISO : string;
  devCompletionISO : string;
  sprintFTE : number;
  todayISO : option string;
  sprintLengthDays : option number
}.
End Input.
Abbreviation BuildBurnupInput := Input.BuildBurnupInput.

Record NormalisedIssue : Type := {
  createdMs : number;
  resolvedMs : option number;
  isDone : bool;
  isCancelled : bool
}.

(* ------------------------------------------------------------------ *)
(** ** Internal helpers                                                *)
(* ------------------------------------------------------------------ *)

Open Scope js_scope.

(** Timezone-proof "UTC midnight" flooring by epoch-day. *)
Definition epochDayFloorMs (ms : number) : number :=
  if negb (isFinite ms) then NaN
  else Math_floor (ms / DAY_MS) * DAY_MS.

(** The [while (left > 0)] loop of [subtractWorkingDaysUTC]. *)
Fixpoint subtractWorkingDays_loop (fuel : nat) (ms left : number)
  : option number :=
  match fuel with
  | O => None
  | S fuel' =>
      if left >? of_Z 0 then
        let ms := ms - DAY_MS in
        let dow := getUTCDay ms in
        let left :=
          if (dow !== of_Z 0) && (dow !== of_Z 6) then left - of_Z 1 else left in
        subtractWorkingDays_loop fuel' ms left
      else Some ms
  end.

(** Subtract N working days (Mon-Fri) from a UTC date-only timestamp. *)
Definition subtractWorkingDaysUTC (fuel : nat) (endMs workingDays : number)
  : option number :=
  let ms := epochDayFloorMs endMs in
  let left := Math_max (of_Z 0) (Math_floor workingDays) in
  subtractWorkingDays_loop fuel ms left.

Section Host.
Context {rt : JsRuntime}.

(** Parse "YYYY-MM-DD" into UTC midnight timestamp (epoch-day). *)
Definition parseISODate (iso : string) : number :=
  if negb (nonempty iso) then NaN
  else
    let parts := split "-"%char iso in
    let y := Number_ (nth_error parts 0) in
    let m := Number_ (nth_error parts 1) - of_Z 1 in
    let d := Number_ (nth_error parts 2) in
    if negb (isFinite y) || negb (isFinite m) || negb (isFinite d) then NaN
    else Date_UTC y m d.

(** Parse arbitrary Jira date string into UTC midnight (epoch-day). *)
Definition parseJiraDate (value : string) : number :=
  if negb (nonempty value) then NaN
  else
    let ms := Date_parse value in
    if negb (isFinite ms) then NaN else epochDayFloorMs ms.

(** Normalise a Jira issue into timestamps + Done/cancelled flags. *)
Definition normaliseIssue (issue : BurnupIssue) : option NormalisedIssue :=
  if negb (nonempty (created issue)) then None
  else
    let createdMs := parseJiraDate (created issue) in
    if negb (isFinite createdMs) then None
    else
      let rawStatus :=
        toUpperCase (trim (match status issue with Some s => s | None => EmptyString end)) in
      let categoryDone := is_Done (statusCategory issue) in
      let isCancelled :=
        includes rawStatus "WITHDRAWN" || includes rawStatus "CANCELLED" in
      let resolvedMs : option number :=
        match resolutiondate issue with
        | Some r =>
            if nonempty r then
              let parsed := parseJiraDate r in
              if isFinite parsed then Some parsed else None
            else None
        | None => None
        end in
      let resolvedMs :=
        if negb (truthy_opt resolvedMs) &&
           (categoryDone || String.eqb rawStatus "DONE")
        then Some createdMs else resolvedMs in
      let isDone :=
        truthy_opt resolvedMs && negb isCancelled &&
        (categoryDone || String.eqb rawStatus "DONE" || startsWith rawStatus "DONE ") in
      Some {| createdMs := createdMs;
              resolvedMs := resolvedMs;
              isDone := isDone;
              isCancelled := isCancelled |}.

End Host.

Definition nullProjection : BurnupProjection :=
  {| hasSignal := false;
     fromSprintIndex := None;
     fromTimeMs := None;
     fromDone := None;
     projectedDonePerSprint := None;
     avgVelPerFTE := None;
     projectedCompletionMs := None;
     projectedCompletionEarlyMs := None;
     projectedCompletionLateMs := None;
     requiredFTEToHitTarget := None;
     suggestedMaxFTE := None;
     remainingStoriesFromAnchor := None;
     sprintsRemainingToTarget := None;
     requiredStoriesPerSprintToHitTarget := None;
     recentStoriesPerSprint := None |}.

Definition emptyModel (sprintLengthDays originMs targetDateMs todayMs : number)
  : BurnupModel :=
  let safeOrigin := if isFinite originMs then originMs else todayMs in
  {| sprintLengthDays := sprintLengthDays;
     originMs := safeOrigin;
     targetDateMs := if isFinite targetDateMs then targetDateMs else todayMs;
     targetScope := of_Z 0;
     latestScope := of_Z 0;
     todayMs := todayMs;
     currentSprintStartMs := safeOrigin;
     currentSprintEndMs := safeOrigin;
     sprints := [];
     projection := nullProjection;
     totalDoneStories := of_Z 0;
     hasAnyDone := false;
     isOnTrack := None;
     daysDeltaFromTarget := None |}.

(** [xs[xs.length - 1]]. *)
Definition last_opt {A : Type} (xs : list A) : option A :=
  nth_error xs (List.length xs - 1).

(** The [for (const s of sprints)] search of [computeScopeAtDate]. *)
Fixpoint firstEndingOnOrAfter (sprints : list SprintSummary) (dateMs : number)
  : option SprintSummary :=
  match sprints with
  | [] => None
  | s :: rest =>
      if dateMs <=? endMs s then Some s else firstEndingOnOrAfter rest dateMs
  end.

(** Find the scope (stories existing) at a particular date by using the
    sprint whose end date is >= that date. *)
Definition computeScopeAtDate (sprints : list SprintSummary) (dateMs : number)
  : number :=
  match sprints with
  | [] => of_Z 0
  | _ =>
      let chosen :=
        match firstEndingOnOrAfter sprints dateMs with
        | Some s => Some s
        | None => last_opt sprints
        end in
      match chosen with
      | Some s => scopeAtEnd s
      | None => of_Z 0
      end
  end.

(** [vals.reduce((sum, v) => sum + v, 0)]. *)
Definition sum_numbers (vals : list number) : number :=
  fold_left num_add vals (of_Z 0).

(** The descending loop of [avgStoriesLastNClosed]; [k] is [i + 1]. *)
Fixpoint lastNClosed_loop (sprints : list SprintSummary) (n : nat) (k : nat)
  (vals : list number) : list number :=
  match k with
  | O => vals
  | S i =>
      if (List.length vals <? n)%nat then
        match nth_error sprints i with
        | Some s =>
            if negb (isClosed s) then lastNClosed_loop sprints n i vals
            else lastNClosed_loop sprints n i (vals ++ [doneThisSprint s])
        | None => vals
        end
      else vals
  end.

(** Average stories/sprint over last N closed sprints (includes zeros);
    null if there are no closed sprints. *)
Definition avgStoriesLastNClosed (sprints : list SprintSummary)
  (lastClosedIndex n : nat) : option number :=
  let vals := lastNClosed_loop sprints n (S lastClosedIndex) [] in
  match vals with
  | [] => None
  | _ => Some (sum_numbers vals / of_nat (List.length vals))
  end.

(** "Find last closed sprint": scan from the end; [k] is [i + 1].  The
    sprint found is returned with its index. *)
Fixpoint findLastClosed (sprints : list SprintSummary) (k : nat)
  : option (nat * SprintSummary) :=
  match k with
  | O => None
  | S i =>
      match nth_error sprints i with
      | Some s => if isClosed s then Some (i, s) else findLastClosed sprints i
      | None => None
      end
  end.

Definition LOOKBACK_CLOSED : nat := 8.

(** The look-back loop collecting the most recent non-zero velocities;
    [k] is [i + 1]. *)
Fixpoint nonZeroVel_loop (sprints : list SprintSummary) (fte : number)
  (k : nat) (takenClosed : nat) (acc : list number) : list number :=
  match k with
  | O => acc
  | S i =>
      if (takenClosed <? LOOKBACK_CLOSED)%nat then
        match nth_error sprints i with
        | Some s =>
            if negb (isClosed s) then nonZeroVel_loop sprints fte i takenClosed acc
            else
              let takenClosed := S takenClosed in
              let doneThis := doneThisSprint s in
              if doneThis >? of_Z 0 then
                let acc := acc ++ [doneThis / fte] in
                if (2 <=? List.length acc)%nat then acc
                else nonZeroVel_loop sprints fte i takenClosed acc
              else nonZeroVel_loop sprints fte i takenClosed acc
        | None => acc
        end
      else acc
  end.

(** Projection: anchor at the last closed sprint, velocity signal from the
    most recent 1-2 non-zero closed sprints. *)
Definition computeProjection (sprints : list SprintSummary)
  (sprintLenMs sprintFTE latestScope targetScope targetDateMs : number)
  : BurnupProjection :=
  match sprints with
  | [] => nullProjection
  | _ =>
  match findLastClosed sprints (List.length sprints) with
  | None => nullProjection
  | Some (lastClosedIndex, anchor) =>
      let fromTimeMs := endMs anchor in
      let fromDone := cumDoneEnd anchor in
      let remainingStoriesFromAnchor := Math_max (of_Z 0) (latestScope - fromDone) in
      let remainingToTarget := Math_max (of_Z 0) (targetScope - fromDone) in
      let toTarget : option number * option number :=
        if isFinite targetDateMs && (targetDateMs >? fromTimeMs) then
          let msToTarget := targetDateMs - fromTimeMs in
          let sprintsFloat := msToTarget / sprintLenMs in
          if sprintsFloat >? of_Z 0 then
            (Some (Math_ceil sprintsFloat),
             Some (if remainingToTarget >? of_Z 0
                   then remainingToTarget / sprintsFloat else of_Z 0))
          else (None, None)
        else (None, None) in
      let sprintsRemainingToTarget := fst toTarget in
      let requiredStoriesPerSprintToHitTarget := snd toTarget in
      let fte := Math_max (Fin (1 # 10)) (if isFinite sprintFTE then sprintFTE else of_Z 0) in
      let recentStoriesPerSprint := avgStoriesLastNClosed sprints lastClosedIndex 2 in
      let nonZeroVelPerFTE := nonZeroVel_loop sprints fte (S lastClosedIndex) 0 [] in
      match nonZeroVelPerFTE with
      | [] =>
          {| hasSignal := false;
             fromSprintIndex := Some (of_nat lastClosedIndex);
             fromTimeMs := Some fromTimeMs;
             fromDone := Some fromDone;
             projectedDonePerSprint := None;
             avgVelPerFTE := None;
             projectedCompletionMs := None;
             projectedCompletionEarlyMs := None;
             projectedCompletionLateMs := None;
             requiredFTEToHitTarget := None;
             suggestedMaxFTE := None;
             remainingStoriesFromAnchor := Some remainingStoriesFromAnchor;
             sprintsRemainingToTarget := sprintsRemainingToTarget;
             requiredStoriesPerSprintToHitTarget := requiredStoriesPerSprintToHitTarget;
             recentStoriesPerSprint := recentStoriesPerSprint |}
      | _ =>
      let avgVelPerFTE :=
        sum_numbers nonZeroVelPerFTE / of_nat (List.length nonZeroVelPerFTE) in
      let required : option number * option number :=
        if (avgVelPerFTE >? of_Z 0) && isFinite targetDateMs then
          if remainingToTarget <=? of_Z 0 then
            (Some (of_Z 0), Some (Math_max sprintFTE (of_Z 0) + of_Z 1))
          else if targetDateMs >? fromTimeMs then
            let sprintsFloat := (targetDateMs - fromTimeMs) / sprintLenMs in
            if sprintsFloat >? of_Z 0 then
              let requiredPerSprint := remainingToTarget / sprintsFloat in
              let fteRequired := requiredPerSprint / avgVelPerFTE in
              if isFinite fteRequired && (fteRequired >? of_Z 0) then
                (Some fteRequired, Some (fteRequired + of_Z 1))
              else (None, None)
            else (None, None)
          else (None, None)
        else (None, None) in
      let requiredFTEToHitTarget := fst required in
      let suggestedMaxFTE := snd required in
      let projectedDonePerSprint := avgVelPerFTE * fte in
      if negb (projectedDonePerSprint >? of_Z 0) then
        {| hasSignal := false;
           fromSprintIndex := Some (of_nat lastClosedIndex);
           fromTimeMs := Some fromTimeMs;
           fromDone := Some fromDone;
           projectedDonePerSprint := None;
           avgVelPerFTE := Some avgVelPerFTE;
           projectedCompletionMs := None;
           projectedCompletionEarlyMs := None;
           projectedCompletionLateMs := None;
           requiredFTEToHitTarget := requiredFTEToHitTarget;
           suggestedMaxFTE := suggestedMaxFTE;
           remainingStoriesFromAnchor := Some remainingStoriesFromAnchor;
           sprintsRemainingToTarget := sprintsRemainingToTarget;
           requiredStoriesPerSprintToHitTarget := requiredStoriesPerSprintToHitTarget;
           recentStoriesPerSprint := recentStoriesPerSprint |}
      else
      let remaining := Math_max (of_Z 0) (latestScope - fromDone) in
      if remaining === of_Z 0 then
        {| hasSignal := true;
           fromSprintIndex := Some (of_nat lastClosedIndex);
           fromTimeMs := Some fromTimeMs;
           fromDone := Some fromDone;
           projectedDonePerSprint := Some projectedDonePerSprint;
           avgVelPerFTE := Some avgVelPerFTE;
           projectedCompletionMs := Some fromTimeMs;
           projectedCompletionEarlyMs := Some fromTimeMs;
           projectedCompletionLateMs := Some fromTimeMs;
           requiredFTEToHitTarget := requiredFTEToHitTarget;
           suggestedMaxFTE := suggestedMaxFTE;
           remainingStoriesFromAnchor := Some remainingStoriesFromAnchor;
           sprintsRemainingToTarget := sprintsRemainingToTarget;
           requiredStoriesPerSprintToHitTarget := requiredStoriesPerSprintToHitTarget;
           recentStoriesPerSprint := recentStoriesPerSprint |}
      else
      let projectedSprints := remaining / projectedDonePerSprint in
      let projectedCompletionMs := fromTimeMs + projectedSprints * sprintLenMs in
      let fastDonePerSprint := projectedDonePerSprint * Fin (6 # 5) in
      let slowDonePerSprint := projectedDonePerSprint * Fin (4 # 5) in
      let projectedCompletionEarlyMs :=
        if fastDonePerSprint >? of_Z 0
        then fromTimeMs + (remaining / fastDonePerSprint) * sprintLenMs
        else projectedCompletionMs in
      let projectedCompletionLateMs :=
        if slowDonePerSprint >? of_Z 0
        then fromTimeMs + (remaining / slowDonePerSprint) * sprintLenMs
        else projectedCompletionMs in
      {| hasSignal := true;
         fromSprintIndex := Some (of_nat lastClosedIndex);
         fromTimeMs := Some fromTimeMs;
         fromDone := Some fromDone;
         projectedDonePerSprint := Some projectedDonePerSprint;
         avgVelPerFTE := Some avgVelPerFTE;
         projectedCompletionMs := Some projectedCompletionMs;
         projectedCompletionEarlyMs := Some projectedCompletionEarlyMs;
         projectedCompletionLateMs := Some projectedCompletionLateMs;
         requiredFTEToHitTarget := requiredFTEToHitTarget;
         suggestedMaxFTE := suggestedMaxFTE;
         remainingStoriesFromAnchor := Some remainingStoriesFromAnchor;
         sprintsRemainingToTarget := sprintsRemainingToTarget;
         requiredStoriesPerSprintToHitTarget := requiredStoriesPerSprintToHitTarget;
         recentStoriesPerSprint := recentStoriesPerSprint |}
      end
  end
  end.

(** [{ ...projection, projectedDonePerSprint, projectedCompletion*Ms }] with
    the signal flag given. *)
Definition withForecast (p : BurnupProjection) (signal : bool)
  (perSprint central early late : option number) : BurnupProjection :=
  {| hasSignal := signal;
     fromSprintIndex := fromSprintIndex p;
     fromTimeMs := fromTimeMs p;
     fromDone := fromDone p;
     projectedDonePerSprint := perSprint;
     avgVelPerFTE := avgVelPerFTE p;
     projectedCompletionMs := central;
     projectedCompletionEarlyMs := early;
     projectedCompletionLateMs := late;
     requiredFTEToHitTarget := requiredFTEToHitTarget p;
     suggestedMaxFTE := suggestedMaxFTE p;
     remainingStoriesFromAnchor := remainingStoriesFromAnchor p;
     sprintsRemainingToTarget := sprintsRemainingToTarget p;
     requiredStoriesPerSprintToHitTarget := requiredStoriesPerSprintToHitTarget p;
     recentStoriesPerSprint := recentStoriesPerSprint p |}.

(** [{ ...model, projection, isOnTrack, daysDeltaFromTarget }]. *)
Definition withProjection (m : BurnupModel) (p : BurnupProjection)
  (onTrack : option bool) (daysDelta : option number) : BurnupModel :=
  {| sprintLengthDays := sprintLengthDays m;
     originMs := originMs m;
     targetDateMs := targetDateMs m;
     targetScope := targetScope m;
     latestScope := latestScope m;
     todayMs := todayMs m;
     currentSprintStartMs := currentSprintStartMs m;
     currentSprintEndMs := currentSprintEndMs m;
     sprints := sprints m;
     projection := p;
     totalDoneStories := totalDoneStories m;
     hasAnyDone := hasAnyDone m;
     isOnTrack := onTrack;
     daysDeltaFromTarget := daysDelta |}.

(** Recompute the projection (cone + dates) for a new FTE value, keeping
    the anchor and the historical [avgVelPerFTE] fixed. *)
Definition recomputeProjectionWithFTE (model : BurnupModel) (sprintFTE : number)
  : BurnupModel :=
  let safeFte := Math_max (of_Z 0) (if isFinite sprintFTE then sprintFTE else of_Z 0) in
  let projection := projection model in
  match sprints model, hasSignal projection, fromSprintIndex projection,
        fromTimeMs projection, fromDone projection, avgVelPerFTE projection with
  | _ :: _, true, Some _, Some fromTimeMs, Some fromDone, Some avgVelPerFTE =>
      if avgVelPerFTE <=? of_Z 0 then model
      else
        let sprintLenMs := sprintLengthDays model * DAY_MS in
        let fte := Math_max (Fin (1 # 10)) (num_or safeFte (of_Z 0)) in
        let projectedDonePerSprint := avgVelPerFTE * fte in
        if projectedDonePerSprint <=? of_Z 0 then
          withProjection model
            (withForecast projection (hasSignal projection) None None None None)
            None None
        else
          let remaining := Math_max (of_Z 0) (latestScope model - fromDone) in
          let cone : number * number * number :=
            if remaining === of_Z 0 then (fromTimeMs, fromTimeMs, fromTimeMs)
            else
              let projectedSprints := remaining / projectedDonePerSprint in
              let projectedCompletionMs := fromTimeMs + projectedSprints * sprintLenMs in
              let fastDonePerSprint := projectedDonePerSprint * Fin (6 # 5) in
              let slowDonePerSprint := projectedDonePerSprint * Fin (4 # 5) in
              (projectedCompletionMs,
               if fastDonePerSprint >? of_Z 0
               then fromTimeMs + (remaining / fastDonePerSprint) * sprintLenMs
               else projectedCompletionMs,
               if slowDonePerSprint >? of_Z 0
               then fromTimeMs + (remaining / slowDonePerSprint) * sprintLenMs
               else projectedCompletionMs) in
          let projectedCompletionMs := fst (fst cone) in
          let projectedCompletionEarlyMs := snd (fst cone) in
          let projectedCompletionLateMs := snd cone in
          let newProjection :=
            withForecast projection true (Some projectedDonePerSprint)
              (Some projectedCompletionMs) (Some projectedCompletionEarlyMs)
              (Some projectedCompletionLateMs) in
          if isFinite (targetDateMs model) then
            let daysDeltaFromTarget :=
              Math_round ((projectedCompletionMs - targetDateMs model) / DAY_MS) in
            withProjection model newProjection
              (if isFinite daysDeltaFromTarget
               then Some (daysDeltaFromTarget <=? of_Z 0) else None)
              (Some daysDeltaFromTarget)
          else withProjection model newProjection None None
  | _, _, _, _, _, _ => model
  end.

(** [xs.map(f).filter(Boolean)] and [xs.filter(x => f(x) != null).map(f)]. *)
Fixpoint filter_map {A B : Type} (f : A -> option B) (xs : list A) : list B :=
  match xs with
  | [] => []
  | x :: rest =>
      match f x with
      | Some y => y :: filter_map f rest
      | None => filter_map f rest
      end
  end.

Definition isValidDone (s : NormalisedIssue) : bool :=
  isDone s && negb (isCancelled s) && not_null (resolvedMs s).

(** "Derive origin (first sprint start)": the value of [originMs] after the
    epoch-day alignment. *)
Definition deriveOrigin (fuel : nat) (stories : list NormalisedIssue)
  (sprintLenDays uiOriginMs todayMs : number) : option number :=
  let derived : option number :=
    match stories with
    | [] => Some (if isFinite uiOriginMs then uiOriginMs else todayMs)
    | _ =>
        let validDone := filter isValidDone stories in
        let allCreated := map createdMs stories in
        match validDone with
        | _ :: _ =>
            let earliestDoneMs := Math_min_list (filter_map resolvedMs validDone) in
            let workingDaysBack :=
              Math_max (of_Z 1) (Math_round ((sprintLenDays * of_Z 5) / of_Z 7)) in
            subtractWorkingDaysUTC fuel earliestDoneMs workingDaysBack
        | [] =>
            let earliestCreatedMs := Math_min_list allCreated in
            Some (if isFinite uiOriginMs
                  then Math_min uiOriginMs earliestCreatedMs
                  else earliestCreatedMs)
        end
    end in
  match derived with
  | Some originMs =>
      let originMs := if negb (isFinite originMs) then todayMs else originMs in
      Some (epochDayFloorMs originMs)
  | None => None
  end.

Definition inScopeBy (endMs : number) (s : NormalisedIssue) : bool :=
  (createdMs s <? endMs) && negb (isCancelled s).

Definition doneBy (endMs : number) (s : NormalisedIssue) : bool :=
  isDone s &&
  match resolvedMs s with Some r => r <? endMs | None => false end &&
  (createdMs s <? endMs) &&
  negb (isCancelled s).

(** "Build sprint buckets from origin until horizon": the [while (true)]
    loop, with its state [i], [prevScopeAtEnd], [prevCumDone], [sprints]. *)
Fixpoint sprintLoop (fuel : nat) (stories : list NormalisedIssue)
  (originMs sprintLenMs horizonMs todayMs : number)
  (i : nat) (prevScopeAtEnd prevCumDone : number) (sprints : list SprintSummary)
  : option (list SprintSummary) :=
  match fuel with
  | O => None
  | S fuel' =>
      let startMs := originMs + of_nat i * sprintLenMs in
      let endMs := startMs + sprintLenMs in
      if startMs >? horizonMs then Some sprints
      else
        let isClosed := endMs <=? todayMs in
        let scopeAtEnd := of_nat (List.length (filter (inScopeBy endMs) stories)) in
        let scopeAtStart := if (i =? 0)%nat then of_Z 0 else prevScopeAtEnd in
        let doneByEndRaw := of_nat (List.length (filter (doneBy endMs) stories)) in
        let cumDoneEnd := Math_min doneByEndRaw scopeAtEnd in
        let doneThisSprint :=
          if (i =? 0)%nat then cumDoneEnd
          else Math_max (of_Z 0) (cumDoneEnd - prevCumDone) in
        sprintLoop fuel' stories originMs sprintLenMs horizonMs todayMs
          (S i) scopeAtEnd cumDoneEnd
          (sprints ++ [ {| index := of_nat i;
                           startMs := startMs;
                           endMs := endMs;
                           scopeAtEnd := scopeAtEnd;
                           scopeAtStart := scopeAtStart;
                           doneThisSprint := doneThisSprint;
                           cumDoneEnd := cumDoneEnd;
                           isClosed := isClosed |} ])
  end.

Section Build.
Context {rt : JsRuntime}.

(** Main entry point: turn raw stories + sprint parameters into a burn-up
    model.  [None] is "still running when the fuel ran out". *)
Definition buildBurnupModel (fuel : nat) (input : BuildBurnupInput)
  : option BurnupModel :=
  let sprintLenDays :=
    match Input.sprintLengthDays input with Some d => d | None => of_Z 14 end in
  let sprintLenMs := sprintLenDays * DAY_MS in
  let uiOriginMs := parseISODate (Input.sprintStartISO input) in
  let targetDateMs := parseISODate (Input.devCompletionISO input) in
  let todayMs :=
    match Input.todayISO input with
    | Some t => if nonempty t then parseISODate t else epochDayFloorMs Date_now
    | None => epochDayFloorMs Date_now
    end in
  if negb (isFinite targetDateMs) then
    Some (emptyModel sprintLenDays uiOriginMs targetDateMs todayMs)
  else
  let sprintFTE :=
    Math_max (of_Z 0)
      (if isFinite (Input.sprintFTE input) then Input.sprintFTE input else of_Z 0) in
  let stories := filter_map normaliseIssue (Input.stories input) in
  match deriveOrigin fuel stories sprintLenDays uiOriginMs todayMs with
  | None => None
  | Some originMs =>
  let lastStoryCreatedMs :=
    match stories with
    | [] => originMs
    | _ => Math_max_list (map createdMs stories)
    end in
  let lastStoryResolvedMsArr := filter_map resolvedMs stories in
  let lastStoryMs :=
    match lastStoryResolvedMsArr with
    | [] => lastStoryCreatedMs
    | _ => Math_max lastStoryCreatedMs (Math_max_list lastStoryResolvedMsArr)
    end in
  let baseHorizonMs := Math_max_list [todayMs; targetDateMs; lastStoryMs] in
  let horizonMs := baseHorizonMs + sprintLenMs * of_Z 6 in
  match sprintLoop fuel stories originMs sprintLenMs horizonMs todayMs
          0 (of_Z 0) (of_Z 0) [] with
  | None => None
  | Some sprints =>
  let latestScope :=
    match last_opt sprints with Some s => scopeAtEnd s | None => of_Z 0 end in
  let targetScope := computeScopeAtDate sprints targetDateMs in
  let totalDoneStories :=
    match last_opt sprints with Some s => cumDoneEnd s | None => of_Z 0 end in
  let hasAnyDone := totalDoneStories >? of_Z 0 in
  let projection :=
    computeProjection sprints sprintLenMs sprintFTE latestScope targetScope
      targetDateMs in
  let window : number * number :=
    if isFinite originMs && isFinite todayMs && (sprintLenMs >? of_Z 0) then
      let deltaMs := todayMs - originMs in
      let idx := Math_max (of_Z 0) (Math_floor (deltaMs / sprintLenMs)) in
      let currentSprintStartMs := originMs + idx * sprintLenMs in
      (currentSprintStartMs,
       currentSprintStartMs + (sprintLenDays - of_Z 1) * DAY_MS)
    else (originMs, originMs) in
  let health : option bool * option number :=
    match hasSignal projection, projectedCompletionMs projection with
    | true, Some pc =>
        let daysDelta := Math_round ((pc - targetDateMs) / DAY_MS) in
        (if isFinite daysDelta then Some (daysDelta <=? of_Z 0) else None,
         Some daysDelta)
    | _, _ => (None, None)
    end in
  Some {| sprintLengthDays := sprintLenDays;
          originMs := originMs;
          targetDateMs := targetDateMs;
          targetScope := targetScope;
          latestScope := latestScope;
          todayMs := todayMs;
          currentSprintStartMs := fst window;
          currentSprintEndMs := snd window;
          sprints := sprints;
          projection := projection;
          totalDoneStories := totalDoneStories;
          hasAnyDone := hasAnyDone;
          isOnTrack := fst health;
          daysDeltaFromTarget := snd health |}
  end
  end.

End Build.

(* ------------------------------------------------------------------ *)
(** ** A host for the worked examples                                  *)
(* ------------------------------------------------------------------ *)

Open Scope string_scope.

Definition digit_of (c : ascii) : option Z :=
  let n := nat_of_ascii c in
  if ((48 <=? n) && (n <=? 57))%nat then Some (Z.of_nat (n - 48)) else None.

Fixpoint digits_value (s : string) (acc : Z) : option Z :=
  match s with
  | EmptyString => Some acc
  | String c s' =>
      match digit_of c with
      | Some d => digits_value s' (10 * acc + d)%Z
      | None => None
      end
  end.

(** [Number(s)] on blank strings and unsigned decimal integers; the other
    strings of the examples are not numeric literals. *)
Definition example_Number (s : string) : number :=
  match trim s with
  | EmptyString => of_Z 0
  | t => match digits_value t 0 with Some z => of_Z z | None => NaN end
  end.

(** [Date.parse(s)] on the date-only form [YYYY-MM-DD], which is UTC
    midnight of that day. *)
Definition example_Date_parse (s : string) : number :=
  match split "-"%char s with
  | [y; m; d] =>
      if ((String.length y =? 4) && (String.length m =? 2) && (String.length d =? 2))%nat
      then
        match digits_value y 0, digits_value m 0, digits_value d 0 with
        | Some yz, Some mz, Some dz =>
            if ((1 <=? mz) && (mz <=? 12) && (1 <=? dz) &&
                (dz <=? days_from_civil yz (mz + 1) 1 - days_from_civil yz mz 1))%Z
            then of_Z (days_from_civil yz mz dz * msPerDay)
            else NaN
        | _, _, _ => NaN
        end
      else NaN
  | _ => NaN
  end.

(** The clock of the examples reads 2025-03-03T12:00:00Z. *)
Definition exampleRuntime : JsRuntime :=
  {| Date_parse := example_Date_parse;
     Number_of_string := example_Number;
     Date_now := of_Z 1741003200000 |}.

Definition story (created : string) (resolved : option string)
  (cat : option StatusCategory) (status : option string) : BurnupIssue :=
  {| key := None; created := created; resolutiondate := resolved;
     statusCategory := cat; status := status |}.

(** Scenario "single completed story defines origin". *)
Definition scenario_single_done : BuildBurnupInput :=
  {| Input.stories := [story "2025-01-01" (Some "2025-01-20") (Some Done) (Some "Done")];
     Input.sprintStartISO := "2025-01-06";
     Input.devCompletionISO := "2025-06-01";
     Input.sprintFTE := of_Z 2;
     Input.todayISO := Some "2025-03-03";
     Input.sprintLengthDays := Some (of_Z 14) |}.





(** A project with no story yet whose target date, 2025-01-10, has passed
    when its first sprint closes on 2025-01-20. *)
Definition scenario_overdue : BuildBurnupInput :=
  {| Input.stories := [];
     Input.sprintStartISO := "2025-01-06";
     Input.devCompletionISO := "2025-01-10";
     Input.sprintFTE := of_Z 2;
     Input.todayISO := Some "2025-01-21";
     Input.sprintLengthDays := None |}.

(** A project with two done stories, one in progress, one cancelled and one
    to do; 14-day sprints, two FTE, today 2025-03-03, target 2025-04-01. *)
Definition scenario_mixed : BuildBurnupInput :=
  {| Input.stories :=
       [story "2025-01-02" (Some "2025-01-15") (Some Done) (Some "Done");
        story "2025-01-10" (Some "2025-02-05") (Some Done) (Some "Closed");
        story "2025-01-20" None (Some InProgress) (Some "In Progress");
        story "2025-02-01" None (Some ToDo) (Some "Cancelled");
        story "2025-02-10" None (Some ToDo) (Some "To Do")];
     Input.sprintStartISO := "2025-01-06";
     Input.devCompletionISO := "2025-04-01";
     Input.sprintFTE := of_Z 2;
     Input.todayISO := Some "2025-03-03";
     Input.sprintLengthDays := Some (of_Z 14) |}.

(** The same project with the target date on 2025-03-26, two sprints
    after the end of the last closed sprint. *)
Definition scenario_on_time : BuildBurnupInput :=
  {| Input.stories := Input.stories scenario_mixed;
     Input.sprintStartISO := "2025-01-06";
     Input.devCompletionISO := "2025-03-26";
     Input.sprintFTE := of_Z 2;
     Input.todayISO := Some "2025-03-03";
     Input.sprintLengthDays := Some (of_Z 14) |}.

(** The same project before any story is done. *)
Definition scenario_not_started : BuildBurnupInput :=
  {| Input.stories :=
       [story "2025-01-20" None (Some InProgress) (Some "In Progress");
        story "2025-01-10" None (Some ToDo) (Some "To Do")];
     Input.sprintStartISO := "2025-01-06";
     Input.devCompletionISO := "2025-04-01";
     Input.sprintFTE := of_Z 2;
     Input.todayISO := Some "2025-03-03";
     Input.sprintLengthDays := Some (of_Z 14) |}.

(** A project whose only story was withdrawn. *)
Definition scenario_withdrawn : BuildBurnupInput :=
  {| Input.stories :=
       [story "2025-01-10" (Some "2025-01-20") (Some Done) (Some "Withdrawn")];
     Input.sprintStartISO := "2025-01-06";
     Input.devCompletionISO := "2025-04-01";
     Input.sprintFTE := of_Z 2;
     Input.todayISO := Some "2025-03-03";
     Input.sprintLengthDays := Some (of_Z 14) |}.

(** Scenario "no data yet" with a sprint length of 0 days. *)
Definition scenario_zero_length : BuildBurnupInput :=
  {| Input.stories := [];
     Input.sprintStartISO := "2025-01-06";
     Input.devCompletionISO := "2025-06-01";
     Input.sprintFTE := of_Z 5;
     Input.todayISO := Some "2025-03-03";
     Input.sprintLengthDays := Some (of_Z 0) |}.

Close Scope string_scope.

(** The model a terminated build returned. *)
Definition model_of (o : option BurnupModel) : BurnupModel :=
  match o with
  | Some m => m
  | None => emptyModel NaN NaN NaN NaN
  end.

(** The model of the single-completed-story scenario. *)
Definition model_single_done : BurnupModel :=
  model_of (@buildBurnupModel exampleRuntime 100 scenario_single_done).

(** The models of the mixed, not-started and withdrawn scenarios. *)
Definition model_mixed : BurnupModel :=
  model_of (@buildBurnupModel exampleRuntime 100 scenario_mixed).

Definition model_on_time : BurnupModel :=
  model_of (@buildBurnupModel exampleRuntime 100 scenario_on_time).

Definition model_not_started : BurnupModel :=
  model_of (@buildBurnupModel exampleRuntime 100 scenario_not_started).

Definition model_withdrawn : BurnupModel :=
  model_of (@buildBurnupModel exampleRuntime 100 scenario_withdrawn).

(** A closed sprint of the velocity scenario. *)
Definition closedSprint (i : Z) (done cum : Z) : SprintSummary :=
  {| index := of_Z i;
     startMs := of_Z (1736121600000 + i * 1209600000);
     endMs := of_Z (1736121600000 + (i + 1) * 1209600000);
     scopeAtEnd := of_Z 12;
     scopeAtStart := if (i =? 0)%Z then of_Z 0 else of_Z 12;
     doneThisSprint := of_Z done;
     cumDoneEnd := of_Z cum;
     isClosed := true |}.

(** Scenario "velocity extrapolation": three closed sprints with
    [doneThisSprint] 4, 0, 6 (most recent last). *)
Definition scenario_velocity : list SprintSummary :=
  [closedSprint 0 4 4; closedSprint 1 0 4; closedSprint 2 6 10].

(* ------------------------------------------------------------------ *)
(** ** The what-if controls of [app/page.tsx]                          *)
(* ------------------------------------------------------------------ *)

(** The forward scan [for (i = 0; i < sprints.length; i += 1)
    if (sprints[i].isClosed) lastClosedIndex = i], on the sprints from index
    [i] on; the sprint [sprints[lastClosedIndex]] is kept with the index,
    and [None] is [lastClosedIndex = -1]. *)
Fixpoint lastClosedIndex_loop (sprints : list SprintSummary) (i : nat)
  (lastClosed : option (nat * SprintSummary)) : option (nat * SprintSummary) :=
  match sprints with
  | [] => lastClosed
  | s :: rest =>
      lastClosedIndex_loop rest (S i) (if isClosed s then Some (i, s) else lastClosed)
  end.

Module VelocitySlider.
Record Bounds : Type := { min : number; max : number }.
End VelocitySlider.

Definition defaultVelocityBounds : VelocitySlider.Bounds :=
  {| VelocitySlider.min := of_Z 5; VelocitySlider.max := of_Z 80 |}.

(** Bounds of the velocity slider (stories per sprint). *)
Definition getVelocitySliderBounds (model : option BurnupModel)
  : VelocitySlider.Bounds :=
  match model with
  | None => defaultVelocityBounds
  | Some model =>
  let proj := projection model in
  match hasSignal proj, fromTimeMs proj, fromDone proj with
  | true, Some fromTimeMs, Some fromDone =>
      let targetDateMs := targetDateMs model in
      let sprintLengthDays := sprintLengthDays model in
      let latestScope := latestScope model in
      if negb (isFinite targetDateMs) || (sprintLengthDays <=? of_Z 0)
      then defaultVelocityBounds
      else
      let remainingStories := Math_max (of_Z 0) (latestScope - fromDone) in
      let sprintLenMs := sprintLengthDays * DAY_MS in
      let remainingTimeMs := targetDateMs - fromTimeMs in
      if (remainingStories <=? of_Z 0) || (remainingTimeMs <=? of_Z 0)
      then defaultVelocityBounds
      else
      let sprintsRemaining :=
        Math_max (of_Z 1) (Math_ceil (remainingTimeMs / sprintLenMs)) in
      let requiredStoriesPerSprint := remainingStories / sprintsRemaining in
      let recent := recentStoriesPerSprint proj in
      let baseline : option number :=
        if truthy_opt recent &&
           match recent with Some r => r >? of_Z 0 | None => false end
        then recent
        else if requiredStoriesPerSprint >? of_Z 0
             then Some requiredStoriesPerSprint
             else None in
      match baseline with
      | Some baseline =>
          if negb (truthy baseline) || negb (isFinite baseline)
          then defaultVelocityBounds
          else
            let min := Math_max (of_Z 1) (Math_floor (baseline * Fin (1 # 2))) in
            let max :=
              Math_max (Math_ceil (requiredStoriesPerSprint * Fin (3 # 2)))
                       (Math_ceil (baseline * of_Z 2)) in
            {| VelocitySlider.min := min;
               VelocitySlider.max := Math_max (min + of_Z 5) max |}
      | None => defaultVelocityBounds
      end
  | _, _, _ => defaultVelocityBounds
  end
  end.

Module ScopeSlider.
Record ScopeSliderConfig : Type := {
  enabled : bool;
  baselineScope : number;
  min : number;
  max : number
}.
End ScopeSlider.
Abbreviation ScopeSliderConfig := ScopeSlider.ScopeSliderConfig.

Definition disabledScopeSlider : ScopeSliderConfig :=
  {| ScopeSlider.enabled := false; ScopeSlider.baselineScope := of_Z 0;
     ScopeSlider.min := of_Z 0; ScopeSlider.max := of_Z 0 |}.

(** Range of the scope slider, around the scope at the last closed
    sprint. *)
Definition computeScopeSliderConfig (model : option BurnupModel)
  : ScopeSliderConfig :=
  match model with
  | None => disabledScopeSlider
  | Some model =>
  match sprints model with
  | [] => disabledScopeSlider
  | _ =>
  let sprints := sprints model in
  match lastClosedIndex_loop sprints 0 None with
  | None => disabledScopeSlider
  | Some (lastClosedIndex, lastClosed) =>
      if (lastClosedIndex =? List.length sprints - 1)%nat then disabledScopeSlider
      else
        let baselineScope := scopeAtEnd lastClosed in
        let safeBaseline :=
          if baselineScope >? of_Z 0 then baselineScope else of_Z 1 in
        let span := Math_max (of_Z 50) (Math_round (safeBaseline * Fin (1 # 2))) in
        let min := Math_max (of_Z 0) (baselineScope - span) in
        let max := baselineScope + span in
        {| ScopeSlider.enabled := true; ScopeSlider.baselineScope := baselineScope;
           ScopeSlider.min := min; ScopeSlider.max := max |}
  end
  end
  end.

(** [s.scopeAtStart = a; s.scopeAtEnd = b] on a copy of [s]. *)
Definition withScope (s : SprintSummary) (atStart atEnd : number)
  : SprintSummary :=
  {| index := index s;
     startMs := startMs s;
     endMs := endMs s;
     scopeAtEnd := atEnd;
     scopeAtStart := atStart;
     doneThisSprint := doneThisSprint s;
     cumDoneEnd := cumDoneEnd s;
     isClosed := isClosed s |}.

(** [arr[i] = x] for an index inside the array. *)
Fixpoint set_nth {A : Type} (i : nat) (x : A) (arr : list A) : list A :=
  match arr, i with
  | [], _ => []
  | _ :: rest, O => x :: rest
  | y :: rest, S j => y :: set_nth j x rest
  end.

(** One iteration of the rewriting loop of [buildScopeAdjustedModel] over
    the array [newSprints]; [None] is the [TypeError] of reading a property
    of [undefined].  The test [i <= lastClosedIndex] leaves the iteration
    before index [i - 1] is read, so that index is not negative. *)
Definition adjustScope_step (lastClosedIndex nextIndex : nat) (newScope : number)
  (newSprints : option (list SprintSummary)) (i : nat)
  : option (list SprintSummary) :=
  match newSprints with
  | None => None
  | Some arr =>
      if (i <=? lastClosedIndex)%nat then Some arr
      else
        match nth_error arr i with
        | None => None
        | Some s =>
            if (i =? nextIndex)%nat then
              match nth_error arr (i - 1) with
              | Some p => Some (set_nth i (withScope s (scopeAtEnd p) newScope) arr)
              | None => None
              end
            else Some (set_nth i (withScope s newScope newScope) arr)
        end
  end.

(** The model with the scope of the open sprints replaced by
    [overrideScope]; [None] is a [TypeError]. *)
Definition buildScopeAdjustedModel (base : BurnupModel) (overrideScope : number)
  : option BurnupModel :=
  let sprints := sprints base in
  match sprints with
  | [] => Some base
  | _ =>
  match lastClosedIndex_loop sprints 0 None with
  | None => Some base
  | Some (lastClosedIndex, _) =>
      let newScope := Math_max (of_Z 0) (Math_round overrideScope) in
      let nextIndex := Nat.min (lastClosedIndex + 1) (List.length sprints - 1) in
      match fold_left (adjustScope_step lastClosedIndex nextIndex newScope)
              (seq 0 (List.length sprints)) (Some sprints) with
      | None => None
      | Some newSprints =>
          match last_opt newSprints with
          | None => None
          | Some lastSprint =>
              let latestScope := scopeAtEnd lastSprint in
              let targetDateMs := targetDateMs base in
              let chosen :=
                match firstEndingOnOrAfter newSprints targetDateMs with
                | Some s => s
                | None => lastSprint
                end in
              let targetScope := scopeAtEnd chosen in
              Some {| sprintLengthDays := sprintLengthDays base;
                      originMs := originMs base;
                      targetDateMs := targetDateMs;
                      targetScope := targetScope;
                      latestScope := latestScope;
                      todayMs := todayMs base;
                      currentSprintStartMs := currentSprintStartMs base;
                      currentSprintEndMs := currentSprintEndMs base;
                      sprints := newSprints;
                      projection := projection base;
                      totalDoneStories := totalDoneStories base;
                      hasAnyDone := hasAnyDone base;
                      isOnTrack := isOnTrack base;
                      daysDeltaFromTarget := daysDeltaFromTarget base |}
          end
      end
  end
  end.

(** [onChangeFTE(next)]: the slider value is moved into the bounds of the
    velocity slider and kept as the [sprintFTE] state, and the model in the
    state is re-parameterised at the FTE that gives this velocity.  The
    result is the pair of the two new states. *)
Definition onChangeFTE (sliderMinVelocity sliderMaxVelocity next : number)
  (prev : option BurnupModel) : number * option BurnupModel :=
  let v := next in
  let v := if v <? sliderMinVelocity then sliderMinVelocity else v in
  let v := if v >? sliderMaxVelocity then sliderMaxVelocity else v in
  (v,
   match prev with
   | None => None
   | Some m =>
       match hasSignal (projection m), avgVelPerFTE (projection m) with
       | true, Some avgVelPerFTE =>
           if avgVelPerFTE <=? of_Z 0 then Some m
           else
             let fteForVelocity := v / avgVelPerFTE in
             Some (recomputeProjectionWithFTE m fteForVelocity)
       | _, _ => Some m
       end
   end).

(* ------------------------------------------------------------------ *)
(** ** Vocabulary of the statements                                    *)
(* ------------------------------------------------------------------ *)

(** Every nullable field of the projection is null. *)
Definition all_fields_null (p : BurnupProjection) : Prop :=
  fromSprintIndex p = None /\ fromTimeMs p = None /\ fromDone p = None /\
  projectedDonePerSprint p = None /\ avgVelPerFTE p = None /\
  projectedCompletionMs p = None /\ projectedCompletionEarlyMs p = None /\
  projectedCompletionLateMs p = None /\ requiredFTEToHitTarget p = None /\
  suggestedMaxFTE p = None /\ remainingStoriesFromAnchor p = None /\
  sprintsRemainingToTarget p = None /\
  requiredStoriesPerSprintToHitTarget p = None /\
  recentStoriesPerSprint p = None.

(** The forecast fields of the projection are null. *)
Definition forecast_null (p : BurnupProjection) : Prop :=
  avgVelPerFTE p = None /\ projectedDonePerSprint p = None /\
  projectedCompletionMs p = None /\ projectedCompletionEarlyMs p = None /\
  projectedCompletionLateMs p = None /\ requiredFTEToHitTarget p = None /\
  suggestedMaxFTE p = None.

(** [anchor], at index [i], is the last closed sprint of the sequence. *)
Definition is_last_closed (sprints : list SprintSummary) (i : nat)
  (anchor : SprintSummary) : Prop :=
  nth_error sprints i = Some anchor /\ isClosed anchor = true /\
  forall j s, (i < j)%nat -> nth_error sprints j = Some s -> isClosed s = false.

(** The closed sprints met walking backward from index [i], most recent
    first. *)
Definition closedBackFrom (sprints : list SprintSummary) (i : nat)
  : list SprintSummary :=
  filter isClosed (rev (firstn (S i) sprints)).

(** The same walk cut at the look-back cap. *)
Definition lookbackWindow (sprints : list SprintSummary) (i : nat)
  : list SprintSummary :=
  firstn LOOKBACK_CLOSED (closedBackFrom sprints i).

(** [doneThisSprint] of the last two closed sprints, zeros included. *)
Definition recentSamples (sprints : list SprintSummary) (i : nat) : list number :=
  firstn 2 (map doneThisSprint (closedBackFrom sprints i)).

(** The velocity samples in the words of the specification: the first two
    [doneThisSprint / fte] with [doneThisSprint > 0] of the look-back. *)
Definition velocitySamples (sprints : list SprintSummary) (i : nat)
  (fte : number) : list number :=
  firstn 2
    (map (fun s => doneThisSprint s / fte)
       (filter (fun s => doneThisSprint s >? of_Z 0) (lookbackWindow sprints i))).

(** Arithmetic mean. *)
Definition mean (xs : list number) : number :=
  sum_numbers xs / of_nat (List.length xs).

(** Sprints from the anchor to the target date, as a fraction. *)
Definition sprintsFloatToTarget (sprintLenMs targetDateMs fromTimeMs : number)
  : number :=
  (targetDateMs - fromTimeMs) / sprintLenMs.

(** The target date lies a positive number of sprints after the anchor. *)
Definition targetAhead (sprintLenMs targetDateMs fromTimeMs : number) : bool :=
  isFinite targetDateMs && (targetDateMs >? fromTimeMs) &&
  (sprintsFloatToTarget sprintLenMs targetDateMs fromTimeMs >? of_Z 0).

(** A projection with a positive projected velocity and no work left
    from its anchor puts its three completion timestamps on the anchor. *)
Definition anchored_when_delivered (latestScope : number) (p : BurnupProjection)
  : Prop :=
  forall v d,
    projectedDonePerSprint p = Some v -> (v >? of_Z 0) = true ->
    fromDone p = Some d ->
    (Math_max (of_Z 0) (latestScope - d) === of_Z 0) = true ->
    exists t, fromTimeMs p = Some t /\
              projectedCompletionMs p = Some t /\
              projectedCompletionEarlyMs p = Some t /\
              projectedCompletionLateMs p = Some t.

(** The FTE the re-parameteriser multiplies by. *)
Definition reparamFTE (sprintFTE : number) : number :=
  Math_max (Fin (1 # 10))
    (num_or (Math_max (of_Z 0) (if isFinite sprintFTE then sprintFTE else of_Z 0))
       (of_Z 0)).

(** The FTE the projection divides by: floored at 0.1. *)
Definition effectiveFTE (sprintFTE : number) : number :=
  Math_max (Fin (1 # 10)) (if isFinite sprintFTE then sprintFTE else of_Z 0).

(** The four forecast fields of two projections agree. *)
Definition same_forecast (p p' : BurnupProjection) : Prop :=
  projectedDonePerSprint p' = projectedDonePerSprint p /\
  projectedCompletionMs p' = projectedCompletionMs p /\
  projectedCompletionEarlyMs p' = projectedCompletionEarlyMs p /\
  projectedCompletionLateMs p' = projectedCompletionLateMs p.

(** The status text the normaliser tests. *)
Definition rawStatusOf (issue : BurnupIssue) : string :=
  toUpperCase (trim (match status issue with Some s => s | None => EmptyString end)).

(** The resolution date is missing, empty or unparseable. *)
Definition resolutionUnusable `{JsRuntime} (issue : BurnupIssue) : Prop :=
  match resolutiondate issue with
  | None => True
  | Some r => nonempty r = false \/ isFinite (parseJiraDate r) = false
  end.

(** The sprint windows and their aggregates in closed form. *)
Definition windowStart (originMs sprintLenMs : number) (i : nat) : number :=
  originMs + of_nat i * sprintLenMs.

Definition windowEnd (originMs sprintLenMs : number) (i : nat) : number :=
  windowStart originMs sprintLenMs i + sprintLenMs.

Definition scopeBy (stories : list NormalisedIssue) (endMs : number) : number :=
  of_nat (List.length (filter (inScopeBy endMs) stories)).

Definition rawDoneBy (stories : list NormalisedIssue) (endMs : number) : number :=
  of_nat (List.length (filter (doneBy endMs) stories)).

Definition cumDoneBy (stories : list NormalisedIssue) (endMs : number) : number :=
  Math_min (rawDoneBy stories endMs) (scopeBy stories endMs).

Definition sprintAt (stories : list NormalisedIssue)
  (originMs sprintLenMs todayMs : number) (i : nat) : SprintSummary :=
  let e := windowEnd originMs sprintLenMs i in
  {| index := of_nat i;
     startMs := windowStart originMs sprintLenMs i;
     endMs := e;
     scopeAtEnd := scopeBy stories e;
     scopeAtStart :=
       match i with
       | O => of_Z 0
       | S j => scopeBy stories (windowEnd originMs sprintLenMs j)
       end;
     doneThisSprint :=
       match i with
       | O => cumDoneBy stories e
       | S j =>
           Math_max (of_Z 0)
             (cumDoneBy stories e -
              cumDoneBy stories (windowEnd originMs sprintLenMs j))
       end;
     cumDoneEnd := cumDoneBy stories e;
     isClosed := e <=? todayMs |}.

(** The loop state [prevScopeAtEnd], [prevCumDone] on entering window [i]. *)
Definition carried (stories : list NormalisedIssue)
  (originMs sprintLenMs : number) (i : nat) (prevScopeAtEnd prevCumDone : number)
  : Prop :=
  match i with
  | O => True
  | S j =>
      prevScopeAtEnd = scopeBy stories (windowEnd originMs sprintLenMs j) /\
      prevCumDone = cumDoneBy stories (windowEnd originMs sprintLenMs j)
  end.

(** The values [buildBurnupModel] derives from its input before the loop. *)
Definition sprintLenDaysOf (input : BuildBurnupInput) : number :=
  match Input.sprintLengthDays input with Some d => d | None => of_Z 14 end.

Definition sprintLenMsOf (input : BuildBurnupInput) : number :=
  sprintLenDaysOf input * DAY_MS.

Definition targetOf `{JsRuntime} (input : BuildBurnupInput) : number :=
  parseISODate (Input.devCompletionISO input).

Definition todayOf `{JsRuntime} (input : BuildBurnupInput) : number :=
  match Input.todayISO input with
  | Some t => if nonempty t then parseISODate t else epochDayFloorMs Date_now
  | None => epochDayFloorMs Date_now
  end.

Definition storiesOf `{JsRuntime} (input : BuildBurnupInput) : list NormalisedIssue :=
  filter_map normaliseIssue (Input.stories input).

Definition lastStoryMsOf (stories : list NormalisedIssue) (originMs : number)
  : number :=
  let lastStoryCreatedMs :=
    match stories with
    | [] => originMs
    | _ => Math_max_list (map createdMs stories)
    end in
  match filter_map resolvedMs stories with
  | [] => lastStoryCreatedMs
  | _ => Math_max lastStoryCreatedMs (Math_max_list (filter_map resolvedMs stories))
  end.

Definition horizonOf `{JsRuntime} (input : BuildBurnupInput) (originMs : number)
  : number :=
  Math_max_list [todayOf input; targetOf input;
                 lastStoryMsOf (storiesOf input) originMs]
  + sprintLenMsOf input * of_Z 6.





(** Monday to Friday, by epoch-day number: day 0, 1970-01-01, was a
    Thursday. *)
Definition weekdayZ (k : Z) : bool :=
  let d := ((k + 4) mod 7)%Z in negb (d =? 0)%Z && negb (d =? 6)%Z.

(** How many of the [len] days from day [r] on satisfy [w]. *)
Fixpoint countDays (w : Z -> bool) (r : Z) (len : nat) : nat :=
  match len with
  | O => O
  | S n => ((if w r then 1 else 0) + countDays w (r + 1)%Z n)%nat
  end.

(** Day numbers whose midnight is a time value a [Date] can hold. *)
Definition validDay (k : Z) : Prop := (-100000000 <= k <= 100000000)%Z.

(** The test [dow !== 0 && dow !== 6] of [subtractWorkingDaysUTC] at the
    midnight of day [k]. *)
Definition countsAsWorkingDay (k : Z) : bool :=
  let dow := getUTCDay (of_Z (k * msPerDay)) in
  (dow !== of_Z 0) && (dow !== of_Z 6).

(** The loop of [subtractWorkingDaysUTC] on day numbers, for a test [w]. *)
Fixpoint backLoopZ (w : Z -> bool) (fuel : nat) (k : Z) (left : nat) : option Z :=
  match fuel with
  | O => None
  | S fuel' =>
      match left with
      | O => Some k
      | S left' => backLoopZ w fuel' (k - 1)%Z (if w (k - 1)%Z then left' else left)
      end
  end.

(** [Math.max(1, Math.round((sprintLenDays * 5) / 7))].  The product and
    the quotient are exact here and rounded to binary64 in the source; the
    two agree on whole numbers of days ([workingDaysBack_whole]), and can
    differ by one day where the exact quotient is within a rounding error of
    a half. *)
Definition workingDaysBack (sprintLenDays : number) : number :=
  Math_max (of_Z 1) (Math_round ((sprintLenDays * of_Z 5) / of_Z 7)).

(** The resolution days of the valid done stories, and their minimum. *)
Definition validDoneDays (stories : list NormalisedIssue) : list number :=
  filter_map resolvedMs (filter isValidDone stories).

Definition earliestDone (stories : list NormalisedIssue) : number :=
  Math_min_list (validDoneDays stories).

(** The midnight of epoch day [k], and the timestamps of that form. *)
Definition dayMs (k : Z) : number := of_Z (k * msPerDay).

Definition dayAligned (x : number) : Prop :=
  exists k : Z, x = dayMs k.

(** Both timestamps of a normalised issue are midnights. *)
Definition alignedIssue (n : NormalisedIssue) : Prop :=
  dayAligned (createdMs n) /\
  match resolvedMs n with Some r => dayAligned r | None => True end.





(** A model the re-parameteriser can forecast from: it has sprints and a
    velocity signal, its anchor, its velocity per FTE, its latest scope and
    its sprint length are finite, the velocity is positive and the sprint
    length is not negative. *)
Definition forecastable (m : BurnupModel) : Prop :=
  sprints m <> [] /\ hasSignal (projection m) = true /\
  exists (i : number) (t d a s L : Q),
    fromSprintIndex (projection m) = Some i /\
    fromTimeMs (projection m) = Some (Fin t) /\
    fromDone (projection m) = Some (Fin d) /\
    avgVelPerFTE (projection m) = Some (Fin a) /\ (0 < a)%Q /\
    latestScope m = Fin s /\
    sprintLengthDays m = Fin L /\ (0 <= L)%Q.

(** The sprint at position [j] after a scope override: untouched up to
    the last closed sprint, at index [lastClosedIndex]; the next sprint
    starts with the scope at the end of the last closed sprint, the later
    ones with the new scope, and all of them end with the new scope. *)
Definition adjustedSprint (lastClosedIndex : nat) (newScope anchorScope : number)
  (j : nat) (s : SprintSummary) : SprintSummary :=
  if (j <=? lastClosedIndex)%nat then s
  else if (j =? S lastClosedIndex)%nat then withScope s anchorScope newScope
       else withScope s newScope newScope.

(** The scope a scope override asks for. *)
Definition overrideScopeOf (overrideScope : number) : number :=
  Math_max (of_Z 0) (Math_round overrideScope).

(* ================================================================== *)
(** * Properties                                                       *)
(* ================================================================== *)

Open Scope js_scope.
Unset Implicit Arguments.

(** ** Arithmetic of [number] *)

Lemma Qltb_lt (p q : Q) : Qltb p q = true <-> (p < q)%Q.
Proof.
  unfold Qltb. rewrite negb_true_iff. split; intro H.
  - apply Qnot_le_lt. intro L. apply Qle_bool_iff in L. congruence.
  - destruct (Qle_bool q p) eqn:E; auto.
    apply Qle_bool_iff in E. exfalso. exact (Qlt_not_le _ _ H E).
Qed.

Lemma Qltb_ge (p q : Q) : Qltb p q = false <-> (q <= p)%Q.
Proof.
  unfold Qltb. rewrite negb_false_iff. apply Qle_bool_iff.
Qed.

Lemma Qle_bool_false (p q : Q) : Qle_bool p q = false <-> (q < p)%Q.
Proof.
  rewrite <- Qltb_lt. unfold Qltb. now rewrite negb_true_iff.
Qed.

Lemma Qeq_bool_false (p q : Q) : Qeq_bool p q = false <-> ~ (p == q)%Q.
Proof.
  split.
  - intros H E. apply Qeq_bool_iff in E. congruence.
  - intro H. destruct (Qeq_bool p q) eqn:E; auto.
    apply Qeq_bool_iff in E. contradiction.
Qed.

Lemma Qred_inject_Z (z : Z) : Qred (inject_Z z) = inject_Z z.
Proof.
  unfold Qred, inject_Z.
  pose proof (Z.ggcd_gcd z 1) as G.
  pose proof (Z.ggcd_correct_divisors z 1) as D.
  destruct (Z.ggcd z 1) as [g [aa bb]]. simpl in *.
  rewrite Z.gcd_1_r in G. subst g. destruct D as [D1 D2].
  rewrite Z.mul_1_l in D1, D2. subst. reflexivity.
Qed.

Lemma of_Q_inject_Z (z : Z) : of_Q (inject_Z z) = of_Z z.
Proof. unfold of_Q, of_Z. now rewrite Qred_inject_Z. Qed.


Lemma of_Z_add (a b : Z) : of_Z a + of_Z b = of_Z (a + b).
Proof.
  unfold of_Z at 1 2. simpl. now rewrite <- inject_Z_plus, of_Q_inject_Z.
Qed.

Lemma of_Z_neg (a : Z) : num_neg (of_Z a) = of_Z (- a).
Proof.
  unfold of_Z at 1. simpl. now rewrite <- inject_Z_opp, of_Q_inject_Z.
Qed.

Lemma of_Z_sub (a b : Z) : of_Z a - of_Z b = of_Z (a - b).
Proof. unfold num_sub. now rewrite of_Z_neg, of_Z_add. Qed.

Lemma of_Z_mul (a b : Z) : of_Z a * of_Z b = of_Z (a * b).
Proof.
  unfold of_Z at 1 2. simpl. now rewrite <- inject_Z_mult, of_Q_inject_Z.
Qed.

Lemma of_Z_lt (a b : Z) : (of_Z a <? of_Z b) = (a <? b)%Z.
Proof.
  unfold of_Z. simpl. destruct (Z.ltb_spec a b) as [H | H].
  - apply Qltb_lt. now rewrite <- Zlt_Qlt.
  - apply Qltb_ge. now rewrite <- Zle_Qle.
Qed.

Lemma of_Z_le (a b : Z) : (of_Z a <=? of_Z b) = (a <=? b)%Z.
Proof.
  unfold of_Z. simpl. destruct (Z.leb_spec a b) as [H | H].
  - apply Qle_bool_iff. now rewrite <- Zle_Qle.
  - apply Qle_bool_false. now rewrite <- Zlt_Qlt.
Qed.

Lemma of_Z_gt (a b : Z) : (of_Z a >? of_Z b) = (b <? a)%Z.
Proof. unfold num_gt. apply of_Z_lt. Qed.

Lemma of_Z_eq (a b : Z) : (of_Z a === of_Z b) = (a =? b)%Z.
Proof.
  unfold of_Z. simpl. destruct (Z.eqb_spec a b) as [H | H].
  - subst. apply Qeq_bool_iff. reflexivity.
  - apply Qeq_bool_false. intro E. apply H. now apply inject_Z_injective.
Qed.

Lemma Math_max_Fin (p q : Q) :
  Math_max (Fin p) (Fin q) = if Qltb p q then Fin q else Fin p.
Proof. reflexivity. Qed.

Lemma Math_min_Fin (p q : Q) :
  Math_min (Fin p) (Fin q) = if Qltb q p then Fin q else Fin p.
Proof. reflexivity. Qed.

Lemma of_Z_max (a b : Z) : Math_max (of_Z a) (of_Z b) = of_Z (Z.max a b).
Proof.
  pose proof (of_Z_lt a b) as L. unfold of_Z in *. rewrite Math_max_Fin.
  simpl in L. rewrite L. destruct (Z.ltb_spec a b); do 2 f_equal; lia.
Qed.

Lemma of_Z_min (a b : Z) : Math_min (of_Z a) (of_Z b) = of_Z (Z.min a b).
Proof.
  pose proof (of_Z_lt b a) as L. unfold of_Z in *. rewrite Math_min_Fin.
  simpl in L. rewrite L. destruct (Z.ltb_spec b a); do 2 f_equal; lia.
Qed.

Lemma of_Z_floor (a : Z) : Math_floor (of_Z a) = of_Z a.
Proof. unfold of_Z at 1. unfold Math_floor. now rewrite Qfloor_Z. Qed.

Lemma of_Z_inj (a b : Z) : of_Z a = of_Z b -> a = b.
Proof. unfold of_Z, inject_Z. congruence. Qed.

(** Finite results are stored reduced; [unred] forgets the reductions. *)
Ltac unred :=
  repeat match goal with
         | H : context [Qred _] |- _ => rewrite Qred_correct in H
         | |- context [Qred _] => rewrite Qred_correct
         end.

(** From here on the operators of [number] are kept folded. *)
Arguments num_add : simpl never.
Arguments num_sub : simpl never.
Arguments num_mul : simpl never.
Arguments num_div : simpl never.
Arguments num_neg : simpl never.
Arguments num_lt : simpl never.
Arguments num_le : simpl never.
Arguments num_gt : simpl never.
Arguments num_ge : simpl never.
Arguments num_eq : simpl never.
Arguments num_neq : simpl never.
Arguments Math_max : simpl never.
Arguments Math_min : simpl never.
Arguments Math_floor : simpl never.
Arguments Math_ceil : simpl never.
Arguments Math_round : simpl never.
Arguments of_Z : simpl never.
Arguments of_nat : simpl never.
Arguments of_Q : simpl never.
Arguments last_opt : simpl never.
Arguments computeScopeAtDate : simpl never.
Arguments computeProjection : simpl never.
Arguments parseISODate : simpl never.

(** ** Invalid target date *)

Section InvalidTarget.
Context {rt : JsRuntime}.

(** C5: when the target date does not parse to a finite timestamp, the
    build returns (whatever the fuel, so without entering any loop and
    without failing) the empty model: no sprints, zero target scope, latest
    scope and done total, [hasAnyDone = false], a projection without signal
    whose every field is null, and [isOnTrack = null]. *)
Theorem invalid_target_gives_empty_model (fuel : nat) (input : BuildBurnupInput) :
  isFinite (parseISODate (Input.devCompletionISO input)) = false ->
  exists m,
    buildBurnupModel fuel input = Some m /\
    sprints m = [] /\
    targetScope m = of_Z 0 /\ latestScope m = of_Z 0 /\
    totalDoneStories m = of_Z 0 /\
    hasAnyDone m = false /\
    hasSignal (projection m) = false /\
    all_fields_null (projection m) /\
    isOnTrack m = None.
Proof.
  intro H. unfold buildBurnupModel. rewrite H. cbn [negb].
  eexists. split; [reflexivity|]. cbn. unfold all_fields_null. cbn.
  repeat split.
Qed.

End InvalidTarget.

(** An empty target string is not a date. *)
Lemma invalid_target_gives_empty_model_witness :
  exists m,
    @buildBurnupModel exampleRuntime 0
      {| Input.stories := [story "2025-01-01"%string None (Some ToDo) None];
         Input.sprintStartISO := "2025-01-06"%string;
         Input.devCompletionISO := ""%string;
         Input.sprintFTE := of_Z 1;
         Input.todayISO := None;
         Input.sprintLengthDays := None |} = Some m /\
    sprints m = [] /\
    targetScope m = of_Z 0 /\ latestScope m = of_Z 0 /\
    totalDoneStories m = of_Z 0 /\
    hasAnyDone m = false /\
    hasSignal (projection m) = false /\
    all_fields_null (projection m) /\
    isOnTrack m = None.
Proof.
  apply (@invalid_target_gives_empty_model exampleRuntime). reflexivity.
Defined.

(** ** The backward scans of the projection *)

Lemma firstn_S_nth_error {A : Type} (l : list A) (i : nat) (x : A) :
  nth_error l i = Some x -> firstn (S i) l = firstn i l ++ [x].
Proof.
  revert i. induction l as [|a l IH]; intros [|i] H; simpl in *; try discriminate.
  - now inversion H.
  - f_equal. now apply IH.
Qed.

Lemma rev_firstn_S {A : Type} (l : list A) (i : nat) (x : A) :
  nth_error l i = Some x -> rev (firstn (S i) l) = x :: rev (firstn i l).
Proof.
  intro H. rewrite (firstn_S_nth_error _ _ _ H), rev_app_distr. reflexivity.
Qed.

Lemma nth_error_in_range {A : Type} (l : list A) (i : nat) :
  (i < List.length l)%nat -> exists x, nth_error l i = Some x.
Proof.
  intro H. destruct (nth_error l i) eqn:E; eauto.
  apply nth_error_None in E. lia.
Qed.

Lemma findLastClosed_spec (sprints : list SprintSummary) (k : nat) :
  (k <= List.length sprints)%nat ->
  match findLastClosed sprints k with
  | Some (i, s) =>
      (i < k)%nat /\ nth_error sprints i = Some s /\ isClosed s = true /\
      forall j s', (i < j < k)%nat -> nth_error sprints j = Some s' ->
                   isClosed s' = false
  | None =>
      forall j s', (j < k)%nat -> nth_error sprints j = Some s' ->
                   isClosed s' = false
  end.
Proof.
  induction k as [|i IH]; intro Hk; simpl.
  - intros; lia.
  - destruct (nth_error_in_range sprints i) as [s Hs]; [lia|]. rewrite Hs.
    destruct (isClosed s) eqn:Hc.
    + repeat split; auto. intros; lia.
    + specialize (IH ltac:(lia)).
      destruct (findLastClosed sprints i) as [[i0 s0]|].
      * destruct IH as (Hi & Hn & Hcl & Hrest). repeat split; auto.
        intros j s' Hj Hs'. destruct (Nat.eq_dec j i) as [->|Hne].
        -- congruence.
        -- apply (Hrest j); auto. lia.
      * intros j s' Hj Hs'. destruct (Nat.eq_dec j i) as [->|Hne].
        -- congruence.
        -- apply (IH j); auto. lia.
Qed.

Lemma findLastClosed_is_last (sprints : list SprintSummary) (i : nat)
  (anchor : SprintSummary) :
  is_last_closed sprints i anchor ->
  findLastClosed sprints (List.length sprints) = Some (i, anchor).
Proof.
  intros (Hn & Hc & Hlast).
  assert (Hi : (i < List.length sprints)%nat)
    by (apply nth_error_Some; congruence).
  pose proof (findLastClosed_spec sprints _ (le_n _)) as S.
  destruct (findLastClosed sprints (List.length sprints)) as [[i0 s0]|].
  - destruct S as (Hi0 & Hn0 & Hc0 & Hrest).
    destruct (Nat.lt_trichotomy i i0) as [L | [E | G]].
    + rewrite (Hlast i0 s0 L Hn0) in Hc0. discriminate.
    + subst. congruence.
    + rewrite (Hrest i anchor ltac:(lia) Hn) in Hc. discriminate.
  - rewrite (S i anchor Hi Hn) in Hc. discriminate.
Qed.

Lemma found_is_last (sprints : list SprintSummary) (i : nat)
  (anchor : SprintSummary) :
  findLastClosed sprints (List.length sprints) = Some (i, anchor) ->
  is_last_closed sprints i anchor.
Proof.
  intro H. pose proof (findLastClosed_spec sprints _ (le_n _)) as S.
  rewrite H in S. destruct S as (Hi & Hn & Hc & Hrest).
  repeat split; auto. intros j s Hj Hs. apply (Hrest j); auto.
  split; auto. apply nth_error_Some. congruence.
Qed.

Lemma nonZeroVel_loop_spec (sprints : list SprintSummary) (fte : number)
  (k taken : nat) (acc : list number) :
  (k <= List.length sprints)%nat -> (List.length acc < 2)%nat ->
  nonZeroVel_loop sprints fte k taken acc =
  acc ++ firstn (2 - List.length acc)
           (map (fun s => doneThisSprint s / fte)
              (filter (fun s => doneThisSprint s >? of_Z 0)
                 (firstn (LOOKBACK_CLOSED - taken)
                    (filter isClosed (rev (firstn k sprints)))))).
Proof.
  revert taken acc. induction k as [|i IH]; intros taken acc Hk Hacc.
  - simpl. rewrite firstn_nil. simpl. rewrite firstn_nil. now rewrite app_nil_r.
  - destruct (nth_error_in_range sprints i) as [s Hs]; [lia|].
    rewrite (rev_firstn_S _ _ _ Hs). cbn [nonZeroVel_loop]. rewrite Hs.
    destruct (Nat.ltb_spec taken LOOKBACK_CLOSED) as [Ht | Ht].
    + cbn [filter]. destruct (isClosed s) eqn:Hc; cbn [negb].
      * replace (LOOKBACK_CLOSED - taken)%nat
          with (S (LOOKBACK_CLOSED - S taken)) by lia.
        cbn [firstn filter]. destruct (doneThisSprint s >? of_Z 0) eqn:Hd.
        -- cbn [map]. rewrite length_app. cbn [List.length].
           destruct (Nat.leb_spec 2 (List.length acc + 1)) as [H2 | H2].
           ++ replace (2 - List.length acc)%nat with 1%nat by lia.
              cbn [firstn]. reflexivity.
           ++ rewrite IH; [|lia|rewrite length_app; simpl; lia].
              rewrite length_app. cbn [List.length].
              replace (2 - List.length acc)%nat
                with (S (2 - (List.length acc + 1))) by lia.
              cbn [firstn]. now rewrite <- app_assoc.
        -- apply IH; [lia|auto].
      * apply IH; [lia|auto].
    + replace (LOOKBACK_CLOSED - taken)%nat with 0%nat by lia.
      cbn [firstn filter map]. rewrite firstn_nil. now rewrite app_nil_r.
Qed.

Lemma lastNClosed_loop_spec (sprints : list SprintSummary) (n k : nat)
  (vals : list number) :
  (k <= List.length sprints)%nat ->
  lastNClosed_loop sprints n k vals =
  vals ++ firstn (n - List.length vals)
            (map doneThisSprint (filter isClosed (rev (firstn k sprints)))).
Proof.
  revert vals. induction k as [|i IH]; intros vals Hk.
  - simpl. rewrite firstn_nil. now rewrite app_nil_r.
  - destruct (nth_error_in_range sprints i) as [s Hs]; [lia|].
    rewrite (rev_firstn_S _ _ _ Hs). cbn [lastNClosed_loop]. rewrite Hs.
    destruct (Nat.ltb_spec (List.length vals) n) as [Ht | Ht].
    + cbn [filter]. destruct (isClosed s) eqn:Hc; cbn [negb].
      * rewrite IH by lia. rewrite length_app. cbn [List.length map].
        replace (n - List.length vals)%nat
          with (S (n - (List.length vals + 1))) by lia.
        cbn [firstn]. now rewrite <- app_assoc.
      * apply IH. lia.
    + replace (n - List.length vals)%nat with 0%nat by lia.
      cbn [firstn]. now rewrite app_nil_r.
Qed.

Lemma velocity_loop_samples (sprints : list SprintSummary) (fte : number) (i : nat) :
  (i < List.length sprints)%nat ->
  nonZeroVel_loop sprints fte (S i) 0 [] = velocitySamples sprints i fte.
Proof.
  intro H. rewrite nonZeroVel_loop_spec by (simpl; lia). reflexivity.
Qed.

Lemma recent_loop_samples (sprints : list SprintSummary) (i : nat) :
  (i < List.length sprints)%nat ->
  lastNClosed_loop sprints 2 (S i) [] = recentSamples sprints i.
Proof.
  intro H. rewrite lastNClosed_loop_spec by lia. reflexivity.
Qed.

Lemma closedBackFrom_anchor (sprints : list SprintSummary) (i : nat)
  (anchor : SprintSummary) :
  nth_error sprints i = Some anchor -> isClosed anchor = true ->
  closedBackFrom sprints i = anchor :: filter isClosed (rev (firstn i sprints)).
Proof.
  intros Hn Hc. unfold closedBackFrom. rewrite (rev_firstn_S _ _ _ Hn).
  simpl. now rewrite Hc.
Qed.

Lemma filter_all_false {A : Type} (f : A -> bool) (l : list A) :
  Forall (fun x => f x = false) l -> filter f l = [].
Proof.
  induction 1 as [|x l Hx _ IH]; simpl; [reflexivity|]. now rewrite Hx.
Qed.

Lemma recentSamples_nonempty (sprints : list SprintSummary) (i : nat)
  (anchor : SprintSummary) :
  nth_error sprints i = Some anchor -> isClosed anchor = true ->
  exists v rest, recentSamples sprints i = v :: rest.
Proof.
  intros Hn Hc. unfold recentSamples.
  rewrite (closedBackFrom_anchor _ _ _ Hn Hc). simpl. eauto.
Qed.

Lemma recent_average (sprints : list SprintSummary) (i : nat)
  (anchor : SprintSummary) :
  nth_error sprints i = Some anchor -> isClosed anchor = true ->
  avgStoriesLastNClosed sprints i 2 = Some (mean (recentSamples sprints i)).
Proof.
  intros Hn Hc. unfold avgStoriesLastNClosed.
  rewrite recent_loop_samples by (apply nth_error_Some; congruence).
  destruct (recentSamples_nonempty _ _ _ Hn Hc) as (v & rest & E).
  rewrite E. reflexivity.
Qed.

(** ** No signal in the look-back *)

(** C6, with the two to-target fields as the code fills them: with an
    anchor (a last closed sprint) but no closed sprint with
    [doneThisSprint > 0] among the at most 8 closed sprints of the
    look-back, [computeProjection] answers [hasSignal = false], populates
    the anchor index, time and done count, the remaining stories and the
    recent stories per sprint, populates [sprintsRemainingToTarget] and
    [requiredStoriesPerSprintToHitTarget] exactly when the target date is
    finite and lies a positive number of sprints after the anchor (both are
    null otherwise), and leaves every forecast field null. *)
Theorem no_recent_completion_keeps_anchor
  (sprints : list SprintSummary)
  (sprintLenMs sprintFTE latestScope targetScope targetDateMs : number)
  (i : nat) (anchor : SprintSummary) :
  is_last_closed sprints i anchor ->
  Forall (fun s => (doneThisSprint s >? of_Z 0) = false) (lookbackWindow sprints i) ->
  let p := computeProjection sprints sprintLenMs sprintFTE latestScope
             targetScope targetDateMs in
  let remainingToTarget := Math_max (of_Z 0) (targetScope - cumDoneEnd anchor) in
  let sprintsFloat := sprintsFloatToTarget sprintLenMs targetDateMs (endMs anchor) in
  let ahead := targetAhead sprintLenMs targetDateMs (endMs anchor) in
  hasSignal p = false /\
  fromSprintIndex p = Some (of_nat i) /\
  fromTimeMs p = Some (endMs anchor) /\
  fromDone p = Some (cumDoneEnd anchor) /\
  remainingStoriesFromAnchor p =
    Some (Math_max (of_Z 0) (latestScope - cumDoneEnd anchor)) /\
  sprintsRemainingToTarget p =
    (if ahead then Some (Math_ceil sprintsFloat) else None) /\
  requiredStoriesPerSprintToHitTarget p =
    (if ahead
     then Some (if remainingToTarget >? of_Z 0
                then remainingToTarget / sprintsFloat else of_Z 0)
     else None) /\
  recentStoriesPerSprint p = Some (mean (recentSamples sprints i)) /\
  forecast_null p.
Proof.
  intros Hlast Hzero. pose proof Hlast as (Hn & Hc & _).
  assert (Hi : (i < List.length sprints)%nat)
    by (apply nth_error_Some; congruence).
  unfold computeProjection.
  destruct sprints as [|s0 rest] eqn:Es; [simpl in Hi; lia|]. rewrite <- Es in *.
  rewrite (findLastClosed_is_last _ _ _ Hlast).
  rewrite velocity_loop_samples by assumption.
  unfold velocitySamples. rewrite (filter_all_false _ _ Hzero). cbn [map firstn].
  rewrite (recent_average _ _ _ Hn Hc).
  unfold targetAhead, sprintsFloatToTarget, forecast_null. cbn.
  destruct (isFinite targetDateMs); cbn;
    [destruct (targetDateMs >? endMs anchor); cbn;
     [destruct ((targetDateMs - endMs anchor) / sprintLenMs >? of_Z 0); cbn|]|];
    repeat split; reflexivity.
Qed.

(** One closed sprint that completed nothing, target 2025-06-01. *)
Lemma no_recent_completion_keeps_anchor_witness :
  let sprints := [closedSprint 0 0 0] in
  let p := computeProjection sprints (of_Z 1209600000) (of_Z 2) (of_Z 12)
             (of_Z 12) (of_Z 1748736000000) in
  hasSignal p = false /\
  fromSprintIndex p = Some (of_Z 0) /\
  fromTimeMs p = Some (of_Z 1737331200000) /\
  fromDone p = Some (of_Z 0) /\
  remainingStoriesFromAnchor p = Some (of_Z 12) /\
  sprintsRemainingToTarget p = Some (of_Z 10) /\
  requiredStoriesPerSprintToHitTarget p = Some (Fin (14 # 11)) /\
  recentStoriesPerSprint p = Some (of_Z 0) /\
  forecast_null p.
Proof.
  pose proof (no_recent_completion_keeps_anchor [closedSprint 0 0 0]
    (of_Z 1209600000) (of_Z 2) (of_Z 12) (of_Z 12) (of_Z 1748736000000)
    0%nat (closedSprint 0 0 0)) as H.
  assert (L : is_last_closed [closedSprint 0 0 0] 0 (closedSprint 0 0 0)).
  { split; [reflexivity|]. split; [reflexivity|].
    intros [|[|j]] s Hj Hs; [lia | discriminate | discriminate]. }
  specialize (H L ltac:(repeat constructor)).
  cbv zeta in *. destruct H as (H1 & H2 & H3 & H4 & H5 & H6 & H7 & H8 & H9).
  repeat split; try assumption; apply H9.
Defined.

(** Counterexample to C6 as worded: the same stalled sprint with a target
    date, 2025-01-10, that is already past at the anchor (2025-01-20).  The
    anchor fields are populated, but [sprintsRemainingToTarget] and
    [requiredStoriesPerSprintToHitTarget] are null.  The build of a project
    whose first sprint closed after its target date shows the same. *)
Lemma overdue_target_leaves_to_target_fields_null :
  let sprints := [closedSprint 0 0 0] in
  let p := computeProjection sprints (of_Z 1209600000) (of_Z 2) (of_Z 12)
             (of_Z 12) (Date_UTC (of_Z 2025) (of_Z 0) (of_Z 10)) in
  let q := projection (model_of (@buildBurnupModel exampleRuntime 100 scenario_overdue)) in
  (is_last_closed sprints 0 (closedSprint 0 0 0) /\
   Forall (fun s => (doneThisSprint s >? of_Z 0) = false) (lookbackWindow sprints 0) /\
   hasSignal p = false /\
   fromSprintIndex p = Some (of_Z 0) /\
   fromTimeMs p = Some (Date_UTC (of_Z 2025) (of_Z 0) (of_Z 20)) /\
   sprintsRemainingToTarget p = None /\
   requiredStoriesPerSprintToHitTarget p = None) /\
  (hasSignal q = false /\
   fromSprintIndex q = Some (of_Z 0) /\
   fromTimeMs q = Some (Date_UTC (of_Z 2025) (of_Z 0) (of_Z 20)) /\
   fromDone q = Some (of_Z 0) /\
   sprintsRemainingToTarget q = None /\
   requiredStoriesPerSprintToHitTarget q = None).
Proof.
  cbv zeta. split.
  - split.
    + split; [reflexivity|]. split; [reflexivity|].
      intros [|[|j]] s Hj Hs; [lia | discriminate | discriminate].
    + split; [repeat constructor|]. repeat split; vm_compute; reflexivity.
  - repeat split; vm_compute; reflexivity.
Qed.

(** ** The velocity signal *)

Lemma velocitySamples_length (sprints : list SprintSummary) (i : nat) (fte : number) :
  (List.length (velocitySamples sprints i fte) <= 2)%nat.
Proof. unfold velocitySamples. apply firstn_le_length. Qed.

(** C2: the velocity-per-FTE signal of [computeProjection] is the
    arithmetic mean of the samples [doneThisSprint / fte] gathered walking
    backward from the last closed sprint over at most 8 closed sprints,
    keeping the closed sprints with [doneThisSprint > 0] and stopping at the
    second one, so of at most 2 samples; for three closed sprints with
    [doneThisSprint] 4, 0, 6 and [fte = 2] it is (6/2 + 4/2)/2 = 2.5 and the
    projected velocity is 2.5 * 2 = 5. *)
Theorem velocity_signal_is_mean_of_recent_nonzero
  (sprints : list SprintSummary)
  (sprintLenMs sprintFTE latestScope targetScope targetDateMs : number)
  (i : nat) (anchor : SprintSummary) :
  is_last_closed sprints i anchor ->
  let samples := velocitySamples sprints i (effectiveFTE sprintFTE) in
  let p := computeProjection sprints sprintLenMs sprintFTE latestScope
             targetScope targetDateMs in
  let q := computeProjection scenario_velocity (of_Z 1209600000) (of_Z 2)
             (of_Z 12) (of_Z 12) (of_Z 1748736000000) in
  samples <> [] ->
  (List.length samples <= 2)%nat /\
  avgVelPerFTE p = Some (mean samples) /\
  velocitySamples scenario_velocity 2 (effectiveFTE (of_Z 2)) =
    [of_Z 6 / of_Z 2; of_Z 4 / of_Z 2] /\
  avgVelPerFTE q = Some (Fin (5 # 2)) /\
  projectedDonePerSprint q = Some (of_Z 5).
Proof.
  intros Hlast samples p q Hne. pose proof Hlast as (Hn & Hc & _).
  assert (Hi : (i < List.length sprints)%nat)
    by (apply nth_error_Some; congruence).
  split; [apply velocitySamples_length|].
  split; [|repeat split; vm_compute; reflexivity].
  subst p. unfold computeProjection.
  rewrite (findLastClosed_is_last _ _ _ Hlast).
  rewrite velocity_loop_samples by assumption.
  fold (effectiveFTE sprintFTE). fold samples.
  destruct sprints as [|s0 rest]; [simpl in Hi; lia|].
  destruct samples as [|v vs]; [congruence|].
  cbv zeta.
  match goal with |- context [if ?c then _ else _] => destruct c end;
    [reflexivity|].
  match goal with |- context [if ?c then _ else _] => destruct c end;
    reflexivity.
Qed.

(** The scenario of the specification: 4, 0, 6 at two FTE. *)
Lemma velocity_signal_is_mean_of_recent_nonzero_witness :
  let p := computeProjection scenario_velocity (of_Z 1209600000) (of_Z 2)
             (of_Z 12) (of_Z 12) (of_Z 1748736000000) in
  avgVelPerFTE p = Some (mean [of_Z 6 / of_Z 2; of_Z 4 / of_Z 2]) /\
  avgVelPerFTE p = Some (Fin (5 # 2)) /\
  projectedDonePerSprint p = Some (of_Z 5).
Proof.
  assert (L : is_last_closed scenario_velocity 2 (closedSprint 2 6 10)).
  { split; [reflexivity|]. split; [reflexivity|].
    intros [|[|[|[|j]]]] s Hj Hs; try lia; discriminate. }
  pose proof (velocity_signal_is_mean_of_recent_nonzero scenario_velocity
    (of_Z 1209600000) (of_Z 2) (of_Z 12) (of_Z 12) (of_Z 1748736000000)
    2%nat (closedSprint 2 6 10) L) as H.
  cbv zeta in H. specialize (H ltac:(vm_compute; discriminate)).
  destruct H as (_ & H2 & H3 & H4 & H5). rewrite H3 in H2.
  repeat split; assumption.
Defined.

(** ** Signs *)

Lemma num_gt_not_le (x y : number) : (x >? y) = true -> (x <=? y) = false.
Proof.
  unfold num_gt, num_lt, num_le.
  destruct x as [|[|]|p], y as [|[|]|q]; try reflexivity; try discriminate.
  intro H. apply Qltb_lt in H. now apply Qle_bool_false.
Qed.

Lemma mul_positive_factor (a : number) (f : Q) :
  (0 < f)%Q -> (a * Fin f >? of_Z 0) = true -> (a <=? of_Z 0) = false.
Proof.
  intros Hf. unfold num_gt, num_lt, num_le, num_mul, of_Z, of_Q.
  destruct a as [|[|]|p]; try discriminate.
  - destruct (Qeq_bool f 0); [discriminate|].
    destruct (Qltb f 0) eqn:E; [|discriminate].
    apply Qltb_lt in E. exfalso. exact (Qlt_irrefl _ (Qlt_trans _ _ _ E Hf)).
  - reflexivity.
  - intro H. apply Qltb_lt in H. rewrite Qred_correct in H.
    apply Qle_bool_false. change (inject_Z 0) with 0%Q in *.
    destruct (Qlt_le_dec 0 p) as [L | L]; [assumption|].
    exfalso. apply (Qlt_not_le _ _ H).
    setoid_replace 0%Q with (0 * f)%Q by ring.
    apply Qmult_le_compat_r; [assumption|]. now apply Qlt_le_weak.
Qed.

Lemma effectiveFTE_positive (x : number) :
  exists f, effectiveFTE x = Fin f /\ (0 < f)%Q.
Proof.
  unfold effectiveFTE. destruct x as [|b|q]; cbn [isFinite].
  - exists (1 # 10). split; reflexivity.
  - exists (1 # 10). split; reflexivity.
  - rewrite Math_max_Fin. destruct (Qltb (1 # 10) q) eqn:E.
    + exists q. split; [reflexivity|]. apply Qltb_lt in E.
      apply Qlt_trans with (1 # 10); [reflexivity | assumption].
    + exists (1 # 10). split; reflexivity.
Qed.

Lemma safeFTE_cases (x : number) :
  exists q, Math_max (of_Z 0) (if isFinite x then x else of_Z 0) = Fin q /\
            (0 <= q)%Q.
Proof.
  destruct x as [|b|q]; cbn [isFinite].
  - exists 0%Q. split; [reflexivity | apply Qle_refl].
  - exists 0%Q. split; [reflexivity | apply Qle_refl].
  - unfold of_Z. rewrite Math_max_Fin. destruct (Qltb (inject_Z 0) q) eqn:E.
    + exists q. split; [reflexivity|]. apply Qltb_lt in E. now apply Qlt_le_weak.
    + exists 0%Q. split; [reflexivity | apply Qle_refl].
Qed.

Lemma reparamFTE_effectiveFTE (x : number) :
  reparamFTE x =
  effectiveFTE (Math_max (of_Z 0) (if isFinite x then x else of_Z 0)).
Proof.
  unfold reparamFTE, effectiveFTE.
  destruct (safeFTE_cases x) as (q & -> & Hq). cbn [isFinite].
  unfold num_or, truthy. destruct (Qeq_bool q 0) eqn:E; cbn [negb]; [|reflexivity].
  apply Qeq_bool_iff in E. unfold of_Z. rewrite !Math_max_Fin.
  assert (L1 : Qltb (1 # 10) (inject_Z 0) = false) by reflexivity.
  assert (L2 : Qltb (1 # 10) q = false).
  { apply Qltb_ge. rewrite E. discriminate. }
  now rewrite L1, L2.
Qed.

(** ** Scope already delivered at the anchor *)

(** C7: when the projected velocity is positive and the remaining work
    from the anchor, [max(0, latestScope - fromDone)], is 0, the central,
    early and late projected completion timestamps all equal the anchor
    time [fromTimeMs].  This holds of the projection [computeProjection]
    returns (where a non-null projected velocity is a positive one), of the
    one [recomputeProjectionWithFTE] computes from a model with signal, and
    is kept by [recomputeProjectionWithFTE] on every model that has it. *)
Theorem delivered_scope_projects_to_anchor :
  (forall (sprints : list SprintSummary)
          (sprintLenMs sprintFTE latestScope targetScope targetDateMs v d : number),
     let p := computeProjection sprints sprintLenMs sprintFTE latestScope
                targetScope targetDateMs in
     projectedDonePerSprint p = Some v ->
     fromDone p = Some d ->
     (Math_max (of_Z 0) (latestScope - d) === of_Z 0) = true ->
     (v >? of_Z 0) = true /\
     exists t, fromTimeMs p = Some t /\
               projectedCompletionMs p = Some t /\
               projectedCompletionEarlyMs p = Some t /\
               projectedCompletionLateMs p = Some t) /\
  (forall (m : BurnupModel) (sprintFTE i t d a : number),
     sprints m <> [] ->
     hasSignal (projection m) = true ->
     fromSprintIndex (projection m) = Some i ->
     fromTimeMs (projection m) = Some t ->
     fromDone (projection m) = Some d ->
     avgVelPerFTE (projection m) = Some a ->
     (a * reparamFTE sprintFTE >? of_Z 0) = true ->
     (Math_max (of_Z 0) (latestScope m - d) === of_Z 0) = true ->
     let p := projection (recomputeProjectionWithFTE m sprintFTE) in
     projectedDonePerSprint p = Some (a * reparamFTE sprintFTE) /\
     fromTimeMs p = Some t /\
     projectedCompletionMs p = Some t /\
     projectedCompletionEarlyMs p = Some t /\
     projectedCompletionLateMs p = Some t) /\
  (forall (m : BurnupModel) (sprintFTE : number),
     anchored_when_delivered (latestScope m) (projection m) ->
     anchored_when_delivered (latestScope m)
       (projection (recomputeProjectionWithFTE m sprintFTE))).
Proof.
  split; [|split].
  - intros sprints sprintLenMs sprintFTE latestScope targetScope targetDateMs v d p.
    subst p. unfold computeProjection.
    destruct sprints as [|s0 rest]; [discriminate|].
    destruct (findLastClosed (s0 :: rest) _) as [[i anchor]|]; [|discriminate].
    cbv zeta. destruct (nonZeroVel_loop _ _ _ _ _) as [|x xs]; [discriminate|].
    match goal with |- context [negb (?c)] => destruct c eqn:Hpos end;
      cbn [negb]; [|discriminate].
    destruct (Math_max (of_Z 0) (latestScope - cumDoneEnd anchor) === of_Z 0) eqn:R.
    + cbn. intros Hv Hd _. inversion Hv; subst. split; [assumption|].
      eexists; repeat split; reflexivity.
    + cbn. intros Hv Hd Hr. inversion Hd; subst. congruence.
  - intros m sprintFTE i t d a Hs Hsig Hi Ht Hd Ha Hpos Hrem p. subst p.
    unfold recomputeProjectionWithFTE. fold (reparamFTE sprintFTE).
    destruct (sprints m) as [|s0 rest]; [congruence|].
    rewrite Hsig, Hi, Ht, Hd, Ha.
    destruct (effectiveFTE_positive
                (Math_max (of_Z 0) (if isFinite sprintFTE then sprintFTE else of_Z 0)))
      as (f & Ef & Hf).
    rewrite <- reparamFTE_effectiveFTE in Ef.
    assert (Hle : (a <=? of_Z 0) = false).
    { apply mul_positive_factor with f; [assumption|]. now rewrite <- Ef. }
    rewrite Hle, (num_gt_not_le _ _ Hpos), Hrem. cbn [fst snd].
    destruct (isFinite (targetDateMs m)); cbn; rewrite Ht; repeat split; reflexivity.
  - intros m sprintFTE Inv. unfold recomputeProjectionWithFTE.
    fold (reparamFTE sprintFTE).
    destruct (sprints m) as [|s0 rest]; [exact Inv|].
    destruct (hasSignal (projection m)) eqn:Hsig; [|exact Inv].
    destruct (fromSprintIndex (projection m)) as [i|] eqn:Hi; [|exact Inv].
    destruct (fromTimeMs (projection m)) as [t|] eqn:Ht; [|exact Inv].
    destruct (fromDone (projection m)) as [d|] eqn:Hd; [|exact Inv].
    destruct (avgVelPerFTE (projection m)) as [a|] eqn:Ha; [|exact Inv].
    destruct (a <=? of_Z 0); [exact Inv|].
    destruct (a * reparamFTE sprintFTE <=? of_Z 0).
    { intros v d' Hv. discriminate Hv. }
    destruct (Math_max (of_Z 0) (latestScope m - d) === of_Z 0) eqn:R;
      cbn [fst snd];
      destruct (isFinite (targetDateMs m));
      intros v d' Hv Hpos Hd' Hrem; cbn in *; rewrite Hd in Hd';
      inversion Hd'; subst d';
      solve [ rewrite Ht; eexists; repeat split; reflexivity | congruence ].
Qed.

(** The velocity scenario with all 10 stories done at the anchor, and the
    single-story model re-parameterised at three FTE. *)
Lemma delivered_scope_projects_to_anchor_witness :
  (let p := computeProjection scenario_velocity (of_Z 1209600000) (of_Z 2)
              (of_Z 10) (of_Z 10) (of_Z 1748736000000) in
   exists t, fromTimeMs p = Some t /\
             projectedCompletionMs p = Some t /\
             projectedCompletionEarlyMs p = Some t /\
             projectedCompletionLateMs p = Some t) /\
  (let p := projection (recomputeProjectionWithFTE model_single_done (of_Z 3)) in
   projectedDonePerSprint p = Some (Fin (1 # 2) * reparamFTE (of_Z 3)) /\
   fromTimeMs p = Some (of_Z 1740960000000) /\
   projectedCompletionMs p = Some (of_Z 1740960000000) /\
   projectedCompletionEarlyMs p = Some (of_Z 1740960000000) /\
   projectedCompletionLateMs p = Some (of_Z 1740960000000)).
Proof.
  destruct delivered_scope_projects_to_anchor as [A [B _]]. split.
  - cbv zeta.
    destruct (A scenario_velocity (of_Z 1209600000) (of_Z 2) (of_Z 10) (of_Z 10)
                (of_Z 1748736000000) (of_Z 5) (of_Z 10)) as [_ H];
      [vm_compute; reflexivity | vm_compute; reflexivity
      | vm_compute; reflexivity | exact H].
  - apply (B model_single_done (of_Z 3) (of_Z 3) (of_Z 1740960000000) (of_Z 1)
             (Fin (1 # 2)));
      solve [vm_compute; reflexivity | vm_compute; discriminate].
Defined.

(** ** Re-parameterising at the FTE of the build *)

Lemma same_forecast_refl (p : BurnupProjection) : same_forecast p p.
Proof. repeat split. Qed.

Lemma recompute_same_fte (m : BurnupModel) (x targetScope : number) :
  projection m =
    computeProjection (sprints m) (sprintLengthDays m * DAY_MS)
      (Math_max (of_Z 0) (if isFinite x then x else of_Z 0))
      (latestScope m) targetScope (targetDateMs m) ->
  same_forecast (projection m) (projection (recomputeProjectionWithFTE m x)).
Proof.
  intro Hp. unfold recomputeProjectionWithFTE. fold (reparamFTE x).
  rewrite reparamFTE_effectiveFTE.
  set (safe := Math_max (of_Z 0) (if isFinite x then x else of_Z 0)) in *.
  destruct (effectiveFTE_positive safe) as (f & Ef & Hf).
  revert Hp. unfold computeProjection. fold (effectiveFTE safe).
  destruct (sprints m) as [|s0 rest] eqn:Es.
  { intros _. apply same_forecast_refl. }
  destruct (findLastClosed (s0 :: rest) _) as [[i anchor]|].
  2:{ intros Hp. rewrite Hp. cbn. rewrite Hp. apply same_forecast_refl. }
  cbv zeta.
  destruct (nonZeroVel_loop _ _ _ _ _) as [|v vs].
  { intros Hp. rewrite Hp. cbn. rewrite Hp. apply same_forecast_refl. }
  set (avg := sum_numbers (v :: vs) / of_nat (List.length (v :: vs))).
  destruct (avg * effectiveFTE safe >? of_Z 0) eqn:Hpos; cbn [negb].
  2:{ intros Hp. rewrite Hp. cbn. rewrite Hp. apply same_forecast_refl. }
  assert (Hle : (avg <=? of_Z 0) = false).
  { apply mul_positive_factor with f; [assumption|]. now rewrite <- Ef. }
  pose proof (num_gt_not_le _ _ Hpos) as Hle'.
  destruct (Math_max (of_Z 0) (latestScope m - cumDoneEnd anchor) === of_Z 0) eqn:R;
    intros Hp; rewrite Hp;
    cbn [hasSignal fromSprintIndex fromTimeMs fromDone avgVelPerFTE];
    rewrite Hle, Hle', R;
    destruct (isFinite (targetDateMs m)); repeat split; reflexivity.
Qed.

Section SameFTE.
Context {rt : JsRuntime}.

(** C4: a model returned by [buildBurnupModel], re-parameterised with the
    FTE value it was built with, has the same [projectedDonePerSprint],
    [projectedCompletionMs], [projectedCompletionEarlyMs] and
    [projectedCompletionLateMs]: the re-parameteriser performs the same
    operations on the same operands, so the values are identical, not just
    close. *)
Theorem same_fte_reparameterisation_is_identity
  (fuel : nat) (input : BuildBurnupInput) (m : BurnupModel) :
  buildBurnupModel fuel input = Some m ->
  let p := projection m in
  let p' := projection (recomputeProjectionWithFTE m (Input.sprintFTE input)) in
  projectedDonePerSprint p' = projectedDonePerSprint p /\
  projectedCompletionMs p' = projectedCompletionMs p /\
  projectedCompletionEarlyMs p' = projectedCompletionEarlyMs p /\
  projectedCompletionLateMs p' = projectedCompletionLateMs p.
Proof.
  intro H. cbv zeta. unfold buildBurnupModel in H.
  destruct (isFinite (parseISODate (Input.devCompletionISO input))); cbn [negb] in H.
  - destruct (deriveOrigin _ _ _ _ _) as [origin|]; [|discriminate].
    destruct (sprintLoop _ _ _ _ _ _ _ _ _ _) as [sp|]; [|discriminate].
    inversion H as [Hm]. clear H.
    match goal with
    | |- context [recomputeProjectionWithFTE ?m ?x] =>
        apply (recompute_same_fte m x (computeScopeAtDate sp
                 (parseISODate (Input.devCompletionISO input))))
    end.
    reflexivity.
  - inversion H. repeat split.
Qed.

End SameFTE.

(** The single-story scenario, built and re-parameterised at two FTE. *)
Lemma same_fte_reparameterisation_is_identity_witness :
  let p := projection model_single_done in
  let p' := projection (recomputeProjectionWithFTE model_single_done (of_Z 2)) in
  projectedDonePerSprint p' = projectedDonePerSprint p /\
  projectedCompletionMs p' = projectedCompletionMs p /\
  projectedCompletionEarlyMs p' = projectedCompletionEarlyMs p /\
  projectedCompletionLateMs p' = projectedCompletionLateMs p.
Proof.
  apply (@same_fte_reparameterisation_is_identity exampleRuntime 100
           scenario_single_done model_single_done).
  vm_compute. reflexivity.
Defined.

(** ** Latest scope and scope at the target date *)

Lemma last_opt_nonempty {A : Type} (l : list A) :
  l <> [] -> exists x, last_opt l = Some x.
Proof.
  intro H. unfold last_opt. apply nth_error_in_range.
  destruct l; [congruence | simpl; lia].
Qed.

Lemma firstEndingOnOrAfter_spec (sprints : list SprintSummary) (d : number) :
  match firstEndingOnOrAfter sprints d with
  | Some s =>
      exists before after,
        sprints = before ++ s :: after /\
        Forall (fun x => (endMs x >=? d) = false) before /\
        (endMs s >=? d) = true
  | None => Forall (fun x => (endMs x >=? d) = false) sprints
  end.
Proof.
  induction sprints as [|s rest IH]; simpl; [constructor|].
  destruct (d <=? endMs s) eqn:E.
  - exists [], rest. repeat split; [constructor | exact E].
  - destruct (firstEndingOnOrAfter rest d) as [s1|].
    + destruct IH as (before & after & -> & Hb & Hs).
      exists (s :: before), after. repeat split; [constructor|]; assumption.
    + constructor; assumption.
Qed.

Section Scopes.
Context {rt : JsRuntime}.

(** C8: in a built model with at least one sprint, [latestScope] is the
    [scopeAtEnd] of the final sprint, and [targetScope] is the [scopeAtEnd]
    of the first sprint whose [endMs] is greater than or equal to the target
    date, or of the final sprint when no sprint's end reaches the target
    date. *)
Theorem latest_and_target_scope
  (fuel : nat) (input : BuildBurnupInput) (m : BurnupModel) :
  buildBurnupModel fuel input = Some m ->
  sprints m <> [] ->
  exists final,
    last_opt (sprints m) = Some final /\
    latestScope m = scopeAtEnd final /\
    ((exists before s after,
        sprints m = before ++ s :: after /\
        Forall (fun x => (endMs x >=? targetDateMs m) = false) before /\
        (endMs s >=? targetDateMs m) = true /\
        targetScope m = scopeAtEnd s)
     \/
     (Forall (fun x => (endMs x >=? targetDateMs m) = false) (sprints m) /\
      targetScope m = scopeAtEnd final)).
Proof.
  intros H Hne. unfold buildBurnupModel in H.
  destruct (isFinite (parseISODate (Input.devCompletionISO input))); cbn [negb] in H.
  2:{ inversion H; subst. now cbn in Hne. }
  destruct (deriveOrigin _ _ _ _ _) as [origin|]; [|discriminate].
  destruct (sprintLoop _ _ _ _ _ _ _ _ _ _) as [sp|]; [|discriminate].
  inversion H; subst; clear H. cbn in *.
  destruct (last_opt_nonempty sp Hne) as [final Hf]. exists final.
  rewrite Hf. split; [reflexivity|]. split; [reflexivity|].
  unfold computeScopeAtDate.
  pose proof (firstEndingOnOrAfter_spec sp
                (parseISODate (Input.devCompletionISO input))) as S.
  destruct sp as [|s0 rest]; [congruence|].
  destruct (firstEndingOnOrAfter (s0 :: rest) _) as [s|].
  - left. destruct S as (before & after & E & Hb & Hs).
    exists before, s, after. repeat split; assumption.
  - right. rewrite Hf. split; [assumption | reflexivity].
Qed.

End Scopes.

(** The single-story scenario: 17 sprints, the target date 2025-06-01
    falls in the sprint that ends on 2025-06-09. *)
Lemma latest_and_target_scope_witness :
  exists final,
    last_opt (sprints model_single_done) = Some final /\
    latestScope model_single_done = scopeAtEnd final /\
    ((exists before s after,
        sprints model_single_done = before ++ s :: after /\
        Forall (fun x => (endMs x >=? targetDateMs model_single_done) = false) before /\
        (endMs s >=? targetDateMs model_single_done) = true /\
        targetScope model_single_done = scopeAtEnd s)
     \/
     (Forall (fun x => (endMs x >=? targetDateMs model_single_done) = false)
        (sprints model_single_done) /\
      targetScope model_single_done = scopeAtEnd final)).
Proof.
  apply (@latest_and_target_scope exampleRuntime 100 scenario_single_done).
  - vm_compute. reflexivity.
  - vm_compute. discriminate.
Defined.

(** ** The normaliser *)

Section Normaliser.
Context {rt : JsRuntime}.

(** What the normaliser does with an issue whose category or status says
    done but whose resolution date is missing or unparseable: the creation
    day becomes the resolution day, and the issue is done exactly when that
    day is truthy as a number. *)
Lemma normaliseIssue_synthesises_resolution (issue : BurnupIssue) :
  nonempty (created issue) = true ->
  isFinite (parseJiraDate (created issue)) = true ->
  resolutionUnusable issue ->
  includes (rawStatusOf issue) "WITHDRAWN" = false ->
  includes (rawStatusOf issue) "CANCELLED" = false ->
  is_Done (statusCategory issue) = true \/ rawStatusOf issue = "DONE"%string ->
  normaliseIssue issue =
    Some {| createdMs := parseJiraDate (created issue);
            resolvedMs := Some (parseJiraDate (created issue));
            isDone := truthy (parseJiraDate (created issue));
            isCancelled := false |}.
Proof.
  intros Hc Hf Hr Hw Hx Hd. unfold normaliseIssue.
  rewrite Hc, Hf. cbn [negb]. fold (rawStatusOf issue). rewrite Hw, Hx.
  assert (D : is_Done (statusCategory issue) ||
              String.eqb (rawStatusOf issue) "DONE" = true).
  { destruct Hd as [-> | ->]; [reflexivity | apply orb_true_r]. }
  cbn [orb negb].
  assert (R : match resolutiondate issue with
              | Some r =>
                  if nonempty r
                  then if isFinite (parseJiraDate r)
                       then Some (parseJiraDate r) else None
                  else None
              | None => None
              end = None).
  { unfold resolutionUnusable in Hr. destruct (resolutiondate issue) as [r|];
      [|reflexivity].
    destruct Hr as [-> | H]; [reflexivity|].
    destruct (nonempty r); [now rewrite H | reflexivity]. }
  rewrite R. cbn [truthy_opt negb andb]. rewrite D. cbn [truthy_opt].
  rewrite andb_true_r.
  replace (is_Done (statusCategory issue)
           || String.eqb (rawStatusOf issue) "DONE"
           || startsWith (rawStatusOf issue) "DONE ") with true
    by (now rewrite D).
  now rewrite andb_true_r.
Qed.

(** A status that merely starts with "DONE " does not synthesise a
    resolution date. *)
Lemma done_prefix_does_not_synthesise (issue : BurnupIssue) :
  nonempty (created issue) = true ->
  isFinite (parseJiraDate (created issue)) = true ->
  resolutionUnusable issue ->
  is_Done (statusCategory issue) = false ->
  startsWith (rawStatusOf issue) "DONE " = true ->
  exists n, normaliseIssue issue = Some n /\ resolvedMs n = None /\ isDone n = false.
Proof.
  intros Hc Hf Hr Hd Hp. unfold normaliseIssue.
  rewrite Hc, Hf. cbn [negb]. fold (rawStatusOf issue). rewrite Hd.
  assert (E : String.eqb (rawStatusOf issue) "DONE" = false).
  { destruct (String.eqb_spec (rawStatusOf issue) "DONE") as [E|]; [|reflexivity].
    rewrite E in Hp. discriminate. }
  rewrite E.
  assert (R : match resolutiondate issue with
              | Some r =>
                  if nonempty r
                  then if isFinite (parseJiraDate r)
                       then Some (parseJiraDate r) else None
                  else None
              | None => None
              end = None).
  { unfold resolutionUnusable in Hr. destruct (resolutiondate issue) as [r|];
      [|reflexivity].
    destruct Hr as [-> | H]; [reflexivity|].
    destruct (nonempty r); [now rewrite H | reflexivity]. }
  rewrite R. cbn. eexists. repeat split.
Qed.

End Normaliser.

(** A done issue resolved on its creation day counts as completed in
    exactly the windows that end after that day. *)
Lemma synthesised_done_counts_from_creation (n : NormalisedIssue) (windowEnd : number) :
  isDone n = true -> isCancelled n = false -> resolvedMs n = Some (createdMs n) ->
  doneBy windowEnd n = (createdMs n <? windowEnd) /\
  inScopeBy windowEnd n = (createdMs n <? windowEnd).
Proof.
  intros Hd Hc Hr. unfold doneBy, inScopeBy. rewrite Hd, Hc, Hr. cbn.
  rewrite !andb_true_r. now destruct (createdMs n <? windowEnd).
Qed.

(** C9: an issue created on 1970-01-01, in category Done and without a
    resolution date, gets [resolvedMs = createdMs = 0] but is NOT marked
    done: the normaliser tests [!!resolvedMs], and epoch day 0 is falsy.
    The same issue created one day later is marked done. *)
Theorem epoch_day_zero_issue_is_not_done :
  @normaliseIssue exampleRuntime
    (story "1970-01-01" None (Some Done) (Some "Done"%string)) =
    Some {| createdMs := of_Z 0; resolvedMs := Some (of_Z 0);
            isDone := false; isCancelled := false |} /\
  @normaliseIssue exampleRuntime
    (story "1970-01-02" None (Some Done) (Some "Done"%string)) =
    Some {| createdMs := of_Z 86400000; resolvedMs := Some (of_Z 86400000);
            isDone := true; isCancelled := false |}.
Proof. split; vm_compute; reflexivity. Qed.

(** ** The sprint loop in closed form *)

Section SprintLoop.
Variable stories : list NormalisedIssue.
Variables originMs sprintLenMs horizonMs todayMs : number.

Local Abbreviation loop fuel := (sprintLoop fuel stories originMs sprintLenMs horizonMs todayMs).
Local Abbreviation wstart := (windowStart originMs sprintLenMs).
Local Abbreviation wend := (windowEnd originMs sprintLenMs).
Local Abbreviation sprint := (sprintAt stories originMs sprintLenMs todayMs).

Lemma sprintLoop_step (fuel i : nat) (ps pc : number) (acc : list SprintSummary) :
  carried stories originMs sprintLenMs i ps pc ->
  loop (S fuel) i ps pc acc =
  if wstart i >? horizonMs then Some acc
  else loop fuel (S i) (scopeBy stories (wend i)) (cumDoneBy stories (wend i))
         (acc ++ [sprint i]).
Proof.
  intro C. cbn [sprintLoop]. fold (wstart i). fold (wend i).
  destruct (wstart i >? horizonMs); [reflexivity|].
  fold (scopeBy stories (wend i)). fold (rawDoneBy stories (wend i)).
  fold (cumDoneBy stories (wend i)).
  f_equal. f_equal. f_equal. unfold sprintAt.
  destruct i as [|j]; cbn [Nat.eqb]; [reflexivity|].
  destruct C as [-> ->]. reflexivity.
Qed.

Lemma carried_next (i : nat) :
  carried stories originMs sprintLenMs (S i)
    (scopeBy stories (wend i)) (cumDoneBy stories (wend i)).
Proof. split; reflexivity. Qed.


(** What a finished run returned. *)
Lemma sprintLoop_inv (fuel : nat) :
  forall (i : nat) (ps pc : number) (acc r : list SprintSummary),
    carried stories originMs sprintLenMs i ps pc ->
    loop fuel i ps pc acc = Some r ->
    exists n,
      r = acc ++ map sprint (seq i n) /\
      (forall j, (j < n)%nat -> (wstart (i + j) >? horizonMs) = false) /\
      (wstart (i + n) >? horizonMs) = true /\
      (n < fuel)%nat.
Proof.
  induction fuel as [|fuel IH]; intros i ps pc acc r C H; [discriminate|].
  rewrite sprintLoop_step in H by assumption.
  destruct (wstart i >? horizonMs) eqn:E.
  - inversion H; subst. exists 0%nat. cbn. rewrite app_nil_r, Nat.add_0_r.
    repeat split; auto; intros; lia.
  - apply IH in H; [|apply carried_next].
    destruct H as (n & -> & Hlow & Hhigh & Hf). exists (S n).
    cbn [seq map]. rewrite <- app_assoc. repeat split.
    + intros [|j] Hj; [now rewrite Nat.add_0_r|].
      replace (i + S j)%nat with (S i + j)%nat by lia. apply Hlow. lia.
    + now replace (i + S n)%nat with (S i + n)%nat by lia.
    + lia.
Qed.

(** A loop whose exit test never succeeds exhausts any fuel. *)
Lemma sprintLoop_diverges (fuel : nat) :
  forall (i : nat) (ps pc : number) (acc : list SprintSummary),
    (forall j, (wstart j >? horizonMs) = false) ->
    loop fuel i ps pc acc = None.
Proof.
  induction fuel as [|fuel IH]; intros i ps pc acc H; [reflexivity|].
  cbn [sprintLoop]. fold (wstart i). rewrite H. apply IH. assumption.
Qed.

End SprintLoop.

(** ** What a finished build contains *)

Section BuildShape.
Context {rt : JsRuntime}.

Lemma build_closed_form (fuel : nat) (input : BuildBurnupInput) (m : BurnupModel) :
  buildBurnupModel fuel input = Some m ->
  isFinite (targetOf input) = true ->
  exists n,
    deriveOrigin fuel (storiesOf input) (sprintLenDaysOf input)
      (parseISODate (Input.sprintStartISO input)) (todayOf input)
      = Some (originMs m) /\
    sprints m =
      map (sprintAt (storiesOf input) (originMs m) (sprintLenMsOf input) (todayOf input))
        (seq 0 n) /\
    (forall j, (j < n)%nat ->
       (windowStart (originMs m) (sprintLenMsOf input) j
          >? horizonOf input (originMs m)) = false) /\
    (windowStart (originMs m) (sprintLenMsOf input) n
       >? horizonOf input (originMs m)) = true /\
    (n < fuel)%nat /\
    targetDateMs m = targetOf input /\
    todayMs m = todayOf input /\
    sprintLengthDays m = sprintLenDaysOf input.
Proof.
  intros H Ht. unfold buildBurnupModel in H.
  fold (targetOf input) (todayOf input) (storiesOf input)
       (sprintLenDaysOf input) in H.
  fold (sprintLenMsOf input) in H.
  rewrite Ht in H. cbn [negb] in H.
  destruct (deriveOrigin _ _ _ _ _) as [origin|] eqn:Eo; [|discriminate].
  fold (lastStoryMsOf (storiesOf input) origin) in H.
  fold (horizonOf input origin) in H.
  destruct (sprintLoop _ _ _ _ _ _ _ _ _ _) as [sp|] eqn:El; [|discriminate].
  inversion H; subst; clear H. cbn [originMs sprints targetDateMs todayMs sprintLengthDays].
  apply sprintLoop_inv in El; [|exact I].
  destruct El as (n & -> & Hlow & Hhigh & Hf). exists n.
  repeat split; auto.
Qed.

End BuildShape.

(** ** Counting stories *)

Lemma filter_length_mono {A : Type} (f g : A -> bool) (l : list A) :
  (forall x, f x = true -> g x = true) ->
  (List.length (filter f l) <= List.length (filter g l))%nat.
Proof.
  intro H. induction l as [|x l IH]; simpl; [lia|].
  destruct (f x) eqn:F.
  - rewrite (H x F). simpl. lia.
  - destruct (g x); simpl; lia.
Qed.

Lemma of_nat_le (a b : nat) : (of_nat a <=? of_nat b) = (a <=? b)%nat.
Proof.
  unfold of_nat. rewrite of_Z_le.
  destruct (Nat.leb_spec a b); [apply Z.leb_le | apply Z.leb_gt]; lia.
Qed.

Lemma of_nat_min (a b : nat) : Math_min (of_nat a) (of_nat b) = of_nat (Nat.min a b).
Proof. unfold of_nat. rewrite of_Z_min. f_equal. lia. Qed.

Lemma cumDoneBy_count (stories : list NormalisedIssue) (e : number) :
  cumDoneBy stories e =
  of_nat (Nat.min (List.length (filter (doneBy e) stories))
                  (List.length (filter (inScopeBy e) stories))).
Proof. unfold cumDoneBy, rawDoneBy, scopeBy. apply of_nat_min. Qed.

Lemma cumDoneBy_le_scope (stories : list NormalisedIssue) (e : number) :
  (cumDoneBy stories e <=? scopeBy stories e) = true.
Proof.
  rewrite cumDoneBy_count. unfold scopeBy. rewrite of_nat_le.
  apply Nat.leb_le. lia.
Qed.

Lemma cumDoneBy_mono (stories : list NormalisedIssue) (e e' : number) :
  (forall x, (x <? e) = true -> (x <? e') = true) ->
  (cumDoneBy stories e' >=? cumDoneBy stories e) = true.
Proof.
  intro H. unfold num_ge. rewrite !cumDoneBy_count, of_nat_le.
  apply Nat.leb_le.
  assert (D : (List.length (filter (doneBy e) stories)
               <= List.length (filter (doneBy e') stories))%nat).
  { apply filter_length_mono. intros s. unfold doneBy.
    rewrite !andb_true_iff. intros [[[Hd Hr] Hc] Hn]. repeat split; auto.
    destruct (resolvedMs s); [auto | discriminate]. }
  assert (S : (List.length (filter (inScopeBy e) stories)
               <= List.length (filter (inScopeBy e') stories))%nat).
  { apply filter_length_mono. intros s. unfold inScopeBy.
    rewrite !andb_true_iff. intros [Hc Hn]. auto. }
  lia.
Qed.

Lemma lt_windowEnd_mono (o : number) (l : Q) (i : nat) (x : number) :
  (0 <= l)%Q ->
  (x <? windowEnd o (Fin l) i) = true ->
  (x <? windowEnd o (Fin l) (S i)) = true.
Proof.
  intro Hl. unfold windowEnd, windowStart, of_nat, of_Z, num_mul, num_add, of_Q, num_lt.
  destruct o as [|b|q], x as [|[|]|p]; cbv beta iota; auto.
  rewrite !Qltb_lt. intro H. unred.
  rewrite Nat2Z.inj_succ. unfold Z.succ. rewrite inject_Z_plus.
  eapply Qlt_le_trans; [exact H|].
  setoid_replace ((inject_Z (Z.of_nat i) + inject_Z 1) * l)%Q
    with (inject_Z (Z.of_nat i) * l + l)%Q by ring.
  set (a := (inject_Z (Z.of_nat i) * l)%Q). lra.
Qed.

Lemma nth_error_map_seq {A : Type} (f : nat -> A) (n i : nat) (x : A) :
  nth_error (map f (seq 0 n)) i = Some x -> (i < n)%nat /\ x = f i.
Proof.
  intro H.
  assert (Hi : (i < n)%nat).
  { assert (L : (i < List.length (map f (seq 0 n)))%nat)
      by (apply nth_error_Some; congruence).
    now rewrite length_map, length_seq in L. }
  split; [assumption|].
  rewrite nth_error_map, nth_error_seq in H.
  destruct (Nat.ltb_spec i n); [|lia]. cbn in H. congruence.
Qed.

(** ** What an exit of the loop says about the sprint length *)

Lemma add_NaN_r (o : number) : o + NaN = NaN.
Proof. now destruct o. Qed.

Lemma add_Inf_r (o : number) (b : bool) : o + Inf b = NaN \/ o + Inf b = Inf b.
Proof. destruct o as [|[|]|q], b; cbv; auto. Qed.

Lemma mul_nat_Inf (n : nat) (b : bool) :
  of_nat n * Inf b = NaN \/ of_nat n * Inf b = Inf b.
Proof.
  unfold of_nat, of_Z, num_mul.
  destruct (Qeq_bool (inject_Z (Z.of_nat n)) 0); [now left|].
  assert (L : Qltb (inject_Z (Z.of_nat n)) 0 = false).
  { apply Qltb_ge. change 0%Q with (inject_Z 0). rewrite <- Zle_Qle. lia. }
  rewrite L. now right.
Qed.

Lemma gt_NaN_or_same (x y : number) (b : bool) :
  x = NaN \/ x = Inf b -> y = NaN \/ y = Inf b -> (x >? y) = false.
Proof. intros [-> | ->] [-> | ->]; destruct b; reflexivity. Qed.

Lemma exit_needs_finite_length (o len base : number) (n : nat) :
  (windowStart o len n >? base + len * of_Z 6) = true ->
  exists l, len = Fin l.
Proof.
  unfold windowStart. destruct len as [|b|l]; [| |eauto]; intro H; exfalso.
  - rewrite (gt_NaN_or_same _ _ true) in H; [discriminate | left | left].
    + replace (of_nat n * NaN) with NaN by (now destruct (of_nat n)).
      apply add_NaN_r.
    + change (NaN * of_Z 6) with NaN. apply add_NaN_r.
  - rewrite (gt_NaN_or_same _ _ b) in H; [discriminate | |].
    + destruct (mul_nat_Inf n b) as [-> | ->];
        [left; apply add_NaN_r | apply add_Inf_r].
    + change (Inf b * of_Z 6) with (Inf b). apply add_Inf_r.
Qed.

Lemma nonempty_needs_positive_length (o h : number) (l : Q) (n : nat) :
  (windowStart o (Fin l) 0 >? h) = false ->
  (windowStart o (Fin l) n >? h) = true ->
  (0 < l)%Q.
Proof.
  unfold windowStart, num_gt, of_nat, of_Z, num_add, num_mul, num_lt, of_Q.
  destruct o as [|[|]|q], h as [|[|]|hq]; cbv beta iota; try discriminate;
    try congruence.
  rewrite Qltb_ge, Qltb_lt. intros H0 Hn. unred.
  change (inject_Z (Z.of_nat 0)) with 0%Q in H0.
  assert (Hp : (0 < inject_Z (Z.of_nat n) * l)%Q) by lra.
  destruct (Qlt_le_dec 0 l) as [L | L]; [assumption|]. exfalso.
  assert (Hnn : (0 <= inject_Z (Z.of_nat n))%Q).
  { change 0%Q with (inject_Z 0). rewrite <- Zle_Qle. lia. }
  assert (Hle : (inject_Z (Z.of_nat n) * l <= 0)%Q).
  { setoid_replace 0%Q with (inject_Z (Z.of_nat n) * 0)%Q by ring.
    rewrite (Qmult_comm _ l), (Qmult_comm _ 0).
    apply Qmult_le_compat_r; assumption. }
  lra.
Qed.

Section LengthOfBuild.
Context {rt : JsRuntime}.

Lemma built_length_finite (fuel : nat) (input : BuildBurnupInput) (m : BurnupModel) :
  buildBurnupModel fuel input = Some m ->
  isFinite (targetOf input) = true ->
  exists l, sprintLenMsOf input = Fin l.
Proof.
  intros H Ht.
  destruct (build_closed_form _ _ _ H Ht) as (n & _ & _ & _ & Hhigh & _).
  unfold horizonOf in Hhigh. now apply exit_needs_finite_length in Hhigh.
Qed.

Lemma built_sprints_need_positive_length
  (fuel : nat) (input : BuildBurnupInput) (m : BurnupModel) :
  buildBurnupModel fuel input = Some m ->
  sprints m <> [] ->
  exists l, sprintLenMsOf input = Fin l /\ (0 < l)%Q.
Proof.
  intros H Hne.
  destruct (isFinite (targetOf input)) eqn:Ht.
  - destruct (built_length_finite _ _ _ H Ht) as [l El]. exists l.
    split; [assumption|].
    destruct (build_closed_form _ _ _ H Ht) as (n & _ & Hsp & Hlow & Hhigh & _).
    rewrite El in *. destruct n as [|n]; [rewrite Hsp in Hne; now cbn in Hne|].
    eapply nonempty_needs_positive_length; [apply Hlow; lia | exact Hhigh].
  - unfold buildBurnupModel in H. fold (targetOf input) in H. rewrite Ht in H.
    cbn [negb] in H. inversion H; subst. now cbn in Hne.
Qed.

End LengthOfBuild.

(** ** Clamped, monotone cumulative done *)

Section CumulativeDone.
Context {rt : JsRuntime}.

(** C1: whenever the build returns a model, every sprint of its sequence
    has [cumDoneEnd = min(rawDoneByEnd, scopeAtEnd)], hence
    [cumDoneEnd <= scopeAtEnd], and [cumDoneEnd] never decreases from a
    sprint to the next. *)
Theorem cumulative_done_clamped_and_monotone
  (fuel : nat) (input : BuildBurnupInput) (m : BurnupModel) :
  buildBurnupModel fuel input = Some m ->
  forall (i : nat) (s : SprintSummary),
    nth_error (sprints m) i = Some s ->
    scopeAtEnd s = scopeBy (storiesOf input) (endMs s) /\
    cumDoneEnd s = Math_min (rawDoneBy (storiesOf input) (endMs s)) (scopeAtEnd s) /\
    (cumDoneEnd s <=? scopeAtEnd s) = true /\
    forall s', nth_error (sprints m) (S i) = Some s' ->
               (cumDoneEnd s' >=? cumDoneEnd s) = true.
Proof.
  intros H i s Hs.
  assert (Hne : sprints m <> []) by (destruct (sprints m), i; discriminate).
  destruct (built_sprints_need_positive_length _ _ _ H Hne) as (l & El & Hl).
  destruct (isFinite (targetOf input)) eqn:Ht.
  - destruct (build_closed_form _ _ _ H Ht) as (n & _ & Hsp & _).
    rewrite Hsp in *. apply nth_error_map_seq in Hs. destruct Hs as [Hi ->].
    cbn [scopeAtEnd cumDoneEnd endMs sprintAt].
    split; [reflexivity|]. split; [reflexivity|].
    split; [apply cumDoneBy_le_scope|].
    intros s' Hs'. apply nth_error_map_seq in Hs'. destruct Hs' as [_ ->].
    cbn [cumDoneEnd sprintAt]. apply cumDoneBy_mono. rewrite El.
    intro x. apply lt_windowEnd_mono. now apply Qlt_le_weak.
  - unfold buildBurnupModel in H. fold (targetOf input) in H. rewrite Ht in H.
    cbn [negb] in H. inversion H; subst. now cbn in Hne.
Qed.

End CumulativeDone.

(** The single-story scenario: the sprint in which the story lands and
    the one after it. *)
Lemma cumulative_done_clamped_and_monotone_witness :
  exists s s',
    nth_error (sprints model_single_done) 1 = Some s /\
    nth_error (sprints model_single_done) 2 = Some s' /\
    scopeAtEnd s = scopeBy (@storiesOf exampleRuntime scenario_single_done) (endMs s) /\
    cumDoneEnd s =
      Math_min (rawDoneBy (@storiesOf exampleRuntime scenario_single_done) (endMs s))
        (scopeAtEnd s) /\
    (cumDoneEnd s <=? scopeAtEnd s) = true /\
    (cumDoneEnd s' >=? cumDoneEnd s) = true.
Proof.
  assert (B : @buildBurnupModel exampleRuntime 100 scenario_single_done
              = Some model_single_done) by (vm_compute; reflexivity).
  destruct (nth_error (sprints model_single_done) 1) as [s|] eqn:E1;
    [|vm_compute in E1; discriminate].
  destruct (nth_error (sprints model_single_done) 2) as [s'|] eqn:E2;
    [|vm_compute in E2; discriminate].
  exists s, s'.
  destruct (@cumulative_done_clamped_and_monotone exampleRuntime 100
              scenario_single_done model_single_done B 1%nat s E1)
    as (H1 & H2 & H3 & H4).
  repeat split; auto.
Defined.

(** ** Working days *)

Lemma TimeClip_of_Z (z : Z) :
  TimeClip (of_Z z) = if (Z.abs z <=? maxTimeValue)%Z then Some z else None.
Proof.
  unfold TimeClip, of_Z.
  assert (A : Qabs (inject_Z z) = inject_Z (Z.abs z)) by reflexivity.
  rewrite A. unfold Qtrunc. cbn [Qnum Qden inject_Z]. rewrite Z.quot_1_r.
  destruct (Z.leb_spec (Z.abs z) maxTimeValue) as [L | L].
  - replace (Qle_bool (inject_Z (Z.abs z)) (inject_Z maxTimeValue)) with true;
      [reflexivity|].
    symmetry. apply Qle_bool_iff. now rewrite <- Zle_Qle.
  - replace (Qle_bool (inject_Z (Z.abs z)) (inject_Z maxTimeValue)) with false;
      [reflexivity|].
    symmetry. apply Qle_bool_false. now rewrite <- Zlt_Qlt.
Qed.

Lemma countsAsWorkingDay_cases (k : Z) :
  countsAsWorkingDay k = true \/ countsAsWorkingDay k = weekdayZ k.
Proof.
  unfold countsAsWorkingDay, getUTCDay. rewrite TimeClip_of_Z.
  destruct (Z.abs (k * msPerDay) <=? maxTimeValue)%Z; [right | left; reflexivity].
  unfold num_neq. rewrite !of_Z_eq. unfold weekdayZ.
  rewrite Z.div_mul by (unfold msPerDay; lia). reflexivity.
Qed.

Lemma countsAsWorkingDay_valid (k : Z) :
  validDay k -> countsAsWorkingDay k = weekdayZ k.
Proof.
  intro V. unfold countsAsWorkingDay, getUTCDay. rewrite TimeClip_of_Z.
  replace (Z.abs (k * msPerDay) <=? maxTimeValue)%Z with true.
  - unfold num_neq. rewrite !of_Z_eq. unfold weekdayZ.
    rewrite Z.div_mul by (unfold msPerDay; lia). reflexivity.
  - symmetry. apply Z.leb_le. unfold validDay, msPerDay, maxTimeValue in *. lia.
Qed.

Lemma weekday_within_three (k : Z) :
  weekdayZ (k - 1) = true \/ weekdayZ (k - 2) = true \/ weekdayZ (k - 3) = true.
Proof.
  unfold weekdayZ.
  destruct (Z.eqb_spec ((k - 1 + 4) mod 7) 0) as [A | A];
  destruct (Z.eqb_spec ((k - 1 + 4) mod 7) 6) as [B | B];
  destruct (Z.eqb_spec ((k - 2 + 4) mod 7) 0) as [C | C];
  destruct (Z.eqb_spec ((k - 2 + 4) mod 7) 6) as [D | D];
  destruct (Z.eqb_spec ((k - 3 + 4) mod 7) 0) as [E | E];
  destruct (Z.eqb_spec ((k - 3 + 4) mod 7) 6) as [F | F];
  cbn; auto; exfalso;
  pose proof (Z.mod_pos_bound (k - 1 + 4) 7 ltac:(lia));
  pose proof (Z.mod_pos_bound (k - 2 + 4) 7 ltac:(lia));
  pose proof (Z.mod_pos_bound (k - 3 + 4) 7 ltac:(lia));
  pose proof (Z.div_mod (k - 1 + 4) 7 ltac:(lia));
  pose proof (Z.div_mod (k - 2 + 4) 7 ltac:(lia));
  pose proof (Z.div_mod (k - 3 + 4) 7 ltac:(lia));
  lia.
Qed.

Lemma working_day_within_three (k : Z) :
  countsAsWorkingDay (k - 1) = true \/ countsAsWorkingDay (k - 2) = true \/
  countsAsWorkingDay (k - 3) = true.
Proof.
  destruct (countsAsWorkingDay_cases (k - 1)) as [A | A]; [auto|].
  destruct (countsAsWorkingDay_cases (k - 2)) as [B | B]; [auto|].
  destruct (countsAsWorkingDay_cases (k - 3)) as [C | C]; [auto|].
  rewrite A, B, C. apply weekday_within_three.
Qed.

Lemma countDays_app (w : Z -> bool) (a b : nat) :
  forall r, countDays w r (a + b) =
            (countDays w r a + countDays w (r + Z.of_nat a) b)%nat.
Proof.
  induction a as [|a IH]; intro r.
  - cbn. now rewrite Z.add_0_r.
  - cbn [Nat.add countDays]. rewrite IH.
    replace (r + 1 + Z.of_nat a)%Z with (r + Z.of_nat (S a))%Z by lia. lia.
Qed.

Lemma countDays_ext (w w' : Z -> bool) (len : nat) :
  forall r, (forall j, (r <= j < r + Z.of_nat len)%Z -> w j = w' j) ->
            countDays w r len = countDays w' r len.
Proof.
  induction len as [|n IH]; intros r H; [reflexivity|].
  cbn [countDays]. rewrite (H r) by lia. f_equal. apply IH.
  intros j Hj. apply H. lia.
Qed.

Section BackLoop.
Variable w : Z -> bool.
Hypothesis w_within_three :
  forall k, w (k - 1)%Z = true \/ w (k - 2)%Z = true \/ w (k - 3)%Z = true.

(** The nearest day before [k] that counts, at most three days back. *)
Lemma previous_counted_day (k : Z) :
  exists d : nat,
    (1 <= d <= 3)%nat /\ w (k - Z.of_nat d)%Z = true /\
    countDays w (k - Z.of_nat d)%Z d = 1%nat /\
    forall fuel left,
      backLoopZ w (d + fuel) k (S left) = backLoopZ w fuel (k - Z.of_nat d)%Z left.
Proof.
  destruct (w (k - 1)%Z) eqn:A.
  - exists 1%nat. repeat split; try lia; auto.
    + cbn. now rewrite A.
    + intros fuel left. cbn. now rewrite A.
  - destruct (w (k - 2)%Z) eqn:B.
    + exists 2%nat. repeat split; try lia; auto.
      * cbn. replace (k - 2 + 1)%Z with (k - 1)%Z by lia. now rewrite A, B.
      * intros fuel left. cbn. rewrite A.
        replace (k - 1 - 1)%Z with (k - 2)%Z by lia. now rewrite B.
    + destruct (w_within_three k) as [C | [C | C]]; try congruence.
      exists 3%nat. repeat split; try lia; auto.
      * cbn. replace (k - 3 + 1)%Z with (k - 2)%Z by lia.
        replace (k - 2 + 1)%Z with (k - 1)%Z by lia. now rewrite A, B, C.
      * intros fuel left. cbn. rewrite A.
        replace (k - 1 - 1)%Z with (k - 2)%Z by lia. rewrite B.
        replace (k - 2 - 1)%Z with (k - 3)%Z by lia. now rewrite C.
Qed.

(** Going back [n] counted days ends, within [3 n] steps, on the day [r]
    with exactly [n] counted days in [r, k). *)
Lemma backLoopZ_result (n : nat) :
  forall k, exists r,
    (forall fuel, (3 * n < fuel)%nat -> backLoopZ w fuel k n = Some r) /\
    (k - 3 * Z.of_nat n <= r <= k)%Z /\
    countDays w r (Z.to_nat (k - r)) = n /\
    ((0 < n)%nat -> w r = true /\ (r < k)%Z).
Proof.
  induction n as [|n IH]; intro k.
  - exists k. repeat split; try lia.
    + intros [|fuel] H; [lia | reflexivity].
    + now rewrite Z.sub_diag.
  - destruct (previous_counted_day k) as (d & Hd & Wd & Cd & Step).
    destruct (IH (k - Z.of_nat d)%Z) as (r & Run & Bnd & Cnt & Pos).
    exists r. repeat split; try lia.
    + intros fuel Hf. replace fuel with (d + (fuel - d))%nat by lia.
      rewrite Step. apply Run. lia.
    + replace (Z.to_nat (k - r))
        with (Z.to_nat (k - Z.of_nat d - r) + d)%nat by lia.
      rewrite countDays_app, Cnt.
      replace (r + Z.of_nat (Z.to_nat (k - Z.of_nat d - r)))%Z
        with (k - Z.of_nat d)%Z by lia.
      rewrite Cd. lia.
    + destruct n as [|n].
      * assert (r = k - Z.of_nat d)%Z by lia. now subst.
      * apply Pos. lia.
Qed.

End BackLoop.

(** The loop of the source on day-aligned timestamps is the loop on day
    numbers. *)
Lemma subtractWorkingDays_loop_days (fuel : nat) :
  forall (k : Z) (n : nat),
    subtractWorkingDays_loop fuel (of_Z (k * msPerDay)) (of_nat n) =
    option_map (fun r => of_Z (r * msPerDay))
      (backLoopZ countsAsWorkingDay fuel k n).
Proof.
  induction fuel as [|fuel IH]; intros k n; [reflexivity|].
  cbn [subtractWorkingDays_loop backLoopZ].
  unfold of_nat at 1. rewrite of_Z_gt.
  destruct n as [|n]; [reflexivity|].
  replace (0 <? Z.of_nat (S n))%Z with true by (symmetry; apply Z.ltb_lt; lia).
  assert (E : of_Z (k * msPerDay) - DAY_MS = of_Z ((k - 1) * msPerDay)).
  { unfold DAY_MS. rewrite of_Z_sub. f_equal. unfold msPerDay. lia. }
  rewrite E. fold (countsAsWorkingDay (k - 1)).
  destruct (countsAsWorkingDay (k - 1)).
  - replace (of_nat (S n) - of_Z 1) with (of_nat n).
    + apply IH.
    + unfold of_nat. rewrite of_Z_sub. f_equal. lia.
  - apply IH.
Qed.

(** ** Epoch-day alignment *)

Lemma epochDayFloorMs_Fin (q : Q) :
  epochDayFloorMs (Fin q) = of_Z (Qfloor (q / inject_Z msPerDay) * msPerDay).
Proof.
  unfold epochDayFloorMs. cbn [isFinite negb].
  unfold DAY_MS at 1. unfold of_Z at 1. unfold num_div.
  change (Qeq_bool (inject_Z (24 * 60 * 60 * 1000)) 0) with false. cbv iota.
  unfold of_Q, Math_floor. rewrite Qred_correct.
  unfold DAY_MS. rewrite of_Z_mul. reflexivity.
Qed.

Lemma epochDayFloorMs_aligned (x : number) :
  isFinite x = true -> dayAligned (epochDayFloorMs x).
Proof.
  destruct x as [| |q]; try discriminate. intros _.
  rewrite epochDayFloorMs_Fin. now eexists.
Qed.

Lemma epochDayFloorMs_of_day (k : Z) :
  epochDayFloorMs (of_Z (k * msPerDay)) = of_Z (k * msPerDay).
Proof.
  unfold of_Z at 1. rewrite epochDayFloorMs_Fin. do 2 f_equal.
  rewrite <- Zdiv_Qdiv. apply Z.div_mul. unfold msPerDay. lia.
Qed.

Lemma epochDayFloorMs_cases (x : number) :
  epochDayFloorMs x = NaN \/ dayAligned (epochDayFloorMs x).
Proof.
  destruct x as [|b|q]; [now left | now left | right].
  now apply epochDayFloorMs_aligned.
Qed.

Lemma dayAligned_finite (x : number) : dayAligned x -> isFinite x = true.
Proof. intros [k ->]. reflexivity. Qed.

Section Alignment.
Context {rt : JsRuntime}.

Lemma parseJiraDate_aligned (v : string) :
  isFinite (parseJiraDate v) = true -> dayAligned (parseJiraDate v).
Proof.
  unfold parseJiraDate. destruct (nonempty v); cbn [negb]; [|discriminate].
  destruct (isFinite (Date_parse v)) eqn:F; cbn [negb]; [|discriminate].
  intros _. now apply epochDayFloorMs_aligned.
Qed.

Lemma normaliseIssue_aligned (issue : BurnupIssue) (n : NormalisedIssue) :
  normaliseIssue issue = Some n -> alignedIssue n.
Proof.
  unfold normaliseIssue.
  destruct (nonempty (created issue)); cbn [negb]; [|discriminate].
  destruct (isFinite (parseJiraDate (created issue))) eqn:Fc; cbn [negb];
    [|discriminate].
  pose proof (parseJiraDate_aligned _ Fc) as Ac.
  intro H. inversion H; subst; clear H. split; [exact Ac|]. cbn [resolvedMs].
  match goal with |- context [if ?c then Some _ else _] => destruct c end;
    [exact Ac|].
  destruct (resolutiondate issue) as [r|]; [|exact I].
  destruct (nonempty r); [|exact I].
  destruct (isFinite (parseJiraDate r)) eqn:Fr; [|exact I].
  now apply parseJiraDate_aligned.
Qed.

Lemma filter_map_Forall {A B : Type} (f : A -> option B) (P : B -> Prop)
  (xs : list A) :
  (forall x y, f x = Some y -> P y) -> Forall P (filter_map f xs).
Proof.
  intro H. induction xs as [|x xs IH]; cbn; [constructor|].
  destruct (f x) as [y|] eqn:E; [constructor; eauto | assumption].
Qed.

Lemma storiesOf_aligned (input : BuildBurnupInput) :
  Forall alignedIssue (storiesOf input).
Proof. apply filter_map_Forall. exact normaliseIssue_aligned. Qed.

End Alignment.

(** ** Minimum and maximum of day-aligned lists *)

Lemma aligned_values (l : list number) :
  Forall dayAligned l -> exists ks, l = map dayMs ks.
Proof.
  induction 1 as [|x l [k ->] _ [ks ->]]; [now exists [] | now exists (k :: ks)].
Qed.

Lemma dayMs_min (a b : Z) : Math_min (dayMs a) (dayMs b) = dayMs (Z.min a b).
Proof.
  unfold dayMs. rewrite of_Z_min. f_equal.
  rewrite Z.mul_min_distr_nonneg_r; [reflexivity | unfold msPerDay; lia].
Qed.

Lemma dayMs_max (a b : Z) : Math_max (dayMs a) (dayMs b) = dayMs (Z.max a b).
Proof.
  unfold dayMs. rewrite of_Z_max. f_equal.
  rewrite Z.mul_max_distr_nonneg_r; [reflexivity | unfold msPerDay; lia].
Qed.

Lemma dayMs_le (a b : Z) : (dayMs a <=? dayMs b) = (a <=? b)%Z.
Proof.
  unfold dayMs. rewrite of_Z_le. unfold msPerDay.
  destruct (Z.leb_spec a b); [apply Z.leb_le | apply Z.leb_gt]; lia.
Qed.

Lemma dayMs_inj (a b : Z) : dayMs a = dayMs b -> a = b.
Proof. intro H. apply of_Z_inj in H. unfold msPerDay in H. lia. Qed.

Lemma fold_min_days (ks : list Z) :
  forall k, fold_left Math_min (map dayMs ks) (dayMs k) = dayMs (fold_left Z.min ks k).
Proof.
  induction ks as [|a ks IH]; intro k; [reflexivity|].
  cbn [map fold_left]. now rewrite dayMs_min, IH.
Qed.

Lemma fold_max_days (ks : list Z) :
  forall k, fold_left Math_max (map dayMs ks) (dayMs k) = dayMs (fold_left Z.max ks k).
Proof.
  induction ks as [|a ks IH]; intro k; [reflexivity|].
  cbn [map fold_left]. now rewrite dayMs_max, IH.
Qed.

Lemma Math_min_list_days (k : Z) (ks : list Z) :
  Math_min_list (map dayMs (k :: ks)) = dayMs (fold_left Z.min ks k).
Proof. unfold Math_min_list. cbn [map fold_left]. apply fold_min_days. Qed.

Lemma Math_max_list_days (k : Z) (ks : list Z) :
  Math_max_list (map dayMs (k :: ks)) = dayMs (fold_left Z.max ks k).
Proof. unfold Math_max_list. cbn [map fold_left]. apply fold_max_days. Qed.

Lemma fold_min_spec (ks : list Z) :
  forall k, In (fold_left Z.min ks k) (k :: ks) /\
            forall y, In y (k :: ks) -> (fold_left Z.min ks k <= y)%Z.
Proof.
  induction ks as [|a ks IH]; intro k; cbn [fold_left].
  - split; [now left|]. intros y [<- | []]. lia.
  - destruct (IH (Z.min k a)) as [Hin Hle]. split.
    + destruct Hin as [E | Hin].
      * rewrite <- E. destruct (Z.min_spec k a) as [[_ ->] | [_ ->]];
          [now left | right; now left].
      * right. now right.
    + intros y [<- | [<- | Hy]].
      * specialize (Hle (Z.min k a) (or_introl eq_refl)). lia.
      * specialize (Hle (Z.min k a) (or_introl eq_refl)). lia.
      * apply Hle. now right.
Qed.

Lemma fold_max_spec (ks : list Z) :
  forall k, In (fold_left Z.max ks k) (k :: ks) /\
            forall y, In y (k :: ks) -> (y <= fold_left Z.max ks k)%Z.
Proof.
  induction ks as [|a ks IH]; intro k; cbn [fold_left].
  - split; [now left|]. intros y [<- | []]. lia.
  - destruct (IH (Z.max k a)) as [Hin Hle]. split.
    + destruct Hin as [E | Hin].
      * rewrite <- E. destruct (Z.max_spec k a) as [[_ ->] | [_ ->]];
          [right; now left | now left].
      * right. now right.
    + intros y [<- | [<- | Hy]].
      * specialize (Hle (Z.max k a) (or_introl eq_refl)). lia.
      * specialize (Hle (Z.max k a) (or_introl eq_refl)). lia.
      * apply Hle. now right.
Qed.

(** The minimum of a non-empty list of midnights is one of them and lies
    at or before each. *)
Lemma Math_min_list_aligned (l : list number) :
  Forall dayAligned l -> l <> [] ->
  exists k, Math_min_list l = dayMs k /\ In (dayMs k) l /\
            forall j, In (dayMs j) l -> (k <= j)%Z.
Proof.
  intros A Hne. destruct (aligned_values _ A) as [ks ->].
  destruct ks as [|k ks]; [now contradiction Hne|].
  rewrite Math_min_list_days. destruct (fold_min_spec ks k) as [Hin Hle].
  eexists. split; [reflexivity|]. split.
  - now apply in_map.
  - intros j Hj. apply in_map_iff in Hj. destruct Hj as (y & E & Hy).
    apply dayMs_inj in E. subst. now apply Hle.
Qed.

Lemma Math_max_list_aligned (l : list number) :
  Forall dayAligned l -> l <> [] ->
  exists k, Math_max_list l = dayMs k /\ In (dayMs k) l /\
            forall j, In (dayMs j) l -> (j <= k)%Z.
Proof.
  intros A Hne. destruct (aligned_values _ A) as [ks ->].
  destruct ks as [|k ks]; [now contradiction Hne|].
  rewrite Math_max_list_days. destruct (fold_max_spec ks k) as [Hin Hle].
  eexists. split; [reflexivity|]. split.
  - now apply in_map.
  - intros j Hj. apply in_map_iff in Hj. destruct Hj as (y & E & Hy).
    apply dayMs_inj in E. subst. now apply Hle.
Qed.

(** ** The origin derived from the earliest done story *)

Lemma workingDaysBack_Fin (q : Q) :
  exists n, workingDaysBack (Fin q) = of_nat n /\ (1 <= n)%nat.
Proof.
  unfold workingDaysBack.
  assert (E : exists x, (Fin q * of_Z 5) / of_Z 7 = Fin x)
    by (eexists; reflexivity).
  destruct E as [x ->]. unfold Math_round. rewrite of_Z_max.
  exists (Z.to_nat (Z.max 1 (Qfloor (x + (1 # 2))))). split; [|lia].
  unfold of_nat. f_equal. lia.
Qed.

Lemma left_of_working_days (n : nat) :
  Math_max (of_Z 0) (Math_floor (of_nat n)) = of_nat n.
Proof. unfold of_nat. rewrite of_Z_floor, of_Z_max. f_equal. lia. Qed.

Lemma backLoopZ_fuel_mono (w : Z -> bool) (fuel : nat) :
  forall k n r, backLoopZ w fuel k n = Some r ->
                forall fuel', (fuel <= fuel')%nat -> backLoopZ w fuel' k n = Some r.
Proof.
  induction fuel as [|fuel IH]; intros k n r H fuel' Hf; [discriminate|].
  destruct fuel' as [|fuel']; [lia|]. cbn in *.
  destruct n as [|n]; [assumption|]. apply IH with (fuel' := fuel') in H; [assumption | lia].
Qed.

Lemma validDoneDays_aligned (stories : list NormalisedIssue) :
  Forall alignedIssue stories -> Forall dayAligned (validDoneDays stories).
Proof.
  unfold validDoneDays. induction 1 as [|s l [_ Hs] _ IH]; cbn; [constructor|].
  destruct (isValidDone s); [|assumption]. cbn.
  destruct (resolvedMs s); [constructor|]; assumption.
Qed.

Lemma validDoneDays_nonempty (stories : list NormalisedIssue) :
  filter isValidDone stories <> [] -> validDoneDays stories <> [].
Proof.
  unfold validDoneDays. induction stories as [|s l IH]; cbn; [auto|].
  destruct (isValidDone s) eqn:V; [|assumption]. intros _. cbn.
  unfold isValidDone in V. apply andb_true_iff in V. destruct V as [_ V].
  destruct (resolvedMs s); [discriminate | discriminate].
Qed.

Lemma deriveOrigin_from_done (stories : list NormalisedIssue) (q : Q)
  (uiOriginMs todayMs : number) :
  Forall alignedIssue stories ->
  filter isValidDone stories <> [] ->
  exists (kE r : Z) (n : nat),
    earliestDone stories = dayMs kE /\
    In (dayMs kE) (validDoneDays stories) /\
    (forall j, In (dayMs j) (validDoneDays stories) -> (kE <= j)%Z) /\
    workingDaysBack (Fin q) = of_nat n /\ (1 <= n)%nat /\
    (forall fuel,
       deriveOrigin fuel stories (Fin q) uiOriginMs todayMs =
       option_map dayMs (backLoopZ countsAsWorkingDay fuel kE n)) /\
    (forall fuel, (3 * n < fuel)%nat ->
       backLoopZ countsAsWorkingDay fuel kE n = Some r) /\
    (kE - 3 * Z.of_nat n <= r < kE)%Z /\
    countDays countsAsWorkingDay r (Z.to_nat (kE - r)) = n /\
    countsAsWorkingDay r = true.
Proof.
  intros A Hne.
  destruct (Math_min_list_aligned (validDoneDays stories)
              (validDoneDays_aligned _ A) (validDoneDays_nonempty _ Hne))
    as (kE & Emin & Hin & Hle).
  destruct (workingDaysBack_Fin q) as (n & En & Hn).
  destruct (backLoopZ_result countsAsWorkingDay working_day_within_three n kE)
    as (r & Run & Bnd & Cnt & Pos).
  destruct (Pos ltac:(lia)) as [Wr Lt].
  exists kE, r, n. repeat split; auto; try lia.
  intro fuel. unfold deriveOrigin.
  destruct stories as [|s0 rest]; [now contradiction Hne|].
  destruct (filter isValidDone (s0 :: rest)) as [|v vs] eqn:Ev;
    [now contradiction Hne|].
  rewrite <- Ev. fold (validDoneDays (s0 :: rest)).
  fold (earliestDone (s0 :: rest)). fold (workingDaysBack (Fin q)).
  unfold earliestDone. rewrite Emin, En. unfold subtractWorkingDaysUTC.
  unfold dayMs at 1. rewrite epochDayFloorMs_of_day, left_of_working_days.
  rewrite subtractWorkingDays_loop_days.
  destruct (backLoopZ countsAsWorkingDay fuel kE n) as [r'|]; [|reflexivity].
  cbn [option_map]. change (isFinite (of_Z (r' * msPerDay))) with true.
  cbn [negb]. now rewrite epochDayFloorMs_of_day.
Qed.

Lemma mul_DAY_MS_Fin (a : number) (l : Q) :
  a * DAY_MS = Fin l -> exists q, a = Fin q.
Proof. destruct a as [|b|q]; [discriminate | discriminate | eauto]. Qed.


Section Origin.
Context {rt : JsRuntime}.


End Origin.



(** ** Termination of the origin derivation *)



Lemma finite_is_Fin (x : number) : isFinite x = true -> exists q, x = Fin q.
Proof. destruct x; try discriminate; eauto. Qed.

Lemma createdMs_aligned (stories : list NormalisedIssue) :
  Forall alignedIssue stories -> Forall dayAligned (map createdMs stories).
Proof. induction 1 as [|s l [Hs _] _ IH]; cbn; constructor; assumption. Qed.

Lemma resolvedMs_aligned (stories : list NormalisedIssue) :
  Forall alignedIssue stories -> Forall dayAligned (filter_map resolvedMs stories).
Proof.
  induction 1 as [|s l [_ Hs] _ IH]; cbn; [constructor|].
  destruct (resolvedMs s); [constructor|]; assumption.
Qed.


(** ** The horizon is finite *)

Lemma lastStoryMsOf_aligned (stories : list NormalisedIssue) (originMs : number) :
  Forall alignedIssue stories -> dayAligned originMs ->
  dayAligned (lastStoryMsOf stories originMs).
Proof.
  intros A Ao. unfold lastStoryMsOf.
  assert (C : dayAligned match stories with
                         | [] => originMs
                         | _ :: _ => Math_max_list (map createdMs stories)
                         end).
  { destruct stories as [|s0 rest]; [assumption|].
    destruct (Math_max_list_aligned (map createdMs (s0 :: rest))
                (createdMs_aligned _ A) ltac:(discriminate)) as (k & -> & _).
    now exists k. }
  destruct (filter_map resolvedMs stories) as [|x xs] eqn:Er; [assumption|].
  destruct (Math_max_list_aligned (x :: xs)) as (k & -> & _);
    [rewrite <- Er; now apply resolvedMs_aligned | discriminate|].
  destruct C as [c ->]. rewrite dayMs_max. now eexists.
Qed.


(** ** The loop leaves the horizon behind *)



Lemma windowStart_exit_test (o l h : Q) (j : nat) :
  (windowStart (Fin o) (Fin l) j >? Fin h) = true <->
  (h < o + inject_Z (Z.of_nat j) * l)%Q.
Proof.
  unfold windowStart, num_gt, of_nat, of_Z, num_mul, num_add, num_lt, of_Q.
  rewrite Qltb_lt. split; intro H; unred; assumption.
Qed.

Lemma windowStart_value (o l : Q) (j : nat) :
  exists x, windowStart (Fin o) (Fin l) j = Fin x /\
            (x == o + inject_Z (Z.of_nat j) * l)%Q.
Proof.
  eexists. split; [reflexivity|]. unred. reflexivity.
Qed.


(** ** Termination of the build *)



Section Termination.
Context {rt : JsRuntime}.


Lemma unparseable_today_never_terminates (input : BuildBurnupInput) :
  isFinite (targetOf input) = true ->
  todayOf input = NaN ->
  forall fuel, buildBurnupModel fuel input = None.
Proof.
  intros Ht Hn fuel. destruct (buildBurnupModel fuel input) as [m|] eqn:E;
    [|reflexivity].
  exfalso. destruct (build_closed_form _ _ _ E Ht) as (n & _ & _ & _ & Hhigh & _).
  unfold horizonOf in Hhigh. rewrite Hn in Hhigh.
  rewrite (gt_NaN_or_same _ NaN true) in Hhigh; [discriminate | | now left].
  destruct (windowStart (originMs m) (sprintLenMsOf input) n) as [|[|]|x] eqn:W;
    auto; discriminate.
Qed.

End Termination.

Section TerminationTheorem.
Context {rt : JsRuntime}.


End TerminationTheorem.



(** ** The dates a build works with *)

Lemma Date_UTC_cases (y m d : number) :
  Date_UTC y m d = NaN \/ dayAligned (Date_UTC y m d).
Proof.
  unfold Date_UTC. destruct y as [| |y]; auto. destruct m as [| |m]; auto.
  destruct d as [| |d]; auto. cbv zeta. rewrite TimeClip_of_Z.
  destruct (_ <=? _)%Z; [right; eexists; reflexivity | now left].
Qed.

Section BuiltDates.
Context {rt : JsRuntime}.

Lemma parseISODate_cases (iso : string) :
  parseISODate iso = NaN \/ dayAligned (parseISODate iso).
Proof.
  unfold parseISODate. destruct (negb (nonempty iso)); auto. cbv zeta.
  destruct (_ || _); auto. apply Date_UTC_cases.
Qed.

Lemma todayOf_cases (input : BuildBurnupInput) :
  todayOf input = NaN \/ dayAligned (todayOf input).
Proof.
  unfold todayOf. destruct (Input.todayISO input) as [t|];
    [destruct (nonempty t)|];
    try apply parseISODate_cases; apply epochDayFloorMs_cases.
Qed.

End BuiltDates.

Lemma deriveOrigin_cases (fuel : nat) (stories : list NormalisedIssue)
  (d u t o : number) :
  deriveOrigin fuel stories d u t = Some o -> o = NaN \/ dayAligned o.
Proof.
  unfold deriveOrigin.
  match goal with
  | |- context [match ?x with Some _ => _ | None => None end] => destruct x
  end; [|discriminate].
  intro H. inversion H. apply epochDayFloorMs_cases.
Qed.

Lemma windowStart_NaN (len h : number) (n : nat) :
  (windowStart NaN len n >? h) = false.
Proof. unfold windowStart. now destruct h as [|[|]|x]. Qed.

(** The created and resolved days of the stories are at or before the day
    of the last story. *)
Lemma lastStory_bounds (stories : list NormalisedIssue) (o : number) (ks : Z) :
  Forall alignedIssue stories -> stories <> [] ->
  lastStoryMsOf stories o = dayMs ks ->
  (forall j, In (dayMs j) (map createdMs stories) -> (j <= ks)%Z) /\
  (forall j, In (dayMs j) (filter_map resolvedMs stories) -> (j <= ks)%Z).
Proof.
  intros A Hne. unfold lastStoryMsOf.
  destruct stories as [|s0 rest]; [contradiction|].
  destruct (Math_max_list_aligned (map createdMs (s0 :: rest))
              (createdMs_aligned _ A) ltac:(discriminate)) as (kc & -> & _ & Hc).
  destruct (filter_map resolvedMs (s0 :: rest)) as [|x xs] eqn:Er.
  - intro E. apply dayMs_inj in E. subst kc. split; [exact Hc|]. intros j [].
  - destruct (Math_max_list_aligned (x :: xs)) as (kr & -> & _ & Hr);
      [rewrite <- Er; now apply resolvedMs_aligned | discriminate|].
    rewrite dayMs_max. intro E. apply dayMs_inj in E. subst ks.
    split; intros j Hj; [apply Hc in Hj | apply Hr in Hj]; lia.
Qed.

Lemma validDoneDays_incl (stories : list NormalisedIssue) (x : number) :
  In x (validDoneDays stories) -> In x (filter_map resolvedMs stories).
Proof.
  unfold validDoneDays. induction stories as [|s l IH]; cbn; [auto|].
  destruct (isValidDone s); cbn.
  - destruct (resolvedMs s); cbn; [intros [H | H]; auto|]; auto.
  - intro H. destruct (resolvedMs s); cbn; auto.
Qed.

(** The origin is at or before the day of the last story. *)
Lemma deriveOrigin_le_last (fuel : nat) (stories : list NormalisedIssue) (q : Q)
  (ui today : number) (ko ks : Z) :
  Forall alignedIssue stories ->
  ui = NaN \/ dayAligned ui ->
  deriveOrigin fuel stories (Fin q) ui today = Some (dayMs ko) ->
  lastStoryMsOf stories (dayMs ko) = dayMs ks ->
  (ko <= ks)%Z.
Proof.
  intros A Hu Ho Hl.
  destruct stories as [|s0 rest].
  { cbn in Hl. apply dayMs_inj in Hl. lia. }
  destruct (lastStory_bounds _ _ _ A ltac:(discriminate) Hl) as [Hc Hr].
  destruct (filter isValidDone (s0 :: rest)) as [|v vs] eqn:Ev.
  - destruct (Math_min_list_aligned (map createdMs (s0 :: rest))
                (createdMs_aligned _ A) ltac:(discriminate)) as (k & Ek & Hin & _).
    apply Hc in Hin.
    unfold deriveOrigin in Ho. rewrite Ev, Ek in Ho.
    destruct Hu as [-> | [ku ->]]; cbn [isFinite negb] in Ho.
    + change (isFinite (dayMs k)) with true in Ho. cbn [negb] in Ho.
      unfold dayMs in Ho at 1. rewrite epochDayFloorMs_of_day in Ho.
      inversion Ho as [E]. try apply of_Z_inj in E. unfold msPerDay in E. lia.
    + change (isFinite (dayMs ku)) with true in Ho. cbv iota in Ho.
      rewrite dayMs_min in Ho.
      change (isFinite (dayMs (Z.min ku k))) with true in Ho. cbn [negb] in Ho.
      unfold dayMs in Ho at 1. rewrite epochDayFloorMs_of_day in Ho.
      inversion Ho as [E]. try apply of_Z_inj in E. unfold msPerDay in E. lia.
  - destruct (deriveOrigin_from_done (s0 :: rest) q ui today A
                ltac:(rewrite Ev; discriminate))
      as (kE & r & n & _ & Hin & _ & _ & _ & Hd & Run & Hr' & _).
    apply validDoneDays_incl in Hin. apply Hr in Hin.
    rewrite Hd in Ho.
    destruct (backLoopZ countsAsWorkingDay fuel kE n) as [r'|] eqn:Eb;
      [|discriminate].
    cbn in Ho. inversion Ho as [E]. try apply of_Z_inj in E.
    assert (r' = ko) by (unfold msPerDay in E; lia). subst r'.
    pose proof (backLoopZ_fuel_mono _ _ _ _ _ Eb (Nat.max fuel (3 * n + 1))
                  ltac:(lia)) as E1.
    rewrite Run in E1 by lia. inversion E1. lia.
Qed.

Section BuiltContext.
Context {rt : JsRuntime}.

(** What a returned build had to work with: an origin, a "today", a target
    and a last story that are midnights, a finite sprint length, and the
    exit of the loop at the first window starting after the horizon. *)
Lemma built_context (fuel : nat) (input : BuildBurnupInput) (m : BurnupModel) :
  buildBurnupModel fuel input = Some m ->
  isFinite (targetOf input) = true ->
  exists (n : nat) (ko kt kg ks : Z) (l : Q),
    originMs m = dayMs ko /\ todayOf input = dayMs kt /\
    targetOf input = dayMs kg /\
    lastStoryMsOf (storiesOf input) (originMs m) = dayMs ks /\
    sprintLenMsOf input = Fin l /\
    sprints m =
      map (sprintAt (storiesOf input) (dayMs ko) (Fin l) (dayMs kt)) (seq 0 n) /\
    (ko <= ks)%Z /\
    (forall j, (j < n)%nat ->
       (inject_Z (ko * msPerDay) + inject_Z (Z.of_nat j) * l <=
        inject_Z (Z.max (Z.max kt kg) ks * msPerDay) + l * 6)%Q) /\
    (inject_Z (Z.max (Z.max kt kg) ks * msPerDay) + l * 6 <
     inject_Z (ko * msPerDay) + inject_Z (Z.of_nat n) * l)%Q.
Proof.
  intros H Ht.
  destruct (build_closed_form _ _ _ H Ht)
    as (n & Ho & Hsp & Hlow & Hhigh & _ & _ & _ & _).
  destruct (built_length_finite _ _ _ H Ht) as [l El].
  destruct (todayOf_cases input) as [Hn | [kt Et]].
  { rewrite (unparseable_today_never_terminates input Ht Hn) in H. discriminate. }
  destruct (deriveOrigin_cases _ _ _ _ _ _ Ho) as [Hn | [ko Eo]].
  { rewrite Hn, windowStart_NaN in Hhigh. discriminate. }
  destruct (parseISODate_cases (Input.devCompletionISO input)) as [Hn | [kg Eg]].
  { unfold targetOf in Ht. rewrite Hn in Ht. discriminate. }
  fold (targetOf input) in Eg.
  destruct (lastStoryMsOf_aligned (storiesOf input) (originMs m)
              (storiesOf_aligned input) ltac:(now exists ko)) as [ks Es].
  assert (Hh : horizonOf input (originMs m) =
               Fin (Qred (inject_Z (Z.max (Z.max kt kg) ks * msPerDay)
                          + Qred (l * 6)))).
  { unfold horizonOf. rewrite Et, Eg, Es, El.
    change [dayMs kt; dayMs kg; dayMs ks] with (map dayMs [kt; kg; ks]).
    rewrite Math_max_list_days. cbn [fold_left]. reflexivity. }
  rewrite Hh, El, Eo in *.
  assert (Hq : exists q, sprintLenDaysOf input = Fin q).
  { unfold sprintLenMsOf in El. now apply mul_DAY_MS_Fin in El. }
  destruct Hq as [q Eq]. rewrite Eq in Ho.
  exists n, ko, kt, kg, ks, l. repeat split; auto.
  - now rewrite <- Et.
  - eapply deriveOrigin_le_last;
      [apply storiesOf_aligned | apply parseISODate_cases | exact Ho | exact Es].
  - intros j Hj. specialize (Hlow j Hj).
    destruct (Qlt_le_dec (inject_Z (Z.max (Z.max kt kg) ks * msPerDay) + l * 6)
                (inject_Z (ko * msPerDay) + inject_Z (Z.of_nat j) * l))
      as [L | L]; [|assumption].
    exfalso. unfold dayMs, of_Z in Hlow.
    rewrite (proj2 (windowStart_exit_test _ _ _ _)) in Hlow; [discriminate|].
    unred. exact L.
  - unfold dayMs, of_Z in Hhigh. apply windowStart_exit_test in Hhigh.
    unred. exact Hhigh.
Qed.

End BuiltContext.

(** ** The fields a build derives from its sprints *)

Section BuiltFields.
Context {rt : JsRuntime}.

Lemma build_fields (fuel : nat) (input : BuildBurnupInput) (m : BurnupModel) :
  buildBurnupModel fuel input = Some m ->
  latestScope m =
    match last_opt (sprints m) with Some s => scopeAtEnd s | None => of_Z 0 end /\
  totalDoneStories m =
    match last_opt (sprints m) with Some s => cumDoneEnd s | None => of_Z 0 end /\
  hasAnyDone m = (totalDoneStories m >? of_Z 0) /\
  targetScope m = computeScopeAtDate (sprints m) (targetOf input) /\
  projection m =
    computeProjection (sprints m) (sprintLengthDays m * DAY_MS)
      (Math_max (of_Z 0)
         (if isFinite (Input.sprintFTE input) then Input.sprintFTE input else of_Z 0))
      (latestScope m) (targetScope m) (targetOf input).
Proof.
  intro H. unfold buildBurnupModel in H. fold (targetOf input) in H.
  destruct (isFinite (targetOf input)); cbn [negb] in H.
  - destruct (deriveOrigin _ _ _ _ _) as [origin|]; [|discriminate].
    destruct (sprintLoop _ _ _ _ _ _ _ _ _ _) as [sp|]; [|discriminate].
    inversion H. repeat split.
  - inversion H. repeat split.
Qed.

End BuiltFields.

(** ** Window arithmetic *)

Lemma windowStart_S (o : number) (l : Q) (i : nat) :
  windowStart o (Fin l) (S i) = windowEnd o (Fin l) i.
Proof.
  unfold windowEnd, windowStart, of_nat, of_Z, num_mul, num_add.
  destruct o as [|b|q]; [reflexivity | reflexivity |].
  unfold of_Q. f_equal. apply Qred_complete. unred.
  rewrite Nat2Z.inj_succ. unfold Z.succ. rewrite inject_Z_plus. ring.
Qed.


Lemma windowEnd_value (o l : Q) (j : nat) :
  exists x, windowEnd (Fin o) (Fin l) j = Fin x /\
            (x == o + inject_Z (Z.of_nat (S j)) * l)%Q.
Proof.
  rewrite <- windowStart_S. apply windowStart_value.
Qed.

Lemma mul_DAY_MS_value (q l : Q) :
  Fin q * DAY_MS = Fin l -> (l == q * inject_Z 86400000)%Q.
Proof.
  intro E.
  assert (E' : l = Qred (q * inject_Z 86400000)).
  { change (Fin q * DAY_MS) with (Fin (Qred (q * inject_Z 86400000))) in E.
    congruence. }
  rewrite E'. apply Qred_correct.
Qed.

Lemma div_Fin (p l : Q) : ~ (l == 0)%Q -> Fin p / Fin l = of_Q (p / l).
Proof.
  intro H. unfold num_div. now rewrite (proj2 (Qeq_bool_false l 0) H).
Qed.

Lemma floor_of_Q (x : Q) : Math_floor (of_Q x) = of_Z (Qfloor x).
Proof. unfold of_Q, Math_floor. f_equal. apply Qfloor_comp, Qred_correct. Qed.

Lemma ceil_of_Q (x : Q) : Math_ceil (of_Q x) = of_Z (Qceiling x).
Proof. unfold of_Q, Math_ceil. f_equal. apply Qceiling_comp, Qred_correct. Qed.

Lemma round_of_Q (x : Q) : Math_round (of_Q x) = of_Z (Qfloor (x + (1 # 2))).
Proof.
  unfold of_Q, Math_round. f_equal. apply Qfloor_comp.
  now rewrite Qred_correct.
Qed.

Lemma of_nat_to_nat (z : Z) : (0 <= z)%Z -> of_nat (Z.to_nat z) = of_Z z.
Proof. intro H. unfold of_nat. now rewrite Z2Nat.id. Qed.





Lemma scopeBy_mono (stories : list NormalisedIssue) (e e' : number) :
  (forall x, (x <? e) = true -> (x <? e') = true) ->
  (scopeBy stories e <=? scopeBy stories e') = true.
Proof.
  intro H. unfold scopeBy. rewrite of_nat_le. apply Nat.leb_le.
  apply filter_length_mono. intros s. unfold inScopeBy.
  rewrite !andb_true_iff. intros [Hc Hn]. auto.
Qed.

Lemma filter_length_le {A : Type} (f : A -> bool) (l : list A) :
  (List.length (filter f l) <= List.length l)%nat.
Proof.
  induction l as [|x l IH]; simpl; [lia|]. destruct (f x); simpl; lia.
Qed.

Section BuiltSprints.
Context {rt : JsRuntime}.

(** The sprints of a returned model in closed form, with the facts the
    exit of the loop gives. *)
Lemma built_sprints (fuel : nat) (input : BuildBurnupInput) (m : BurnupModel) :
  buildBurnupModel fuel input = Some m ->
  sprints m <> [] ->
  exists (n : nat) (ko kt kg ks : Z) (l : Q),
    isFinite (targetOf input) = true /\
    (0 < l)%Q /\ (0 < n)%nat /\
    originMs m = dayMs ko /\ todayOf input = dayMs kt /\
    targetOf input = dayMs kg /\
    lastStoryMsOf (storiesOf input) (originMs m) = dayMs ks /\
    sprintLenMsOf input = Fin l /\
    sprints m =
      map (sprintAt (storiesOf input) (dayMs ko) (Fin l) (dayMs kt)) (seq 0 n) /\
    (ko <= ks)%Z /\
    (forall j, (j < n)%nat ->
       (inject_Z (ko * msPerDay) + inject_Z (Z.of_nat j) * l <=
        inject_Z (Z.max (Z.max kt kg) ks * msPerDay) + l * 6)%Q) /\
    (inject_Z (Z.max (Z.max kt kg) ks * msPerDay) + l * 6 <
     inject_Z (ko * msPerDay) + inject_Z (Z.of_nat n) * l)%Q.
Proof.
  intros H Hne.
  destruct (built_sprints_need_positive_length _ _ _ H Hne) as (l & El & Hl).
  destruct (isFinite (targetOf input)) eqn:Ht.
  - destruct (built_context _ _ _ H Ht)
      as (n & ko & kt & kg & ks & l' & Eo & Et & Eg & Es & El' & Hsp & Hle & Hlow & Hhigh).
    rewrite El in El'. inversion El'; subst l'.
    exists n, ko, kt, kg, ks, l. repeat split; auto.
    destruct n; [rewrite Hsp in Hne; now cbn in Hne | lia].
  - unfold buildBurnupModel in H. fold (targetOf input) in H. rewrite Ht in H.
    cbn [negb] in H. inversion H; subst. now cbn in Hne.
Qed.

End BuiltSprints.

(** ** The sprint sequence of a returned model *)

Lemma sum_numbers_snoc (xs : list number) (x : number) :
  sum_numbers (xs ++ [x]) = sum_numbers xs + x.
Proof. unfold sum_numbers. now rewrite fold_left_app. Qed.

Lemma nth_error_nonempty {A : Type} (l : list A) (i : nat) (x : A) :
  nth_error l i = Some x -> l <> [].
Proof. destruct l, i; discriminate. Qed.

(** The cumulative done counts of the windows are natural numbers that
    never decrease, and the throughput of a window is their increase. *)
Lemma cumDone_counts (stories : list NormalisedIssue) (o : number) (l : Q)
  (today : number) :
  (0 <= l)%Q ->
  exists c : nat -> nat,
    (forall j, cumDoneBy stories (windowEnd o (Fin l) j) = of_nat (c j)) /\
    (forall j, (c j <= c (S j))%nat) /\
    (forall j, doneThisSprint (sprintAt stories o (Fin l) today j) =
               of_Z match j with
                    | O => Z.of_nat (c 0%nat)
                    | S k => Z.of_nat (c (S k)) - Z.of_nat (c k)
                    end).
Proof.
  intro Hl.
  set (c := fun j =>
              Nat.min (List.length (filter (doneBy (windowEnd o (Fin l) j)) stories))
                      (List.length (filter (inScopeBy (windowEnd o (Fin l) j)) stories))).
  assert (Hc : forall j, cumDoneBy stories (windowEnd o (Fin l) j) = of_nat (c j))
    by (intro j; apply cumDoneBy_count).
  assert (Hm : forall j, (c j <= c (S j))%nat).
  { intro j.
    pose proof (cumDoneBy_mono stories (windowEnd o (Fin l) j)
                  (windowEnd o (Fin l) (S j))
                  (fun x => lt_windowEnd_mono o l j x Hl)) as M.
    unfold num_ge in M. rewrite !Hc, of_nat_le in M. now apply Nat.leb_le. }
  exists c. repeat split; auto.
  intros [|k]; cbn [doneThisSprint sprintAt]; rewrite !Hc; [reflexivity|].
  unfold of_nat. rewrite of_Z_sub, of_Z_max. f_equal. specialize (Hm k). lia.
Qed.

Lemma throughput_sum (stories : list NormalisedIssue) (o : number) (l : Q)
  (today : number) (i : nat) :
  (0 <= l)%Q ->
  sum_numbers (map doneThisSprint
                 (map (sprintAt stories o (Fin l) today) (seq 0 (S i)))) =
  cumDoneBy stories (windowEnd o (Fin l) i).
Proof.
  intro Hl. destruct (cumDone_counts stories o l today Hl) as (c & Hc & Hm & Hd).
  rewrite Hc. induction i as [|i IH].
  - cbn [seq map]. unfold sum_numbers. cbn [fold_left]. rewrite Hd.
    unfold of_nat. now rewrite of_Z_add.
  - rewrite seq_S, !map_app. cbn [map Nat.add]. rewrite sum_numbers_snoc, IH.
    rewrite Hd. unfold of_nat. rewrite of_Z_add. f_equal. lia.
Qed.

Lemma firstn_of_seq (k : nat) :
  forall start len, (k <= len)%nat -> firstn k (seq start len) = seq start k.
Proof.
  induction k as [|k IH]; intros start len H; [reflexivity|].
  destruct len as [|len]; [lia|]. cbn [seq firstn]. f_equal. apply IH. lia.
Qed.

Lemma firstn_map_seq {A : Type} (f : nat -> A) (n i : nat) :
  (i < n)%nat -> firstn (S i) (map f (seq 0 n)) = map f (seq 0 (S i)).
Proof.
  intro H. rewrite firstn_map, firstn_of_seq by lia. reflexivity.
Qed.

Lemma last_opt_map_seq {A : Type} (f : nat -> A) (n : nat) :
  last_opt (map f (seq 0 (S n))) = Some (f n).
Proof.
  unfold last_opt. rewrite length_map, length_seq, nth_error_map, nth_error_seq.
  replace (S n - 1)%nat with n by lia.
  destruct (Nat.ltb_spec n (S n)); [reflexivity | lia].
Qed.

Section SprintSequence.
Context {rt : JsRuntime}.


(** X2: in a returned model the scope at the end of a sprint is a count of
    stories, at most the number of normalised stories; the first sprint
    starts with scope 0, every later sprint starts with the scope the
    previous one ended with, and the scope at the end never decreases from
    a sprint to the next. *)
Theorem scope_is_carried_over_and_never_shrinks
  (fuel : nat) (input : BuildBurnupInput) (m : BurnupModel) :
  buildBurnupModel fuel input = Some m ->
  forall (i : nat) (s : SprintSummary),
    nth_error (sprints m) i = Some s ->
    (exists k, scopeAtEnd s = of_nat k /\
               (k <= List.length (storiesOf input))%nat) /\
    (i = 0%nat -> scopeAtStart s = of_Z 0) /\
    (scopeAtStart s <=? scopeAtEnd s) = true /\
    (forall s', nth_error (sprints m) (S i) = Some s' ->
       scopeAtStart s' = scopeAtEnd s /\
       (scopeAtEnd s <=? scopeAtEnd s') = true).
Proof.
  intros H i s Hs.
  pose proof (nth_error_nonempty _ _ _ Hs) as Hne.
  destruct (built_sprints _ _ _ H Hne)
    as (n & ko & kt & kg & ks & l & Ht & Hl & Hn & Eo & Et & Eg & Es & El & Hsp & _).
  rewrite Hsp in *. apply nth_error_map_seq in Hs. destruct Hs as [Hi ->].
  assert (Hl0 : (0 <= l)%Q) by now apply Qlt_le_weak.
  cbn [scopeAtEnd scopeAtStart sprintAt]. split; [|split; [|split]].
  - eexists. split; [reflexivity|]. apply filter_length_le.
  - now intros ->.
  - destruct i as [|j].
    + unfold scopeBy. change (of_Z 0) with (of_nat 0). rewrite of_nat_le.
      apply Nat.leb_le. lia.
    + apply scopeBy_mono. intro x. now apply lt_windowEnd_mono.
  - intros s' Hs'. apply nth_error_map_seq in Hs'. destruct Hs' as [_ ->].
    cbn [scopeAtEnd scopeAtStart sprintAt]. split; [reflexivity|].
    apply scopeBy_mono. intro x. now apply lt_windowEnd_mono.
Qed.

(** X3: in a returned model the throughput of a sprint is never negative;
    it is the cumulative done count of the first sprint and, from then on,
    the increase of the cumulative done count over the previous sprint.
    The throughputs up to a sprint add up to its cumulative done count, and
    all of them to [totalDoneStories]. *)
Theorem throughput_adds_up_to_cumulative_done
  (fuel : nat) (input : BuildBurnupInput) (m : BurnupModel) :
  buildBurnupModel fuel input = Some m ->
  (forall (i : nat) (s : SprintSummary),
     nth_error (sprints m) i = Some s ->
     (doneThisSprint s >=? of_Z 0) = true /\
     (i = 0%nat -> doneThisSprint s = cumDoneEnd s) /\
     (forall s', nth_error (sprints m) (S i) = Some s' ->
        doneThisSprint s' = cumDoneEnd s' - cumDoneEnd s) /\
     sum_numbers (map doneThisSprint (firstn (S i) (sprints m))) = cumDoneEnd s) /\
  sum_numbers (map doneThisSprint (sprints m)) = totalDoneStories m.
Proof.
  intro H.
  destruct (build_fields _ _ _ H) as (_ & Etot & _).
  destruct (sprints m) as [|s0 rest] eqn:Esp.
  { split; [intros [|i] s Hs; discriminate|]. rewrite Etot. reflexivity. }
  assert (Hne : sprints m <> []) by (rewrite Esp; discriminate).
  rewrite <- Esp in *. clear Esp s0 rest.
  destruct (built_sprints _ _ _ H Hne)
    as (n & ko & kt & kg & ks & l & Ht & Hl & Hn & Eo & Et & Eg & Es & El & Hsp & _).
  assert (Hl0 : (0 <= l)%Q) by now apply Qlt_le_weak.
  destruct (cumDone_counts (storiesOf input) (dayMs ko) l (dayMs kt) Hl0)
    as (c & Hc & Hm & Hd).
  rewrite Etot, Hsp. split.
  - intros i s Hs. apply nth_error_map_seq in Hs. destruct Hs as [Hi ->].
    split; [|split; [|split]].
    + rewrite Hd. unfold num_ge. rewrite of_Z_le. apply Z.leb_le.
      destruct i as [|k]; [lia | specialize (Hm k); lia].
    + intros ->. reflexivity.
    + intros s' Hs'. apply nth_error_map_seq in Hs'. destruct Hs' as [_ ->].
      rewrite Hd. cbn [cumDoneEnd sprintAt]. rewrite !Hc. unfold of_nat.
      now rewrite of_Z_sub.
    + rewrite firstn_map_seq by assumption. cbn [cumDoneEnd sprintAt].
      now apply throughput_sum.
  - destruct n as [|n]; [lia|]. rewrite last_opt_map_seq.
    cbn [cumDoneEnd sprintAt]. now apply throughput_sum.
Qed.



End SprintSequence.

(** ** What the last sprint and the target sprint count *)






Lemma days_le (a b : Z) :
  (a <= b)%Z -> (inject_Z (a * msPerDay) <= inject_Z (b * msPerDay))%Q.
Proof. intro H. rewrite <- Zle_Qle. unfold msPerDay. lia. Qed.

Section Normalised.
Context {rt : JsRuntime}.



End Normalised.



Lemma computeScopeAtDate_member (sprints : list SprintSummary) (d : number) :
  computeScopeAtDate sprints d = of_Z 0 \/
  exists s, In s sprints /\ computeScopeAtDate sprints d = scopeAtEnd s.
Proof.
  unfold computeScopeAtDate. destruct sprints as [|s0 rest]; [now left|].
  pose proof (firstEndingOnOrAfter_spec (s0 :: rest) d) as F.
  destruct (firstEndingOnOrAfter (s0 :: rest) d) as [s|].
  - destruct F as (before & after & E & _). right. exists s. split; [|reflexivity].
    rewrite E. apply in_or_app. right. now left.
  - destruct (last_opt (s0 :: rest)) as [s|] eqn:L; [|now left].
    right. exists s. split; [|reflexivity]. unfold last_opt in L.
    now apply nth_error_In in L.
Qed.

Lemma In_firstn_incl {A : Type} (n : nat) :
  forall (l : list A) (x : A), In x (firstn n l) -> In x l.
Proof.
  induction n as [|n IH]; intros [|a l] x H; try contradiction.
  cbn [firstn] in H. destruct H as [-> | H]; [now left | right; auto].
Qed.

(** A sequence without a positive throughput gives no velocity signal. *)
Lemma no_throughput_no_signal (sprints : list SprintSummary)
  (sprintLenMs sprintFTE latestScope targetScope targetDateMs : number) :
  (forall s, In s sprints -> (doneThisSprint s >? of_Z 0) = false) ->
  hasSignal (computeProjection sprints sprintLenMs sprintFTE latestScope
               targetScope targetDateMs) = false.
Proof.
  intro Hz. unfold computeProjection.
  destruct sprints as [|s0 rest]; [reflexivity|].
  pose proof (findLastClosed_spec (s0 :: rest) (List.length (s0 :: rest)) (le_n _)) as F.
  destruct (findLastClosed (s0 :: rest) _) as [[i anchor]|]; [|reflexivity].
  destruct F as (Hi & _). cbv zeta.
  rewrite velocity_loop_samples by exact Hi.
  unfold velocitySamples. rewrite filter_all_false; [reflexivity|].
  apply Forall_forall. intros s Hs. apply Hz.
  unfold lookbackWindow, closedBackFrom in Hs.
  apply In_firstn_incl in Hs. apply filter_In in Hs. destruct Hs as [Hs _].
  apply in_rev in Hs. now apply In_firstn_incl in Hs.
Qed.

Section LastAndTarget.
Context {rt : JsRuntime}.




(** X8: when every normalised story is cancelled, and so when there is no
    story at all, a returned model counts nothing: every sprint has scope
    0 at its start and its end and no done story, [latestScope],
    [targetScope] and [totalDoneStories] are 0, [hasAnyDone] is false and
    the projection has no signal. *)
Theorem cancelled_stories_are_not_counted
  (fuel : nat) (input : BuildBurnupInput) (m : BurnupModel) :
  buildBurnupModel fuel input = Some m ->
  Forall (fun s => isCancelled s = true) (storiesOf input) ->
  (forall (i : nat) (s : SprintSummary),
     nth_error (sprints m) i = Some s ->
     scopeAtStart s = of_Z 0 /\ scopeAtEnd s = of_Z 0 /\
     doneThisSprint s = of_Z 0 /\ cumDoneEnd s = of_Z 0) /\
  latestScope m = of_Z 0 /\ targetScope m = of_Z 0 /\
  totalDoneStories m = of_Z 0 /\ hasAnyDone m = false /\
  hasSignal (projection m) = false.
Proof.
  intros H Hc.
  destruct (build_fields _ _ _ H) as (Els & Etot & Eany & Ets & Ep).
  assert (Hs0 : forall e, scopeBy (storiesOf input) e = of_Z 0).
  { intro e. unfold scopeBy. rewrite filter_all_false; [reflexivity|].
    eapply Forall_impl; [|exact Hc]. intros s C. unfold inScopeBy.
    rewrite C. apply andb_false_r. }
  assert (Hd0 : forall e, cumDoneBy (storiesOf input) e = of_Z 0).
  { intro e. unfold cumDoneBy. rewrite Hs0. unfold rawDoneBy.
    rewrite filter_all_false; [reflexivity|].
    eapply Forall_impl; [|exact Hc]. intros s C. unfold doneBy.
    rewrite C. apply andb_false_r. }
  assert (Hall : forall i s, nth_error (sprints m) i = Some s ->
            scopeAtStart s = of_Z 0 /\ scopeAtEnd s = of_Z 0 /\
            doneThisSprint s = of_Z 0 /\ cumDoneEnd s = of_Z 0).
  { intros i s Hs.
    destruct (isFinite (targetOf input)) eqn:Ht.
    - destruct (build_closed_form _ _ _ H Ht) as (n & _ & Hsp & _).
      rewrite Hsp in Hs. apply nth_error_map_seq in Hs. destruct Hs as [_ ->].
      cbn [scopeAtStart scopeAtEnd doneThisSprint cumDoneEnd sprintAt].
      repeat split; destruct i; rewrite ?Hs0, ?Hd0; reflexivity.
    - unfold buildBurnupModel in H. fold (targetOf input) in H. rewrite Ht in H.
      cbn [negb] in H. inversion H; subst. destruct i; discriminate. }
  assert (El0 : latestScope m = of_Z 0).
  { rewrite Els. unfold last_opt.
    destruct (nth_error (sprints m) _) as [s|] eqn:L; [|reflexivity].
    now destruct (Hall _ _ L) as (_ & -> & _). }
  assert (Et0 : totalDoneStories m = of_Z 0).
  { rewrite Etot. unfold last_opt.
    destruct (nth_error (sprints m) _) as [s|] eqn:L; [|reflexivity].
    now destruct (Hall _ _ L) as (_ & _ & _ & ->). }
  split; [exact Hall|]. split; [exact El0|]. split; [|split; [exact Et0|split]].
  - rewrite Ets.
    destruct (computeScopeAtDate_member (sprints m) (targetOf input))
      as [-> | (s & Hin & ->)]; [reflexivity|].
    apply In_nth_error in Hin. destruct Hin as [i Hi].
    now destruct (Hall _ _ Hi) as (_ & -> & _).
  - rewrite Eany, Et0. reflexivity.
  - rewrite Ep. apply no_throughput_no_signal. intros s Hin.
    apply In_nth_error in Hin. destruct Hin as [i Hi].
    destruct (Hall _ _ Hi) as (_ & _ & -> & _). reflexivity.
Qed.

End LastAndTarget.

(** ** Sprint lengths that are not positive *)

Section ZeroLength.
Context {rt : JsRuntime}.

(** X9: with a finite target date and a sprint length of 0 days the build
    never returns, whatever the stories: every window starts at the
    origin, which is at or before the horizon. *)
Theorem zero_sprint_length_never_returns
  (input : BuildBurnupInput) (d : number) :
  isFinite (targetOf input) = true ->
  Input.sprintLengthDays input = Some d ->
  (d === of_Z 0) = true ->
  forall fuel, buildBurnupModel fuel input = None.
Proof.
  intros Ht Hd Hz fuel.
  destruct (buildBurnupModel fuel input) as [m|] eqn:H; [exfalso | reflexivity].
  destruct (built_context _ _ _ H Ht)
    as (n & ko & kt & kg & ks & l & Eo & Et & Eg & Es & El & Hsp & Hle & Hlow & Hhigh).
  assert (Hl : (l == 0)%Q).
  { unfold sprintLenMsOf, sprintLenDaysOf in El. rewrite Hd in El.
    destruct d as [| |q]; try discriminate.
    assert (Hq : (q == 0)%Q) by (apply Qeq_bool_iff; exact Hz).
    rewrite (mul_DAY_MS_value _ _ El), Hq. ring. }
  rewrite Hl in Hhigh.
  pose proof (days_le ko (Z.max (Z.max kt kg) ks) ltac:(lia)). lra.
Qed.

End ZeroLength.

(** ** The current sprint window *)

Section CurrentWindow.
Context {rt : JsRuntime}.



End CurrentWindow.

(** ** The origin when no story is done *)

Lemma floor_or_today (x today : number) (k : Z) :
  x = dayMs k ->
  epochDayFloorMs (if negb (isFinite x) then today else x) = dayMs k.
Proof.
  intros ->. change (isFinite (dayMs k)) with true. cbn [negb].
  apply epochDayFloorMs_of_day.
Qed.

Section OriginWithoutDone.
Context {rt : JsRuntime}.

(** X11: when the target date is finite and no normalised story is a
    valid done story, the origin of a returned model is the sprint start
    given in the UI, or "today" when that does not parse, if there is no
    story; otherwise it is the earlier of the UI sprint start and the
    earliest creation date (the earliest creation date alone when the UI
    date does not parse), and so at or before the creation date of every
    story. *)
Theorem origin_without_done_story
  (fuel : nat) (input : BuildBurnupInput) (m : BurnupModel) :
  buildBurnupModel fuel input = Some m ->
  isFinite (targetOf input) = true ->
  filter isValidDone (storiesOf input) = [] ->
  let ui := parseISODate (Input.sprintStartISO input) in
  let earliestCreatedMs := Math_min_list (map createdMs (storiesOf input)) in
  (storiesOf input = [] ->
   originMs m = if isFinite ui then ui else todayMs m) /\
  (storiesOf input <> [] ->
   originMs m = (if isFinite ui then Math_min ui earliestCreatedMs
                 else earliestCreatedMs) /\
   forall s, In s (storiesOf input) -> (originMs m <=? createdMs s) = true).
Proof.
  intros H Ht Hv ui earliest.
  destruct (build_closed_form _ _ _ H Ht) as (n & Ho & _ & _ & _ & _ & _ & Etd & _).
  destruct (built_context _ _ _ H Ht)
    as (_ & ko & kt & kg & ks & l & Eo & Et & _).
  unfold deriveOrigin in Ho. rewrite Hv in Ho. fold ui in Ho.
  rewrite Etd, Et. split.
  - intro Es. rewrite Es in Ho.
    destruct (parseISODate_cases (Input.sprintStartISO input)) as [Hn | [ku Eu]];
      fold ui in Hn || fold ui in Eu.
    + rewrite Hn in *. rewrite Et in Ho.
      erewrite floor_or_today in Ho by reflexivity.
      injection Ho as E. rewrite <- E. reflexivity.
    + rewrite Eu in *.
      erewrite floor_or_today in Ho by reflexivity.
      injection Ho as E. rewrite <- E. reflexivity.
  - intro Hne.
    destruct (Math_min_list_aligned (map createdMs (storiesOf input))
                (createdMs_aligned _ (storiesOf_aligned input)))
      as (k & Ek & _ & Hmin).
    { destruct (storiesOf input); [contradiction | discriminate]. }
    fold earliest in Ek.
    assert (Hall : forall j, (j <= k)%Z -> originMs m = dayMs j ->
              forall s, In s (storiesOf input) -> (originMs m <=? createdMs s) = true).
    { intros j Hj Ej s Hs.
      pose proof (storiesOf_aligned input) as A. rewrite Forall_forall in A.
      destruct (A s Hs) as [[c Ec] _]. rewrite Ej, Ec, dayMs_le.
      apply Z.leb_le. specialize (Hmin c). rewrite <- Ec in Hmin.
      specialize (Hmin (in_map createdMs _ _ Hs)). lia. }
    assert (Ho' : Some (epochDayFloorMs
                    (if negb (isFinite (if isFinite ui then Math_min ui earliest
                                        else earliest))
                     then dayMs kt
                     else if isFinite ui then Math_min ui earliest else earliest))
                  = Some (originMs m)).
    { destruct (storiesOf input) as [|s0 rest]; [contradiction|].
      rewrite Et in Ho. exact Ho. }
    clear Ho. rewrite Ek in *.
    destruct (parseISODate_cases (Input.sprintStartISO input)) as [Hn | [ku Eu]];
      fold ui in Hn || fold ui in Eu.
    + rewrite Hn in *.
      erewrite floor_or_today in Ho' by reflexivity.
      assert (E : originMs m = dayMs k)
        by (injection Ho' as E0; rewrite <- E0; reflexivity).
      split; [exact E|]. apply (Hall k); [lia | exact E].
    + rewrite Eu in *. change (isFinite (dayMs ku)) with true in *.
      cbv iota in Ho'. cbv iota. rewrite dayMs_min in *.
      erewrite floor_or_today in Ho' by reflexivity.
      assert (E : originMs m = dayMs (Z.min ku k))
        by (injection Ho' as E0; rewrite <- E0; reflexivity).
      split; [exact E|]. apply (Hall (Z.min ku k)); [lia | exact E].
Qed.

End OriginWithoutDone.

(** ** The normaliser *)

Section NormaliserInvariants.
Context {rt : JsRuntime}.

Lemma parseJiraDate_finite (v : string) :
  isFinite (parseJiraDate v) = nonempty v && isFinite (Date_parse v).
Proof.
  unfold parseJiraDate. destruct (nonempty v); [|reflexivity]. cbn [negb andb].
  destruct (Date_parse v) as [| |q] eqn:E; [reflexivity | reflexivity |].
  cbn [isFinite negb]. apply dayAligned_finite. now apply epochDayFloorMs_aligned.
Qed.

(** X12: an issue is dropped by the normaliser exactly when its creation
    date is empty or does not parse.  A normalised issue is created at the
    midnight that starts the day of its creation date, its resolution date,
    when it has one, is a midnight, and when it is done it is not cancelled
    and has a resolution date, whatever its status text. *)
Theorem normalised_issue_invariants (issue : BurnupIssue) :
  (normaliseIssue issue = None <->
   nonempty (created issue) = false \/
   isFinite (Date_parse (created issue)) = false) /\
  (forall n, normaliseIssue issue = Some n ->
     createdMs n = epochDayFloorMs (Date_parse (created issue)) /\
     dayAligned (createdMs n) /\
     match resolvedMs n with Some r => dayAligned r | None => True end /\
     (isDone n = true ->
      isCancelled n = false /\ exists r, resolvedMs n = Some r /\ truthy r = true)).
Proof.
  split.
  - unfold normaliseIssue. rewrite parseJiraDate_finite.
    destruct (nonempty (created issue)); cbn [negb andb].
    + destruct (isFinite (Date_parse (created issue))); cbn [negb].
      * split; [discriminate | intros [D | D]; discriminate].
      * split; auto.
    + split; auto.
  - intros n Hn.
    pose proof (normaliseIssue_aligned _ _ Hn) as [Ac Ar].
    unfold normaliseIssue in Hn.
    destruct (nonempty (created issue)) eqn:Ec; cbn [negb] in Hn; [|discriminate].
    destruct (isFinite (parseJiraDate (created issue))) eqn:Ef; cbn [negb] in Hn;
      [|discriminate].
    cbv zeta in Hn. fold (rawStatusOf issue) in Hn.
    inversion Hn; subst n; clear Hn.
    cbn [createdMs resolvedMs isCancelled isDone] in *.
    split; [|split; [exact Ac | split; [exact Ar|]]].
    + rewrite parseJiraDate_finite, Ec in Ef. cbn [andb] in Ef.
      unfold parseJiraDate. now rewrite Ec, Ef.
    + rewrite !andb_true_iff. intros [[Hr Hc] _]. split.
      * now apply negb_true_iff in Hc.
      * match type of Hr with
        | truthy_opt ?r = true => destruct r as [r0|]; [eauto | discriminate]
        end.
Qed.

End NormaliserInvariants.

(** ** Flooring to the epoch day *)

(** X13: [epochDayFloorMs] answers [NaN] for a value that is not finite;
    for a finite timestamp it answers the midnight of its day, the last
    midnight at or before it; flooring twice is flooring once, and flooring
    keeps the order of timestamps. *)
Theorem epoch_day_floor_is_the_last_midnight :
  (forall x, isFinite x = false -> epochDayFloorMs x = NaN) /\
  (forall q : Q, exists k : Z,
     epochDayFloorMs (Fin q) = dayMs k /\
     (inject_Z (k * msPerDay) <= q)%Q /\ (q < inject_Z ((k + 1) * msPerDay))%Q) /\
  (forall x, epochDayFloorMs (epochDayFloorMs x) = epochDayFloorMs x) /\
  (forall p q : Q, (p <= q)%Q ->
     (epochDayFloorMs (Fin p) <=? epochDayFloorMs (Fin q)) = true).
Proof.
  assert (Hd : (0 < inject_Z msPerDay)%Q) by reflexivity.
  assert (Hnz : ~ (inject_Z msPerDay == 0)%Q) by discriminate.
  split; [|split; [|split]].
  - intros x Hx. unfold epochDayFloorMs. now rewrite Hx.
  - intro q. exists (Qfloor (q / inject_Z msPerDay)).
    split; [apply epochDayFloorMs_Fin|].
    assert (E : (q / inject_Z msPerDay * inject_Z msPerDay == q)%Q)
      by (field; exact Hnz).
    rewrite !inject_Z_mult. split.
    + rewrite <- E at 2. apply Qmult_le_compat_r; [apply Qfloor_le | discriminate].
    + rewrite <- E at 1. apply Qmult_lt_compat_r; [exact Hd | apply Qlt_floor].
  - intro x. destruct x as [| |q]; [reflexivity | reflexivity |].
    rewrite epochDayFloorMs_Fin. apply epochDayFloorMs_of_day.
  - intros p q Hpq. rewrite !epochDayFloorMs_Fin.
    change (of_Z (?a * msPerDay)) with (dayMs a). rewrite dayMs_le.
    apply Z.leb_le. apply Qfloor_resp_le.
    apply Qmult_le_compat_r; [exact Hpq | discriminate].
Qed.

(** ** Subtracting working days *)

Lemma subtractWorkingDays_loop_forever (fuel : nat) :
  forall ms, subtractWorkingDays_loop fuel ms (Inf false) = None.
Proof.
  induction fuel as [|fuel IH]; intro ms; [reflexivity|].
  cbn [subtractWorkingDays_loop].
  change (Inf false >? of_Z 0) with true. cbv iota zeta.
  change (Inf false - of_Z 1) with (Inf false).
  destruct (_ && _); apply IH.
Qed.

(** X14: for a finite end timestamp and a finite number [w] of working
    days, [subtractWorkingDaysUTC] returns as soon as the fuel exceeds three
    iterations per working day; with [n = max(0, floor(w))] and [kE] the day
    of the end timestamp it answers the midnight of a day [r] with
    [kE - 3n <= r <= kE] such that exactly [n] of the days from [r] up to
    the day before [kE] count as working days; for [n > 0] the day [r] is
    itself a working day before [kE].  Inside the range of [Date] the days
    that count are Monday to Friday.  With [Infinity] working days it never
    returns, and with [NaN] it answers the floored end timestamp at once. *)
Theorem working_days_are_subtracted_day_by_day :
  (forall e w : Q, exists (kE r : Z) (n : nat),
     epochDayFloorMs (Fin e) = dayMs kE /\
     Math_max (of_Z 0) (Math_floor (Fin w)) = of_nat n /\
     (forall fuel, (3 * n < fuel)%nat ->
        subtractWorkingDaysUTC fuel (Fin e) (Fin w) = Some (dayMs r)) /\
     (kE - 3 * Z.of_nat n <= r <= kE)%Z /\
     countDays countsAsWorkingDay r (Z.to_nat (kE - r)) = n /\
     ((0 < n)%nat -> countsAsWorkingDay r = true /\ (r < kE)%Z) /\
     (validDay r -> validDay kE ->
      countDays weekdayZ r (Z.to_nat (kE - r)) = n)) /\
  (forall (e : Q) (fuel : nat),
     subtractWorkingDaysUTC fuel (Fin e) (Inf false) = None) /\
  (forall (e : Q) (fuel : nat),
     subtractWorkingDaysUTC (S fuel) (Fin e) NaN = Some (epochDayFloorMs (Fin e))).
Proof.
  split; [|split].
  - intros e w.
    set (kE := Qfloor (e / inject_Z msPerDay)).
    set (n := Z.to_nat (Z.max 0 (Qfloor w))).
    assert (En : Math_max (of_Z 0) (Math_floor (Fin w)) = of_nat n).
    { unfold Math_floor. rewrite of_Z_max. unfold n.
      now rewrite of_nat_to_nat by lia. }
    destruct (backLoopZ_result countsAsWorkingDay working_day_within_three n kE)
      as (r & Run & Bnd & Cnt & Pos).
    exists kE, r, n. split; [apply epochDayFloorMs_Fin|]. split; [exact En|].
    split; [|split; [exact Bnd | split; [exact Cnt | split; [exact Pos|]]]].
    + intros fuel Hf. unfold subtractWorkingDaysUTC.
      rewrite En, epochDayFloorMs_Fin. fold kE.
      rewrite subtractWorkingDays_loop_days, Run by exact Hf. reflexivity.
    + intros Vr Vk. rewrite <- Cnt. apply countDays_ext. intros j Hj. symmetry.
      apply countsAsWorkingDay_valid. unfold validDay in *. lia.
  - intros e fuel. unfold subtractWorkingDaysUTC.
    apply subtractWorkingDays_loop_forever.
  - intros e fuel. reflexivity.
Qed.

(** ** Midnights *)



Section Midnights.
Context {rt : JsRuntime}.


End Midnights.

(** ** The properties on the example projects *)

Lemma model_mixed_built :
  @buildBurnupModel exampleRuntime 100 scenario_mixed = Some model_mixed.
Proof. vm_compute. reflexivity. Defined.



Lemma scope_is_carried_over_and_never_shrinks_witness :
  exists s s',
    nth_error (sprints model_mixed) 1 = Some s /\
    nth_error (sprints model_mixed) 2 = Some s' /\
    (scopeAtStart s <=? scopeAtEnd s) = true /\
    scopeAtStart s' = scopeAtEnd s /\
    (scopeAtEnd s <=? scopeAtEnd s') = true.
Proof.
  destruct (nth_error (sprints model_mixed) 1) as [s|] eqn:E1;
    [|vm_compute in E1; discriminate].
  destruct (nth_error (sprints model_mixed) 2) as [s'|] eqn:E2;
    [|vm_compute in E2; discriminate].
  exists s, s'.
  destruct (@scope_is_carried_over_and_never_shrinks exampleRuntime 100
              scenario_mixed model_mixed model_mixed_built 1%nat s E1)
    as (_ & _ & H3 & H4).
  destruct (H4 s' E2) as [H5 H6]. repeat split; auto.
Defined.

Lemma throughput_adds_up_to_cumulative_done_witness :
  sum_numbers (map doneThisSprint (sprints model_mixed)) =
  totalDoneStories model_mixed /\
  totalDoneStories model_mixed = of_Z 2.
Proof.
  split; [|vm_compute; reflexivity].
  apply (@throughput_adds_up_to_cumulative_done exampleRuntime 100 scenario_mixed
           model_mixed model_mixed_built).
Defined.





(** The project whose only story was withdrawn. *)
Lemma cancelled_stories_are_not_counted_witness :
  latestScope model_withdrawn = of_Z 0 /\ targetScope model_withdrawn = of_Z 0 /\
  totalDoneStories model_withdrawn = of_Z 0 /\ hasAnyDone model_withdrawn = false /\
  hasSignal (projection model_withdrawn) = false.
Proof.
  assert (B : @buildBurnupModel exampleRuntime 100 scenario_withdrawn
              = Some model_withdrawn) by (vm_compute; reflexivity).
  assert (C : Forall (fun s => isCancelled s = true)
                (@storiesOf exampleRuntime scenario_withdrawn)).
  { vm_compute. constructor; [reflexivity | constructor]. }
  exact (proj2 (@cancelled_stories_are_not_counted exampleRuntime 100
                  scenario_withdrawn model_withdrawn B C)).
Defined.

Lemma zero_sprint_length_never_returns_witness :
  @buildBurnupModel exampleRuntime 1000 scenario_zero_length = None.
Proof.
  apply (@zero_sprint_length_never_returns exampleRuntime scenario_zero_length
           (of_Z 0)); reflexivity.
Defined.


(** The project that has not started: the UI sprint start, 2025-01-06, is
    before the earliest creation date, 2025-01-10. *)
Lemma origin_without_done_story_witness :
  originMs model_not_started = Date_UTC (of_Z 2025) (of_Z 0) (of_Z 6) /\
  forall s, In s (@storiesOf exampleRuntime scenario_not_started) ->
            (originMs model_not_started <=? createdMs s) = true.
Proof.
  assert (B : @buildBurnupModel exampleRuntime 100 scenario_not_started
              = Some model_not_started) by (vm_compute; reflexivity).
  destruct (@origin_without_done_story exampleRuntime 100 scenario_not_started
              model_not_started B) as [_ N];
    [vm_compute; reflexivity | vm_compute; reflexivity |].
  destruct N as [E A]; [vm_compute; discriminate|].
  split; [vm_compute; reflexivity | exact A].
Defined.

Lemma normalised_issue_invariants_witness :
  exists n,
    @normaliseIssue exampleRuntime
      (story "2025-02-01" (Some "2025-02-03"%string) (Some Done) (Some "Done"%string))
    = Some n /\
    createdMs n = epochDayFloorMs (example_Date_parse "2025-02-01") /\
    dayAligned (createdMs n) /\
    isCancelled n = false /\
    exists r, resolvedMs n = Some r /\ truthy r = true.
Proof.
  destruct (@normaliseIssue exampleRuntime
              (story "2025-02-01" (Some "2025-02-03"%string) (Some Done)
                 (Some "Done"%string))) as [n|] eqn:E;
    [|vm_compute in E; discriminate].
  exists n. split; [reflexivity|].
  destruct (@normalised_issue_invariants exampleRuntime
              (story "2025-02-01" (Some "2025-02-03"%string) (Some Done)
                 (Some "Done"%string))) as [_ I].
  destruct (I n E) as (H1 & H2 & _ & H5).
  assert (D : isDone n = true) by (vm_compute in E; inversion E; reflexivity).
  destruct (H5 D) as [H6 H7]. repeat split; auto.
Defined.

Lemma epoch_day_floor_is_the_last_midnight_witness :
  epochDayFloorMs (Inf false) = NaN /\
  (epochDayFloorMs (Fin 100) <=? epochDayFloorMs (Fin 86400001)) = true.
Proof.
  destruct epoch_day_floor_is_the_last_midnight as (A & _ & _ & M).
  split; [apply A; reflexivity | apply M; discriminate].
Defined.

(** Ten working days before Monday 2025-01-20, 12:00. *)
Lemma working_days_are_subtracted_day_by_day_witness :
  exists (kE r : Z) (n : nat),
    epochDayFloorMs (Fin 1737374400000) = dayMs kE /\
    Math_max (of_Z 0) (Math_floor (Fin (21 # 2))) = of_nat n /\
    subtractWorkingDaysUTC (3 * n + 1) (Fin 1737374400000) (Fin (21 # 2))
      = Some (dayMs r) /\
    (kE - 3 * Z.of_nat n <= r <= kE)%Z /\
    countDays countsAsWorkingDay r (Z.to_nat (kE - r)) = n.
Proof.
  destruct working_days_are_subtracted_day_by_day as (A & _ & _).
  destruct (A 1737374400000 (21 # 2)) as (kE & r & n & H1 & H2 & H3 & H4 & H5 & _).
  exists kE, r, n. repeat split; auto; try lia. apply H3. lia.
Defined.


(** ** Re-parameterising twice *)

(** X16: re-parameterising a model that has already been re-parameterised
    gives the model that the last FTE alone gives: the historical velocity
    per FTE, the anchor, the sprints and the scope are never touched, so
    the what-if slider can be moved any number of times. *)
Theorem last_reparameterisation_wins (m : BurnupModel) (f g : number) :
  recomputeProjectionWithFTE (recomputeProjectionWithFTE m f) g =
  recomputeProjectionWithFTE m g.
Proof.
  destruct (sprints m) as [|s0 rest] eqn:Es.
  { unfold recomputeProjectionWithFTE at 2. rewrite Es. reflexivity. }
  destruct (hasSignal (projection m)) eqn:Hsig.
  2:{ unfold recomputeProjectionWithFTE at 2. rewrite Es, Hsig. reflexivity. }
  destruct (fromSprintIndex (projection m)) as [i|] eqn:Hi.
  2:{ unfold recomputeProjectionWithFTE at 2. rewrite Es, Hsig, Hi. reflexivity. }
  destruct (fromTimeMs (projection m)) as [t|] eqn:Ht.
  2:{ unfold recomputeProjectionWithFTE at 2. rewrite Es, Hsig, Hi, Ht. reflexivity. }
  destruct (fromDone (projection m)) as [d|] eqn:Hd.
  2:{ unfold recomputeProjectionWithFTE at 2. rewrite Es, Hsig, Hi, Ht, Hd.
      reflexivity. }
  destruct (avgVelPerFTE (projection m)) as [a|] eqn:Ha.
  2:{ unfold recomputeProjectionWithFTE at 2. rewrite Es, Hsig, Hi, Ht, Hd, Ha.
      reflexivity. }
  destruct (a <=? of_Z 0) eqn:Hle.
  { unfold recomputeProjectionWithFTE at 2. rewrite Es, Hsig, Hi, Ht, Hd, Ha, Hle.
    reflexivity. }
  unfold recomputeProjectionWithFTE at 2. rewrite Es, Hsig, Hi, Ht, Hd, Ha, Hle.
  cbv zeta. fold (reparamFTE f).
  destruct (a * reparamFTE f <=? of_Z 0);
    [|destruct (isFinite (targetDateMs m))];
    unfold recomputeProjectionWithFTE;
    cbn [sprints projection hasSignal fromSprintIndex fromTimeMs fromDone
         avgVelPerFTE withProjection withForecast sprintLengthDays latestScope
         targetDateMs];
    rewrite Es, Hsig, Hi, Ht, Hd, Ha, Hle; reflexivity.
Qed.

(** ** The forecast cone in rationals *)

Lemma Qdiv_nonneg (r x : Q) : (0 <= r)%Q -> (0 < x)%Q -> (0 <= r / x)%Q.
Proof. intros Hr Hx. apply Qle_shift_div_l; [assumption|]. lra. Qed.

Lemma Qdiv_antitone (r x y : Q) :
  (0 <= r)%Q -> (0 < x)%Q -> (x <= y)%Q -> (r / y <= r / x)%Q.
Proof.
  intros Hr Hx Hxy. assert (Hy : (0 < y)%Q) by lra.
  apply Qle_shift_div_r; [assumption|].
  assert (E : (r == r / x * x)%Q).
  { field. intro E0. rewrite E0 in Hx. exact (Qlt_irrefl _ Hx). }
  pose proof (Qdiv_nonneg r x Hr Hx) as N.
  assert (M : (x * (r / x) <= y * (r / x))%Q)
    by (apply Qmult_le_compat_r; assumption).
  rewrite E at 1. rewrite (Qmult_comm (r / x) x), (Qmult_comm (r / x) y). exact M.
Qed.

Lemma Qpos_nonzero (x : Q) : (0 < x)%Q -> ~ (x == 0)%Q.
Proof. intros H E. rewrite E in H. exact (Qlt_irrefl _ H). Qed.

Lemma cone_point (t r v lam : Q) :
  (0 < v)%Q ->
  exists y, Fin t + (Fin r / Fin v) * Fin lam = Fin y /\
            (y == t + r / v * lam)%Q.
Proof.
  intro Hv. rewrite (div_Fin _ _ (Qpos_nonzero _ Hv)).
  unfold of_Q, num_mul, num_add, of_Q. eexists. split; [reflexivity|].
  unred. reflexivity.
Qed.

Lemma reparamFTE_value (f : number) :
  exists phi, reparamFTE f = Fin phi /\ (1 # 10 <= phi)%Q /\
    forall x, f = Fin x ->
              (x <= phi)%Q /\ ((phi == 1 # 10)%Q \/ (phi == x)%Q).
Proof.
  unfold reparamFTE. destruct f as [|b|x]; cbn [isFinite].
  - exists (1 # 10). split; [reflexivity|]. split; [lra|]. intros; discriminate.
  - exists (1 # 10). split; [reflexivity|]. split; [lra|]. intros; discriminate.
  - change (of_Z 0) with (Fin 0). rewrite Math_max_Fin.
    destruct (Qltb 0 x) eqn:P.
    + apply Qltb_lt in P. unfold num_or, truthy.
      rewrite (proj2 (Qeq_bool_false x 0) (Qpos_nonzero _ P)). cbn [negb].
      rewrite Math_max_Fin. destruct (Qltb (1 # 10) x) eqn:T.
      * apply Qltb_lt in T. exists x. split; [reflexivity|]. split; [lra|].
        intros y E. inversion E; subst. split; [lra | now right].
      * apply Qltb_ge in T. exists (1 # 10). split; [reflexivity|]. split; [lra|].
        intros y E. inversion E; subst. split; [lra | now left].
    + apply Qltb_ge in P. exists (1 # 10). split; [reflexivity|]. split; [lra|].
      intros y E. inversion E; subst. split; [lra | now left].
Qed.

Lemma remaining_value (s d : Q) :
  exists r, Math_max (of_Z 0) (Fin s - Fin d) = Fin r /\ (0 <= r)%Q /\
            ((r == 0)%Q /\ (s - d <= 0)%Q \/ (r == s - d)%Q /\ (0 < s - d)%Q).
Proof.
  unfold num_sub, num_neg, num_add, of_Q. change (of_Z 0) with (Fin 0).
  rewrite Math_max_Fin.
  destruct (Qltb 0 _) eqn:P.
  - apply Qltb_lt in P. eexists. split; [reflexivity|]. unred.
    split; [lra|]. right. split; [reflexivity | lra].
  - apply Qltb_ge in P. exists 0%Q. split; [reflexivity|]. unred.
    split; [lra|]. left. split; [reflexivity | lra].
Qed.

(** The forecast of a re-parameterised model whose anchor, scope, velocity
    and sprint length are finite. *)
Lemma recompute_forecast (m : BurnupModel) (f i : number) (t d a s L : Q) :
  sprints m <> [] ->
  hasSignal (projection m) = true ->
  fromSprintIndex (projection m) = Some i ->
  fromTimeMs (projection m) = Some (Fin t) ->
  fromDone (projection m) = Some (Fin d) ->
  avgVelPerFTE (projection m) = Some (Fin a) ->
  (0 < a)%Q ->
  latestScope m = Fin s ->
  sprintLengthDays m = Fin L ->
  exists phi r c e la : Q,
    reparamFTE f = Fin phi /\ (1 # 10 <= phi)%Q /\
    Math_max (of_Z 0) (Fin s - Fin d) = Fin r /\ (0 <= r)%Q /\
    hasSignal (projection (recomputeProjectionWithFTE m f)) = true /\
    projectedDonePerSprint (projection (recomputeProjectionWithFTE m f))
      = Some (of_Q (a * phi)) /\
    projectedCompletionMs (projection (recomputeProjectionWithFTE m f))
      = Some (Fin c) /\
    projectedCompletionEarlyMs (projection (recomputeProjectionWithFTE m f))
      = Some (Fin e) /\
    projectedCompletionLateMs (projection (recomputeProjectionWithFTE m f))
      = Some (Fin la) /\
    (c == t + r / (a * phi) * (L * inject_Z 86400000))%Q /\
    (e == t + r / (a * phi * (6 # 5)) * (L * inject_Z 86400000))%Q /\
    (la == t + r / (a * phi * (4 # 5)) * (L * inject_Z 86400000))%Q.
Proof.
  intros Hne Hsig Hi Ht Hd Ha Hpos Hs HL.
  destruct (reparamFTE_value f) as (phi & Ephi & Hphi & _).
  destruct (remaining_value s d) as (r & Er & Hr & _).
  assert (Hv : (0 < a * phi)%Q) by (apply Qmult_lt_0_compat; lra).
  assert (Hv' : (0 < Qred (a * phi))%Q) by now rewrite Qred_correct.
  assert (Hfast : (0 < Qred (Qred (a * phi) * (6 # 5)))%Q).
  { rewrite !Qred_correct. apply Qmult_lt_0_compat; [assumption | reflexivity]. }
  assert (Hslow : (0 < Qred (Qred (a * phi) * (4 # 5)))%Q).
  { rewrite !Qred_correct. apply Qmult_lt_0_compat; [assumption | reflexivity]. }
  set (lam := Qred (L * inject_Z (24 * 60 * 60 * 1000))).
  destruct (cone_point t r _ lam Hv') as (c & Ec & Vc).
  destruct (cone_point t r _ lam Hfast) as (e & Ee & Ve).
  destruct (cone_point t r _ lam Hslow) as (la & Ela & Vla).
  assert (Elam : (lam == L * inject_Z 86400000)%Q) by apply Qred_correct.
  unfold recomputeProjectionWithFTE. fold (reparamFTE f).
  destruct (sprints m) as [|s0 rest]; [contradiction|].
  rewrite Hsig, Hi, Ht, Hd, Ha, Ephi, Hs, HL, Er.
  assert (Hale : (Fin a <=? of_Z 0) = false)
    by (unfold num_le, of_Z; now apply Qle_bool_false).
  rewrite Hale.
  change (Fin a * Fin phi) with (Fin (Qred (a * phi))).
  assert (Hple : (Fin (Qred (a * phi)) <=? of_Z 0) = false)
    by (unfold num_le, of_Z; now apply Qle_bool_false).
  rewrite Hple.
  change (Fin (Qred (a * phi)) * Fin (6 # 5))
    with (Fin (Qred (Qred (a * phi) * (6 # 5)))).
  change (Fin (Qred (a * phi)) * Fin (4 # 5))
    with (Fin (Qred (Qred (a * phi) * (4 # 5)))).
  assert (Hfg : (Fin (Qred (Qred (a * phi) * (6 # 5))) >? of_Z 0) = true)
    by (unfold num_gt, num_lt, of_Z; now apply Qltb_lt).
  assert (Hsg : (Fin (Qred (Qred (a * phi) * (4 # 5))) >? of_Z 0) = true)
    by (unfold num_gt, num_lt, of_Z; now apply Qltb_lt).
  rewrite Hfg, Hsg.
  change (Fin L * DAY_MS) with (Fin lam).
  rewrite Ec, Ee, Ela.
  destruct (Fin r === of_Z 0) eqn:R.
  - assert (Hr0 : (r == 0)%Q) by (apply Qeq_bool_iff; exact R).
    exists phi, r, t, t, t.
    destruct (isFinite (targetDateMs m)); cbn;
      repeat split; auto; rewrite Hr0; unfold Qdiv; ring.
  - exists phi, r, c, e, la.
    destruct (isFinite (targetDateMs m)); cbn;
      repeat split; auto;
      rewrite ?Vc, ?Ve, ?Vla, !Qred_correct, Elam; reflexivity.
Qed.

(** ** What re-parameterising keeps *)

Lemma recompute_frame (m : BurnupModel) (f : number) :
  let m' := recomputeProjectionWithFTE m f in
  (sprints m' = sprints m /\ originMs m' = originMs m /\
   sprintLengthDays m' = sprintLengthDays m /\ todayMs m' = todayMs m /\
   targetDateMs m' = targetDateMs m /\ targetScope m' = targetScope m /\
   latestScope m' = latestScope m /\
   currentSprintStartMs m' = currentSprintStartMs m /\
   currentSprintEndMs m' = currentSprintEndMs m /\
   totalDoneStories m' = totalDoneStories m /\ hasAnyDone m' = hasAnyDone m) /\
  (fromSprintIndex (projection m') = fromSprintIndex (projection m) /\
   fromTimeMs (projection m') = fromTimeMs (projection m) /\
   fromDone (projection m') = fromDone (projection m) /\
   avgVelPerFTE (projection m') = avgVelPerFTE (projection m) /\
   requiredFTEToHitTarget (projection m') = requiredFTEToHitTarget (projection m) /\
   suggestedMaxFTE (projection m') = suggestedMaxFTE (projection m) /\
   remainingStoriesFromAnchor (projection m')
     = remainingStoriesFromAnchor (projection m) /\
   sprintsRemainingToTarget (projection m')
     = sprintsRemainingToTarget (projection m) /\
   requiredStoriesPerSprintToHitTarget (projection m')
     = requiredStoriesPerSprintToHitTarget (projection m) /\
   recentStoriesPerSprint (projection m') = recentStoriesPerSprint (projection m)) /\
  hasSignal (projection m') = hasSignal (projection m).
Proof.
  cbv zeta.
  destruct (sprints m) as [|s0 rest] eqn:Es.
  { unfold recomputeProjectionWithFTE. rewrite Es. repeat split; assumption. }
  destruct (hasSignal (projection m)) eqn:Hsig.
  2:{ unfold recomputeProjectionWithFTE. rewrite Es, Hsig.
      repeat split; assumption. }
  destruct (fromSprintIndex (projection m)) as [i|] eqn:Hi.
  2:{ unfold recomputeProjectionWithFTE. rewrite Es, Hsig, Hi.
      repeat split; assumption. }
  destruct (fromTimeMs (projection m)) as [t|] eqn:Ht.
  2:{ unfold recomputeProjectionWithFTE. rewrite Es, Hsig, Hi, Ht.
      repeat split; assumption. }
  destruct (fromDone (projection m)) as [d|] eqn:Hd.
  2:{ unfold recomputeProjectionWithFTE. rewrite Es, Hsig, Hi, Ht, Hd.
      repeat split; assumption. }
  destruct (avgVelPerFTE (projection m)) as [a|] eqn:Ha.
  2:{ unfold recomputeProjectionWithFTE. rewrite Es, Hsig, Hi, Ht, Hd, Ha.
      repeat split; assumption. }
  unfold recomputeProjectionWithFTE. rewrite Es, Hsig, Hi, Ht, Hd, Ha.
  destruct (a <=? of_Z 0); [repeat split; assumption|].
  cbv zeta. fold (reparamFTE f).
  destruct (a * reparamFTE f <=? of_Z 0);
    [|destruct (isFinite (targetDateMs m))];
    cbn [sprints projection hasSignal fromSprintIndex fromTimeMs fromDone
         avgVelPerFTE withProjection withForecast sprintLengthDays latestScope
         targetDateMs originMs todayMs targetScope currentSprintStartMs
         currentSprintEndMs totalDoneStories hasAnyDone requiredFTEToHitTarget
         suggestedMaxFTE remainingStoriesFromAnchor sprintsRemainingToTarget
         requiredStoriesPerSprintToHitTarget recentStoriesPerSprint];
    repeat split; assumption.
Qed.

(** X17: re-parameterising changes the forecast only: the sprints, the
    origin, the sprint length, "today", the target date, both scopes, the
    current sprint window and the done totals of the model are kept, and so
    are the anchor, the velocity per FTE, the required FTE, the suggested
    maximum, the remaining stories, the recent throughput and the to-target
    fields of the projection, and its signal flag. *)
Theorem reparameterisation_changes_only_the_forecast (m : BurnupModel) (f : number) :
  let m' := recomputeProjectionWithFTE m f in
  (sprints m' = sprints m /\ originMs m' = originMs m /\
   sprintLengthDays m' = sprintLengthDays m /\ todayMs m' = todayMs m /\
   targetDateMs m' = targetDateMs m /\ targetScope m' = targetScope m /\
   latestScope m' = latestScope m /\
   currentSprintStartMs m' = currentSprintStartMs m /\
   currentSprintEndMs m' = currentSprintEndMs m /\
   totalDoneStories m' = totalDoneStories m /\ hasAnyDone m' = hasAnyDone m) /\
  (fromSprintIndex (projection m') = fromSprintIndex (projection m) /\
   fromTimeMs (projection m') = fromTimeMs (projection m) /\
   fromDone (projection m') = fromDone (projection m) /\
   avgVelPerFTE (projection m') = avgVelPerFTE (projection m) /\
   requiredFTEToHitTarget (projection m') = requiredFTEToHitTarget (projection m) /\
   suggestedMaxFTE (projection m') = suggestedMaxFTE (projection m) /\
   remainingStoriesFromAnchor (projection m')
     = remainingStoriesFromAnchor (projection m) /\
   sprintsRemainingToTarget (projection m')
     = sprintsRemainingToTarget (projection m) /\
   requiredStoriesPerSprintToHitTarget (projection m')
     = requiredStoriesPerSprintToHitTarget (projection m) /\
   recentStoriesPerSprint (projection m') = recentStoriesPerSprint (projection m)) /\
  hasSignal (projection m') = hasSignal (projection m).
Proof. exact (recompute_frame m f). Qed.

(** ** Order in the forecast *)

Lemma le_Fin (a b : Q) : (a <= b)%Q -> (Fin a <=? Fin b) = true.
Proof. intro H. unfold num_le. now apply Qle_bool_iff. Qed.

Lemma cone_order (t r A lam : Q) :
  (0 <= r)%Q -> (0 < A)%Q -> (0 <= lam)%Q ->
  (t <= t + r / (A * (6 # 5)) * lam)%Q /\
  (t + r / (A * (6 # 5)) * lam <= t + r / A * lam)%Q /\
  (t + r / A * lam <= t + r / (A * (4 # 5)) * lam)%Q.
Proof.
  intros Hr HA Hl.
  assert (H1 : (r / (A * (6 # 5)) <= r / A)%Q)
    by (apply Qdiv_antitone; [assumption | assumption | lra]).
  assert (H2 : (r / A <= r / (A * (4 # 5)))%Q)
    by (apply Qdiv_antitone; [assumption | lra | lra]).
  assert (H0 : (0 <= r / (A * (6 # 5)))%Q) by (apply Qdiv_nonneg; [assumption | lra]).
  pose proof (Qmult_le_compat_r _ _ lam H1 Hl).
  pose proof (Qmult_le_compat_r _ _ lam H2 Hl).
  pose proof (Qmult_le_0_compat _ _ H0 Hl).
  repeat split; lra.
Qed.

Lemma recompute_cone_ordered (m : BurnupModel) (f : number) :
  forecastable m ->
  let p := projection (recomputeProjectionWithFTE m f) in
  hasSignal p = true /\
  exists t e c la,
    fromTimeMs p = Some t /\
    projectedCompletionEarlyMs p = Some e /\
    projectedCompletionMs p = Some c /\
    projectedCompletionLateMs p = Some la /\
    (t <=? e) = true /\ (e <=? c) = true /\ (c <=? la) = true.
Proof.
  intros (Hne & Hsig & i & t & d & a & s & L & Hi & Ht & Hd & Ha & Hpos & Hs & HL & HL0).
  cbv zeta.
  destruct (recompute_forecast m f i t d a s L Hne Hsig Hi Ht Hd Ha Hpos Hs HL)
    as (phi & r & c & e & la & Ephi & Hphi & Er & Hr & Hsig' & Hv & Hc & He & Hla
        & Vc & Ve & Vla).
  split; [exact Hsig'|].
  exists (Fin t), (Fin e), (Fin c), (Fin la).
  assert (Hft : fromTimeMs (projection (recomputeProjectionWithFTE m f)) = Some (Fin t)).
  { destruct (recompute_frame m f) as (_ & (_ & F & _) & _). now rewrite F. }
  split; [exact Hft|]. split; [exact He|]. split; [exact Hc|]. split; [exact Hla|].
  assert (HA : (0 < a * phi)%Q) by (apply Qmult_lt_0_compat; lra).
  assert (Hlam : (0 <= L * inject_Z 86400000)%Q)
    by (apply Qmult_le_0_compat; [assumption | discriminate]).
  destruct (cone_order t r (a * phi) (L * inject_Z 86400000) Hr HA Hlam)
    as (O1 & O2 & O3).
  repeat split; apply le_Fin; rewrite ?Vc, ?Ve, ?Vla; assumption.
Qed.

(** X18: re-parameterising a forecastable model at any FTE gives a
    forecast with a signal whose three completion timestamps are ordered:
    the anchor is at or before the early estimate, which is at or before
    the central estimate, which is at or before the late estimate. *)
Theorem reparameterised_cone_is_ordered (m : BurnupModel) (f : number) :
  forecastable m ->
  let p := projection (recomputeProjectionWithFTE m f) in
  hasSignal p = true /\
  exists t e c la,
    fromTimeMs p = Some t /\
    projectedCompletionEarlyMs p = Some e /\
    projectedCompletionMs p = Some c /\
    projectedCompletionLateMs p = Some la /\
    (t <=? e) = true /\ (e <=? c) = true /\ (c <=? la) = true.
Proof. exact (recompute_cone_ordered m f). Qed.

(** The forecast is monotone in the FTE. *)
Lemma recompute_monotone (m : BurnupModel) (x y : Q) :
  forecastable m ->
  (x <= y)%Q ->
  let p := projection (recomputeProjectionWithFTE m (Fin x)) in
  let p' := projection (recomputeProjectionWithFTE m (Fin y)) in
  exists v v' e e' c c' la la',
    projectedDonePerSprint p = Some v /\ projectedDonePerSprint p' = Some v' /\
    projectedCompletionEarlyMs p = Some e /\
    projectedCompletionEarlyMs p' = Some e' /\
    projectedCompletionMs p = Some c /\ projectedCompletionMs p' = Some c' /\
    projectedCompletionLateMs p = Some la /\
    projectedCompletionLateMs p' = Some la' /\
    (v <=? v') = true /\ (e' <=? e) = true /\ (c' <=? c) = true /\
    (la' <=? la) = true.
Proof.
  intros (Hne & Hsig & i & t & d & a & s & L & Hi & Ht & Hd & Ha & Hpos & Hs & HL & HL0)
         Hxy.
  cbv zeta.
  destruct (recompute_forecast m (Fin x) i t d a s L Hne Hsig Hi Ht Hd Ha Hpos Hs HL)
    as (phi & r & c & e & la & Ephi & Hphi & Er & Hr & _ & Hv & Hc & He & Hla
        & Vc & Ve & Vla).
  destruct (recompute_forecast m (Fin y) i t d a s L Hne Hsig Hi Ht Hd Ha Hpos Hs HL)
    as (phi' & r' & c' & e' & la' & Ephi' & Hphi' & Er' & _ & _ & Hv' & Hc' & He'
        & Hla' & Vc' & Ve' & Vla').
  assert (r' = r) by congruence. subst r'.
  assert (Hmono : (phi <= phi')%Q).
  { destruct (reparamFTE_value (Fin x)) as (p1 & E1 & _ & C1).
    destruct (reparamFTE_value (Fin y)) as (p2 & E2 & B2 & C2).
    assert (p1 = phi) by congruence. assert (p2 = phi') by congruence. subst p1 p2.
    destruct (C1 x eq_refl) as [_ [E | E]]; destruct (C2 y eq_refl) as [U _];
      rewrite E; lra. }
  exists (of_Q (a * phi)), (of_Q (a * phi')), (Fin e), (Fin e'), (Fin c), (Fin c'),
         (Fin la), (Fin la').
  repeat (split; [assumption|]).
  assert (HA : (0 < a * phi)%Q) by (apply Qmult_lt_0_compat; lra).
  assert (HAA : (a * phi <= a * phi')%Q).
  { rewrite !(Qmult_comm a). apply Qmult_le_compat_r; lra. }
  assert (Hlam : (0 <= L * inject_Z 86400000)%Q)
    by (apply Qmult_le_0_compat; [assumption | discriminate]).
  assert (D : forall k : Q, (0 < k)%Q ->
            (t + r / (a * phi' * k) * (L * inject_Z 86400000) <=
             t + r / (a * phi * k) * (L * inject_Z 86400000))%Q).
  { intros k Hk.
    assert (Q1 : (r / (a * phi' * k) <= r / (a * phi * k))%Q).
    { apply Qdiv_antitone; [assumption | |].
      - apply Qmult_lt_0_compat; assumption.
      - apply Qmult_le_compat_r; [assumption | now apply Qlt_le_weak]. }
    pose proof (Qmult_le_compat_r _ _ _ Q1 Hlam). lra. }
  split; [|split; [|split]].
  - unfold of_Q. apply le_Fin. now rewrite !Qred_correct.
  - apply le_Fin. rewrite Ve, Ve'. apply D. reflexivity.
  - apply le_Fin. rewrite Vc, Vc'.
    pose proof (D 1%Q ltac:(reflexivity)) as D1.
    rewrite !Qmult_1_r in D1. exact D1.
  - apply le_Fin. rewrite Vla, Vla'. apply D. reflexivity.
Qed.

(** X19: a larger FTE never projects a lower velocity nor a later
    completion: for a forecastable model and finite FTE values [x <= y],
    the projected velocity at [y] is at least the one at [x] and each of the
    three completion timestamps at [y] is at or before the one at [x]. *)
Theorem more_capacity_never_finishes_later (m : BurnupModel) (x y : Q) :
  forecastable m ->
  (x <= y)%Q ->
  let p := projection (recomputeProjectionWithFTE m (Fin x)) in
  let p' := projection (recomputeProjectionWithFTE m (Fin y)) in
  exists v v' e e' c c' la la',
    projectedDonePerSprint p = Some v /\ projectedDonePerSprint p' = Some v' /\
    projectedCompletionEarlyMs p = Some e /\
    projectedCompletionEarlyMs p' = Some e' /\
    projectedCompletionMs p = Some c /\ projectedCompletionMs p' = Some c' /\
    projectedCompletionLateMs p = Some la /\
    projectedCompletionLateMs p' = Some la' /\
    (v <=? v') = true /\ (e' <=? e) = true /\ (c' <=? c) = true /\
    (la' <=? la) = true.
Proof. exact (recompute_monotone m x y). Qed.

(** ** The signal of a returned model *)

Lemma positive_sum (xs : list number) :
  Forall (fun x => exists q, x = Fin q /\ (0 < q)%Q) xs ->
  forall acc : Q, (0 <= acc)%Q ->
  exists b, fold_left num_add xs (Fin acc) = Fin b /\ (acc <= b)%Q /\
            (xs <> [] -> (acc < b)%Q).
Proof.
  induction 1 as [|x xs (q & -> & Hq) _ IH]; intros acc Hacc.
  - exists acc. split; [reflexivity|]. split; [lra | congruence].
  - cbn [fold_left]. change (Fin acc + Fin q) with (Fin (Qred (acc + q))).
    destruct (IH (Qred (acc + q))) as (b & Eb & Hb & _).
    { rewrite Qred_correct. lra. }
    exists b. split; [exact Eb|]. rewrite Qred_correct in Hb.
    split; [lra | intros _; lra].
Qed.

Lemma positive_mean (xs : list number) :
  Forall (fun x => exists q, x = Fin q /\ (0 < q)%Q) xs -> xs <> [] ->
  exists a, sum_numbers xs / of_nat (List.length xs) = Fin a /\ (0 < a)%Q.
Proof.
  intros F Hne. unfold sum_numbers. change (of_Z 0) with (Fin 0).
  destruct (positive_sum xs F 0 ltac:(lra)) as (b & -> & _ & Hb).
  specialize (Hb Hne).
  assert (Hlen : (0 < inject_Z (Z.of_nat (List.length xs)))%Q).
  { change 0%Q with (inject_Z 0). rewrite <- Zlt_Qlt.
    destruct xs; [contradiction | simpl; lia]. }
  unfold of_nat, of_Z. rewrite (div_Fin _ _ (Qpos_nonzero _ Hlen)).
  unfold of_Q. eexists. split; [reflexivity|]. rewrite Qred_correct.
  apply Qlt_shift_div_l; [assumption | lra].
Qed.

Lemma velocitySamples_positive (sprints : list SprintSummary) (i : nat) (phi : Q) :
  (0 < phi)%Q ->
  (forall s, In s sprints -> exists z, doneThisSprint s = of_Z z) ->
  Forall (fun x => exists q, x = Fin q /\ (0 < q)%Q)
    (velocitySamples sprints i (Fin phi)).
Proof.
  intros Hphi Hz. apply Forall_forall. intros x Hx.
  unfold velocitySamples in Hx. apply In_firstn_incl in Hx.
  apply in_map_iff in Hx. destruct Hx as (s & <- & Hs).
  apply filter_In in Hs. destruct Hs as [Hs Hpos].
  unfold lookbackWindow, closedBackFrom in Hs. apply In_firstn_incl in Hs.
  apply filter_In in Hs. destruct Hs as [Hs _]. apply in_rev in Hs.
  apply In_firstn_incl in Hs. destruct (Hz s Hs) as [z Ez].
  rewrite Ez in *. rewrite of_Z_gt in Hpos. apply Z.ltb_lt in Hpos.
  unfold of_Z. rewrite (div_Fin _ _ (Qpos_nonzero _ Hphi)).
  unfold of_Q. eexists. split; [reflexivity|]. rewrite Qred_correct.
  apply Qlt_shift_div_l; [assumption|].
  rewrite Qmult_0_l. change 0%Q with (inject_Z 0). now rewrite <- Zlt_Qlt.
Qed.

Section BuiltSignal.
Context {rt : JsRuntime}.

Lemma built_signal_forecastable
  (fuel : nat) (input : BuildBurnupInput) (m : BurnupModel) :
  buildBurnupModel fuel input = Some m ->
  hasSignal (projection m) = true ->
  forecastable m.
Proof.
  intros H Hsig.
  destruct (build_fields _ _ _ H) as (Els & _ & _ & _ & Ep).
  assert (Hne : sprints m <> []).
  { intro E. rewrite Ep, E in Hsig. discriminate. }
  destruct (built_sprints _ _ _ H Hne)
    as (n & ko & kt & kg & ks & l & Ht & Hl & Hn & Eo & Et & Eg & Es & El & Hsp & _).
  destruct (build_closed_form _ _ _ H Ht) as (n' & _ & _ & _ & _ & _ & _ & _ & Ed).
  assert (Em : sprintLengthDays m * DAY_MS = Fin l) by (rewrite Ed; exact El).
  destruct (mul_DAY_MS_Fin _ _ Em) as [L EL].
  assert (HL : (0 <= L)%Q).
  { rewrite EL in Em. apply mul_DAY_MS_value in Em.
    destruct (Qlt_le_dec L 0) as [N | N]; [|assumption]. exfalso.
    assert ((L * inject_Z 86400000 <= 0 * inject_Z 86400000)%Q)
      by (apply Qmult_le_compat_r; [lra | discriminate]).
    lra. }
  assert (Hl0 : (0 <= l)%Q) by lra.
  set (f := sprintAt (storiesOf input) (dayMs ko) (Fin l) (dayMs kt)) in *.
  destruct (cumDone_counts (storiesOf input) (dayMs ko) l (dayMs kt) Hl0)
    as (c & Hc & Hm & Hd).
  fold f in Hd.
  assert (Hz : forall s, In s (sprints m) -> exists z, doneThisSprint s = of_Z z).
  { intros s Hs. apply In_nth_error in Hs. destruct Hs as [j Hj].
    rewrite Hsp in Hj. apply nth_error_map_seq in Hj. destruct Hj as [_ ->].
    rewrite Hd. eauto. }
  split; [exact Hne|]. split; [exact Hsig|].
  set (safe := Math_max (of_Z 0)
                 (if isFinite (Input.sprintFTE input)
                  then Input.sprintFTE input else of_Z 0)) in *.
  destruct (effectiveFTE_positive safe) as (phi & Ephi & Hphi).
  revert Hsig. rewrite Ep. unfold computeProjection. fold (effectiveFTE safe).
  destruct (sprints m) as [|s0 rest] eqn:Esp; [discriminate|].
  rewrite <- Esp in *.
  pose proof (findLastClosed_spec (sprints m) (List.length (sprints m)) (le_n _)) as F.
  destruct (findLastClosed (sprints m) _) as [[i anchor]|]; [|discriminate].
  destruct F as (Hi & Hnth & _). cbv zeta.
  rewrite velocity_loop_samples by exact Hi. rewrite Ephi.
  pose proof (velocitySamples_positive (sprints m) i phi Hphi Hz) as P.
  destruct (velocitySamples (sprints m) i (Fin phi)) as [|v vs] eqn:Ev;
    [discriminate|].
  destruct (positive_mean (v :: vs) P ltac:(discriminate)) as (a & Ea & Ha).
  rewrite Ea.
  rewrite Hsp in Hnth. apply nth_error_map_seq in Hnth. destruct Hnth as [_ Ean].
  assert (Eend : exists t, endMs anchor = Fin t).
  { rewrite Ean. unfold f. cbn [endMs sprintAt].
    destruct (windowEnd_value (inject_Z (ko * msPerDay)) l i) as (t & Et' & _).
    exists t. exact Et'. }
  destruct Eend as [t Et'].
  assert (Edone : exists d, cumDoneEnd anchor = Fin d).
  { rewrite Ean. unfold f. cbn [cumDoneEnd sprintAt]. rewrite Hc.
    eexists. reflexivity. }
  destruct Edone as [d Ed'].
  assert (Escope : exists s, latestScope m = Fin s).
  { rewrite Els, Hsp. destruct n as [|k]; [lia|]. rewrite last_opt_map_seq.
    unfold f. cbn [scopeAtEnd sprintAt]. eexists. reflexivity. }
  destruct Escope as [s Es'].
  match goal with |- context [negb ?c] => destruct c end; cbn [negb];
    [|discriminate].
  match goal with |- context [if ?c then _ else _] => destruct c end;
    intros _; cbn [fromSprintIndex fromTimeMs fromDone avgVelPerFTE];
    exists (of_nat i), t, d, a, s, L; rewrite Et', Ed'; repeat split; auto.
Qed.

End BuiltSignal.

Section BuiltForecast.
Context {rt : JsRuntime}.

(** X20: a returned model with a velocity signal is forecastable: its
    anchor, velocity per FTE, latest scope and sprint length are finite and
    the velocity is positive.  Its own forecast has a positive projected
    velocity and an ordered cone: anchor, early, central and late
    completion timestamps follow each other in time. *)
Theorem built_forecast_is_ordered
  (fuel : nat) (input : BuildBurnupInput) (m : BurnupModel) :
  buildBurnupModel fuel input = Some m ->
  hasSignal (projection m) = true ->
  forecastable m /\
  exists t e c la v,
    fromTimeMs (projection m) = Some t /\
    projectedCompletionEarlyMs (projection m) = Some e /\
    projectedCompletionMs (projection m) = Some c /\
    projectedCompletionLateMs (projection m) = Some la /\
    projectedDonePerSprint (projection m) = Some v /\
    (v >? of_Z 0) = true /\
    (t <=? e) = true /\ (e <=? c) = true /\ (c <=? la) = true.
Proof.
  intros H Hsig.
  pose proof (built_signal_forecastable _ _ _ H Hsig) as F.
  split; [exact F|].
  destruct (build_fields _ _ _ H) as (_ & _ & _ & _ & Ep).
  assert (Ht : isFinite (targetOf input) = true).
  { destruct (isFinite (targetOf input)) eqn:E; [reflexivity|].
    unfold buildBurnupModel in H. fold (targetOf input) in H. rewrite E in H.
    cbn [negb] in H. inversion H; subst. discriminate. }
  destruct (build_closed_form _ _ _ H Ht) as (n' & _ & _ & _ & _ & _ & Etg & _ & _).
  rewrite <- Etg in Ep.
  destruct (recompute_same_fte m (Input.sprintFTE input) (targetScope m) Ep)
    as (S1 & S2 & S3 & S4).
  destruct (recompute_cone_ordered m (Input.sprintFTE input) F)
    as (_ & t & e & c & la & Ht' & He & Hc & Hla & O1 & O2 & O3).
  destruct (recompute_frame m (Input.sprintFTE input)) as (_ & (_ & Fr & _) & _).
  destruct F as (Hne & _ & i & t0 & d & a & s & L & Hi & Ht0 & Hd & Ha & Hpos & Hs
                 & HL & HL0).
  destruct (recompute_forecast m (Input.sprintFTE input) i t0 d a s L
              Hne Hsig Hi Ht0 Hd Ha Hpos Hs HL)
    as (phi & r & _ & _ & _ & _ & Hphi & _ & _ & _ & Hv & _).
  exists t, e, c, la, (of_Q (a * phi)).
  rewrite <- Fr, <- S1, <- S2, <- S3, <- S4.
  repeat split; auto.
  unfold of_Q, num_gt, num_lt, of_Z. apply Qltb_lt. rewrite Qred_correct.
  apply Qmult_lt_0_compat; lra.
Qed.

End BuiltForecast.

(** The mixed project, re-parameterised at three FTE. *)
Lemma model_mixed_forecastable : forecastable model_mixed.
Proof.
  apply (@built_signal_forecastable exampleRuntime 100 scenario_mixed);
    vm_compute; reflexivity.
Defined.

Lemma reparameterised_cone_is_ordered_witness :
  let p := projection (recomputeProjectionWithFTE model_mixed (of_Z 3)) in
  hasSignal p = true /\
  exists t e c la,
    fromTimeMs p = Some t /\
    projectedCompletionEarlyMs p = Some e /\
    projectedCompletionMs p = Some c /\
    projectedCompletionLateMs p = Some la /\
    (t <=? e) = true /\ (e <=? c) = true /\ (c <=? la) = true.
Proof.
  exact (reparameterised_cone_is_ordered model_mixed (of_Z 3)
           model_mixed_forecastable).
Defined.

(** The mixed project at one and at three FTE. *)
Lemma more_capacity_never_finishes_later_witness :
  let p := projection (recomputeProjectionWithFTE model_mixed (Fin 1)) in
  let p' := projection (recomputeProjectionWithFTE model_mixed (Fin 3)) in
  exists v v' e e' c c' la la',
    projectedDonePerSprint p = Some v /\ projectedDonePerSprint p' = Some v' /\
    projectedCompletionEarlyMs p = Some e /\
    projectedCompletionEarlyMs p' = Some e' /\
    projectedCompletionMs p = Some c /\ projectedCompletionMs p' = Some c' /\
    projectedCompletionLateMs p = Some la /\
    projectedCompletionLateMs p' = Some la' /\
    (v <=? v') = true /\ (e' <=? e) = true /\ (c' <=? c) = true /\
    (la' <=? la) = true.
Proof.
  apply (more_capacity_never_finishes_later model_mixed 1 3
           model_mixed_forecastable).
  discriminate.
Defined.

Lemma built_forecast_is_ordered_witness :
  forecastable model_mixed /\
  exists t e c la v,
    fromTimeMs (projection model_mixed) = Some t /\
    projectedCompletionEarlyMs (projection model_mixed) = Some e /\
    projectedCompletionMs (projection model_mixed) = Some c /\
    projectedCompletionLateMs (projection model_mixed) = Some la /\
    projectedDonePerSprint (projection model_mixed) = Some v /\
    (v >? of_Z 0) = true /\
    (t <=? e) = true /\ (e <=? c) = true /\ (c <=? la) = true.
Proof.
  apply (@built_forecast_is_ordered exampleRuntime 100 scenario_mixed model_mixed
           model_mixed_built).
  vm_compute. reflexivity.
Defined.

(** ** The forward scan for the last closed sprint *)

Arguments buildScopeAdjustedModel : simpl never.
Arguments computeScopeSliderConfig : simpl never.
Arguments getVelocitySliderBounds : simpl never.

(** What the scan has found after the sprints of [pre]. *)
Lemma lastClosedIndex_loop_inv (rest : list SprintSummary) :
  forall (pre : list SprintSummary) (acc : option (nat * SprintSummary)),
    match acc with
    | Some (i, s) => is_last_closed pre i s
    | None => forall j s, nth_error pre j = Some s -> isClosed s = false
    end ->
    match lastClosedIndex_loop rest (List.length pre) acc with
    | Some (i, s) => is_last_closed (pre ++ rest) i s
    | None => forall j s, nth_error (pre ++ rest) j = Some s -> isClosed s = false
    end.
Proof.
  induction rest as [|x rest IH]; intros pre acc Hacc.
  - cbn [lastClosedIndex_loop]. now rewrite app_nil_r.
  - cbn [lastClosedIndex_loop].
    replace (pre ++ x :: rest) with ((pre ++ [x]) ++ rest)
      by (now rewrite <- app_assoc).
    replace (S (List.length pre)) with (List.length (pre ++ [x]))
      by (rewrite length_app; simpl; lia).
    apply IH. destruct (isClosed x) eqn:C.
    + split; [|split; [exact C|]].
      * rewrite nth_error_app2, Nat.sub_diag by lia. reflexivity.
      * intros j s Hj Hs. exfalso.
        assert (L : (j < List.length (pre ++ [x]))%nat)
          by (apply nth_error_Some; congruence).
        rewrite length_app in L. simpl in L. lia.
    + assert (Hx : forall j s, (List.length pre <= j)%nat ->
                nth_error (pre ++ [x]) j = Some s -> isClosed s = false).
      { intros j s Hj Hs. rewrite nth_error_app2 in Hs by lia.
        destruct (j - List.length pre)%nat as [|k]; cbn in Hs;
          [inversion Hs; subst; exact C | destruct k; discriminate]. }
      destruct acc as [[i s]|].
      * destruct Hacc as (Hn & Hc & Hafter).
        assert (Hi : (i < List.length pre)%nat)
          by (apply nth_error_Some; congruence).
        split; [|split; [exact Hc|]].
        -- rewrite nth_error_app1 by lia. exact Hn.
        -- intros j s' Hj Hs'.
           destruct (Nat.lt_ge_cases j (List.length pre)) as [L | L].
           ++ rewrite nth_error_app1 in Hs' by lia. eapply Hafter; eauto.
           ++ eapply Hx; eauto.
      * intros j s Hs.
        destruct (Nat.lt_ge_cases j (List.length pre)) as [L | L].
        -- rewrite nth_error_app1 in Hs by lia. eapply Hacc; eauto.
        -- eapply Hx; eauto.
Qed.

Lemma lastClosedIndex_loop_spec (sprints : list SprintSummary) :
  match lastClosedIndex_loop sprints 0 None with
  | Some (i, s) => is_last_closed sprints i s
  | None => forall j s, nth_error sprints j = Some s -> isClosed s = false
  end.
Proof.
  apply (lastClosedIndex_loop_inv sprints [] None).
  intros [|j] s Hs; discriminate.
Qed.

Lemma is_last_closed_unique (sprints : list SprintSummary) (i j : nat)
  (s s' : SprintSummary) :
  is_last_closed sprints i s -> is_last_closed sprints j s' -> i = j /\ s = s'.
Proof.
  intros (Hi & Ci & Ai) (Hj & Cj & Aj).
  assert (i = j).
  { destruct (Nat.lt_trichotomy i j) as [L | [E | L]]; [|exact E|].
    - rewrite (Ai j s' L Hj) in Cj. discriminate.
    - rewrite (Aj i s L Hi) in Ci. discriminate. }
  subst j. split; [reflexivity | congruence].
Qed.

(** The forward scan of the page and the backward scan of the projection
    find the same sprint. *)
Lemma forward_scan_is_backward_scan (sprints : list SprintSummary) :
  lastClosedIndex_loop sprints 0 None = findLastClosed sprints (List.length sprints).
Proof.
  pose proof (lastClosedIndex_loop_spec sprints) as F.
  pose proof (findLastClosed_spec sprints (List.length sprints) (le_n _)) as B.
  destruct (lastClosedIndex_loop sprints 0 None) as [[i s]|].
  - symmetry. now apply findLastClosed_is_last.
  - destruct (findLastClosed sprints (List.length sprints)) as [[i s]|];
      [|reflexivity].
    destruct B as (_ & Hn & Hc & _). rewrite (F i s Hn) in Hc. discriminate.
Qed.

Lemma forward_scan_found (sprints : list SprintSummary) (i : nat)
  (anchor : SprintSummary) :
  is_last_closed sprints i anchor ->
  lastClosedIndex_loop sprints 0 None = Some (i, anchor).
Proof.
  intro H. rewrite forward_scan_is_backward_scan.
  now apply findLastClosed_is_last.
Qed.

(** ** Overriding the scope of the open sprints *)

Lemma length_set_nth {A : Type} (x : A) (l : list A) :
  forall i, List.length (set_nth i x l) = List.length l.
Proof.
  induction l as [|y l IH]; intros [|i]; cbn [set_nth List.length]; auto.
Qed.

Lemma nth_error_set_nth {A : Type} (x : A) (l : list A) :
  forall i j, (i < List.length l)%nat ->
    nth_error (set_nth i x l) j = if (j =? i)%nat then Some x else nth_error l j.
Proof.
  induction l as [|y l IH]; intros i j Hi; [simpl in Hi; lia|].
  destruct i as [|i], j as [|j]; cbn [set_nth nth_error Nat.eqb]; auto.
  apply IH. simpl in Hi. lia.
Qed.

Lemma withScope_withScope (s : SprintSummary) (a b c d : number) :
  withScope (withScope s a b) c d = withScope s c d.
Proof. reflexivity. Qed.

Lemma adjustedSprint_twice (i : nat) (v w a : number) (j : nat) (s : SprintSummary) :
  adjustedSprint i w a j (adjustedSprint i v a j s) = adjustedSprint i w a j s.
Proof.
  unfold adjustedSprint. destruct (j <=? i)%nat; [reflexivity|].
  destruct (j =? S i)%nat; apply withScope_withScope.
Qed.

Lemma adjustedSprint_isClosed (i : nat) (v a : number) (j : nat) (s : SprintSummary) :
  isClosed (adjustedSprint i v a j s) = isClosed s.
Proof.
  unfold adjustedSprint. destruct (j <=? i)%nat; [reflexivity|].
  destruct (j =? S i)%nat; reflexivity.
Qed.

Lemma adjustedSprint_endMs (i : nat) (v a : number) (j : nat) (s : SprintSummary) :
  endMs (adjustedSprint i v a j s) = endMs s.
Proof.
  unfold adjustedSprint. destruct (j <=? i)%nat; [reflexivity|].
  destruct (j =? S i)%nat; reflexivity.
Qed.

(** The array after the first [k] iterations of the rewriting loop. *)
Lemma adjustScope_fold (sprints : list SprintSummary) (last : nat)
  (anchor : SprintSummary) (newScope : number) :
  nth_error sprints last = Some anchor ->
  forall k, (k <= List.length sprints)%nat ->
    exists arr,
      fold_left
        (adjustScope_step last (Nat.min (last + 1) (List.length sprints - 1)) newScope)
        (seq 0 k) (Some sprints) = Some arr /\
      List.length arr = List.length sprints /\
      forall j, nth_error arr j =
                if (j <? k)%nat
                then option_map (adjustedSprint last newScope (scopeAtEnd anchor) j)
                       (nth_error sprints j)
                else nth_error sprints j.
Proof.
  intros Hanchor.
  assert (Hlast : (last < List.length sprints)%nat)
    by (apply nth_error_Some; congruence).
  induction k as [|k IH]; intro Hk.
  - exists sprints. repeat split; auto.
  - destruct (IH ltac:(lia)) as (arr & Efold & Hlen & Hpt).
    rewrite seq_S, fold_left_app, Efold. cbn [fold_left Nat.add].
    destruct (nth_error_in_range sprints k ltac:(lia)) as [s Hs].
    assert (Es : nth_error arr k = Some s).
    { rewrite Hpt. destruct (Nat.ltb_spec k k); [lia | exact Hs]. }
    unfold adjustScope_step.
    destruct (Nat.leb_spec k last) as [L | L].
    + exists arr. split; [reflexivity|]. split; [exact Hlen|].
      intro j. rewrite Hpt.
      destruct (Nat.ltb_spec j k) as [J | J];
        destruct (Nat.ltb_spec j (S k)) as [J' | J']; try lia; try reflexivity.
      assert (j = k) by lia. subst j. rewrite Hs. cbn [option_map].
      unfold adjustedSprint. destruct (Nat.leb_spec k last); [reflexivity | lia].
    + rewrite Es.
      assert (Enext : Nat.min (last + 1) (List.length sprints - 1) = S last) by lia.
      rewrite Enext.
      assert (Hprev : (k =? S last)%nat = true -> nth_error arr (k - 1) = Some anchor).
      { intro E. apply Nat.eqb_eq in E. subst k.
        replace (S last - 1)%nat with last by lia. rewrite Hpt.
        destruct (Nat.ltb_spec last (S last)); [|lia]. rewrite Hanchor.
        cbn [option_map]. unfold adjustedSprint.
        destruct (Nat.leb_spec last last); [reflexivity | lia]. }
      destruct (k =? S last)%nat eqn:Ek.
      * rewrite (Hprev eq_refl).
        eexists. split; [reflexivity|]. split; [now rewrite length_set_nth|].
        intro j. rewrite nth_error_set_nth by lia. rewrite Hpt.
        destruct (Nat.eqb_spec j k) as [-> | Hjk].
        -- destruct (Nat.ltb_spec k (S k)); [|lia]. rewrite Hs. cbn [option_map].
           unfold adjustedSprint.
           destruct (Nat.leb_spec k last); [lia|]. now rewrite Ek.
        -- destruct (Nat.ltb_spec j k); destruct (Nat.ltb_spec j (S k));
             try lia; reflexivity.
      * eexists. split; [reflexivity|]. split; [now rewrite length_set_nth|].
        intro j. rewrite nth_error_set_nth by lia. rewrite Hpt.
        destruct (Nat.eqb_spec j k) as [-> | Hjk].
        -- destruct (Nat.ltb_spec k (S k)); [|lia]. rewrite Hs. cbn [option_map].
           unfold adjustedSprint.
           destruct (Nat.leb_spec k last); [lia|]. now rewrite Ek.
        -- destruct (Nat.ltb_spec j k); destruct (Nat.ltb_spec j (S k));
             try lia; reflexivity.
Qed.

(** The model with its sprints, latest scope and target scope replaced. *)
Lemma adjusted_model (base : BurnupModel) (v : number) (i : nat)
  (anchor : SprintSummary) :
  is_last_closed (sprints base) i anchor ->
  exists arr lastSprint,
    List.length arr = List.length (sprints base) /\
    (forall j, nth_error arr j =
               option_map (adjustedSprint i (overrideScopeOf v) (scopeAtEnd anchor) j)
                 (nth_error (sprints base) j)) /\
    last_opt arr = Some lastSprint /\
    buildScopeAdjustedModel base v =
    Some {| sprintLengthDays := sprintLengthDays base;
            originMs := originMs base;
            targetDateMs := targetDateMs base;
            targetScope := computeScopeAtDate arr (targetDateMs base);
            latestScope := scopeAtEnd lastSprint;
            todayMs := todayMs base;
            currentSprintStartMs := currentSprintStartMs base;
            currentSprintEndMs := currentSprintEndMs base;
            sprints := arr;
            projection := projection base;
            totalDoneStories := totalDoneStories base;
            hasAnyDone := hasAnyDone base;
            isOnTrack := isOnTrack base;
            daysDeltaFromTarget := daysDeltaFromTarget base |}.
Proof.
  intro Hlc. pose proof Hlc as (Hn & _ & _).
  destruct (adjustScope_fold (sprints base) i anchor (overrideScopeOf v) Hn
              (List.length (sprints base)) (le_n _)) as (arr & Efold & Hlen & Hpt).
  assert (Hi : (i < List.length (sprints base))%nat)
    by (apply nth_error_Some; congruence).
  assert (Hne : arr <> []) by (destruct arr; [simpl in Hlen; lia | discriminate]).
  destruct (last_opt_nonempty arr Hne) as [lastSprint Elast].
  exists arr, lastSprint. split; [exact Hlen|]. split; [|split; [exact Elast|]].
  - intro j. rewrite Hpt.
    destruct (Nat.ltb_spec j (List.length (sprints base))) as [J | J];
      [reflexivity|].
    assert (E : nth_error (sprints base) j = None) by now apply nth_error_None.
    now rewrite E.
  - unfold buildScopeAdjustedModel. rewrite (forward_scan_found _ _ _ Hlc).
    destruct (sprints base) as [|s0 rest] eqn:Es; [simpl in Hi; lia|].
    rewrite <- Es in *. fold (overrideScopeOf v). rewrite Efold, Elast.
    f_equal. f_equal. unfold computeScopeAtDate.
    destruct arr as [|a0 arest]; [contradiction|].
    rewrite Elast. now destruct (firstEndingOnOrAfter (a0 :: arest) (targetDateMs base)).
Qed.

Lemma adjusted_is_last_closed (sprints arr : list SprintSummary) (i : nat)
  (anchor : SprintSummary) (v : number) :
  is_last_closed sprints i anchor ->
  (forall j, nth_error arr j =
             option_map (adjustedSprint i v (scopeAtEnd anchor) j)
               (nth_error sprints j)) ->
  is_last_closed arr i anchor.
Proof.
  intros (Hn & Hc & Hafter) Hpt. split; [|split; [exact Hc|]].
  - rewrite Hpt, Hn. cbn [option_map]. unfold adjustedSprint.
    destruct (Nat.leb_spec i i); [reflexivity | lia].
  - intros j s Hj Hs. rewrite Hpt in Hs.
    destruct (nth_error sprints j) as [s'|] eqn:E; [|discriminate].
    cbn [option_map] in Hs. inversion Hs; subst s.
    rewrite adjustedSprint_isClosed. eapply Hafter; eauto.
Qed.

(** X21: [buildScopeAdjustedModel] always returns a model.  Without a
    closed sprint it returns the model it was given.  Otherwise the model
    it returns has as many sprints; the sprints up to the last closed one
    are untouched, the sprint after it starts with the scope at the end of
    the last closed sprint and the later ones with the new scope, all of
    them end with the new scope [max(0, round(overrideScope))], and no other
    field of a sprint changes; [latestScope] is the scope at the end of its
    last sprint, [targetScope] is computed from the new sprints as the build
    does, and the projection and every other field of the model are
    kept. *)
Theorem scope_override_rewrites_the_open_sprints
  (base : BurnupModel) (overrideScope : number) :
  (exists m', buildScopeAdjustedModel base overrideScope = Some m') /\
  ((forall j s, nth_error (sprints base) j = Some s -> isClosed s = false) ->
   buildScopeAdjustedModel base overrideScope = Some base) /\
  (forall (i : nat) (anchor : SprintSummary),
     is_last_closed (sprints base) i anchor ->
     exists m',
       buildScopeAdjustedModel base overrideScope = Some m' /\
       List.length (sprints m') = List.length (sprints base) /\
       (forall j s, nth_error (sprints base) j = Some s ->
          nth_error (sprints m') j =
          Some (adjustedSprint i (overrideScopeOf overrideScope)
                  (scopeAtEnd anchor) j s)) /\
       latestScope m' =
         (if (S i <? List.length (sprints base))%nat
          then overrideScopeOf overrideScope else scopeAtEnd anchor) /\
       targetScope m' = computeScopeAtDate (sprints m') (targetDateMs base) /\
       projection m' = projection base /\
       targetDateMs m' = targetDateMs base /\ originMs m' = originMs base /\
       totalDoneStories m' = totalDoneStories base /\
       isOnTrack m' = isOnTrack base).
Proof.
  assert (None_case :
            (forall j s, nth_error (sprints base) j = Some s -> isClosed s = false) ->
            buildScopeAdjustedModel base overrideScope = Some base).
  { intro Hopen. unfold buildScopeAdjustedModel.
    destruct (sprints base) as [|s0 rest] eqn:Es; [reflexivity|].
    rewrite <- Es in *.
    pose proof (lastClosedIndex_loop_spec (sprints base)) as F.
    destruct (lastClosedIndex_loop (sprints base) 0 None) as [[i s]|];
      [|reflexivity].
    destruct F as (Hn & Hc & _). rewrite (Hopen i s Hn) in Hc. discriminate. }
  assert (Some_case : forall (i : nat) (anchor : SprintSummary),
     is_last_closed (sprints base) i anchor ->
     exists m',
       buildScopeAdjustedModel base overrideScope = Some m' /\
       List.length (sprints m') = List.length (sprints base) /\
       (forall j s, nth_error (sprints base) j = Some s ->
          nth_error (sprints m') j =
          Some (adjustedSprint i (overrideScopeOf overrideScope)
                  (scopeAtEnd anchor) j s)) /\
       latestScope m' =
         (if (S i <? List.length (sprints base))%nat
          then overrideScopeOf overrideScope else scopeAtEnd anchor) /\
       targetScope m' = computeScopeAtDate (sprints m') (targetDateMs base) /\
       projection m' = projection base /\
       targetDateMs m' = targetDateMs base /\ originMs m' = originMs base /\
       totalDoneStories m' = totalDoneStories base /\
       isOnTrack m' = isOnTrack base).
  { intros i anchor Hlc.
    destruct (adjusted_model base overrideScope i anchor Hlc)
      as (arr & lastSprint & Hlen & Hpt & Elast & E).
    eexists. split; [exact E|].
    cbn [sprints latestScope targetScope projection targetDateMs originMs
         totalDoneStories isOnTrack].
    split; [exact Hlen|]. split; [|split; [|repeat split]].
    - intros j s Hs. now rewrite Hpt, Hs.
    - destruct Hlc as (Hn & _).
      assert (Hi : (i < List.length (sprints base))%nat)
        by (apply nth_error_Some; congruence).
      unfold last_opt in Elast. rewrite Hpt, Hlen in Elast.
      destruct (nth_error (sprints base) (List.length (sprints base) - 1))
        as [s|] eqn:En; [|discriminate].
      cbn [option_map] in Elast. inversion Elast; subst lastSprint.
      unfold adjustedSprint.
      destruct (Nat.ltb_spec (S i) (List.length (sprints base))) as [L | L].
      + destruct (Nat.leb_spec (List.length (sprints base) - 1) i); [lia|].
        destruct (_ =? S i)%nat; reflexivity.
      + assert (Ei : (List.length (sprints base) - 1 = i)%nat) by lia.
        rewrite Ei in *. destruct (Nat.leb_spec i i); [|lia]. congruence. }
  split; [|split; [exact None_case | exact Some_case]].
  pose proof (lastClosedIndex_loop_spec (sprints base)) as F.
  destruct (lastClosedIndex_loop (sprints base) 0 None) as [[i s]|].
  - destruct (Some_case i s F) as (m' & E & _). eauto.
  - exists base. now apply None_case.
Qed.

(** X22: overriding the scope of a model whose scope has already been
    overridden gives the model that the last override alone gives: the
    slider can be moved any number of times, and overriding twice with the
    same value changes nothing more. *)
Theorem last_scope_override_wins (base : BurnupModel) (v w : number) :
  exists m1,
    buildScopeAdjustedModel base v = Some m1 /\
    buildScopeAdjustedModel m1 w = buildScopeAdjustedModel base w.
Proof.
  pose proof (lastClosedIndex_loop_spec (sprints base)) as F.
  destruct (lastClosedIndex_loop (sprints base) 0 None) as [[i anchor]|] eqn:Escan.
  - destruct (adjusted_model base v i anchor F)
      as (arr & lastSprint & Hlen & Hpt & Elast & E).
    eexists. split; [exact E|].
    set (m1 := {| sprintLengthDays := sprintLengthDays base;
                  originMs := originMs base;
                  targetDateMs := targetDateMs base;
                  targetScope := computeScopeAtDate arr (targetDateMs base);
                  latestScope := scopeAtEnd lastSprint;
                  todayMs := todayMs base;
                  currentSprintStartMs := currentSprintStartMs base;
                  currentSprintEndMs := currentSprintEndMs base;
                  sprints := arr;
                  projection := projection base;
                  totalDoneStories := totalDoneStories base;
                  hasAnyDone := hasAnyDone base;
                  isOnTrack := isOnTrack base;
                  daysDeltaFromTarget := daysDeltaFromTarget base |}).
    assert (F1 : is_last_closed (sprints m1) i anchor)
      by (apply (adjusted_is_last_closed (sprints base) arr i anchor
                   (overrideScopeOf v) F Hpt)).
    destruct (adjusted_model m1 w i anchor F1)
      as (arr1 & last1 & Hlen1 & Hpt1 & Elast1 & E1).
    destruct (adjusted_model base w i anchor F)
      as (arr2 & last2 & Hlen2 & Hpt2 & Elast2 & E2).
    rewrite E1, E2. cbn [sprints] in Hpt1.
    assert (Earr : arr1 = arr2).
    { apply nth_error_ext. intro j. rewrite Hpt1, Hpt2, Hpt.
      destruct (nth_error (sprints base) j) as [s|]; [|reflexivity].
      cbn [option_map]. now rewrite adjustedSprint_twice. }
    subst arr2. assert (last1 = last2) by congruence. subst last2. reflexivity.
  - exists base.
    assert (E : buildScopeAdjustedModel base v = Some base).
    { unfold buildScopeAdjustedModel. rewrite Escan.
      now destruct (sprints base). }
    split; [exact E | reflexivity].
Qed.

(** ** The scope slider *)

Lemma scope_slider_range (b : Q) :
  (0 <= b)%Q ->
  let safeBaseline := if Fin b >? of_Z 0 then Fin b else of_Z 1 in
  let span := Math_max (of_Z 50) (Math_round (safeBaseline * Fin (1 # 2))) in
  exists lo hi : Q,
    Math_max (of_Z 0) (Fin b - span) = Fin lo /\ Fin b + span = Fin hi /\
    (0 <= lo)%Q /\ (lo <= b)%Q /\ (b + 50 <= hi)%Q /\
    ((lo == 0)%Q \/ (hi - b == b - lo)%Q).
Proof.
  intro Hb. cbv zeta.
  assert (Hspan : exists k : Z,
            Math_max (of_Z 50)
              (Math_round ((if Fin b >? of_Z 0 then Fin b else of_Z 1) * Fin (1 # 2)))
            = of_Z k /\ (50 <= k)%Z).
  { destruct (Fin b >? of_Z 0).
    - change (Fin b * Fin (1 # 2)) with (of_Q (b * (1 # 2))).
      rewrite round_of_Q, of_Z_max. eexists. split; [reflexivity | lia].
    - change (of_Z 1 * Fin (1 # 2)) with (of_Q (inject_Z 1 * (1 # 2))).
      rewrite round_of_Q, of_Z_max. eexists. split; [reflexivity | lia]. }
  destruct Hspan as (k & -> & Hk).
  assert (Hk' : (50 <= inject_Z k)%Q).
  { change 50%Q with (inject_Z 50). now rewrite <- Zle_Qle. }
  unfold of_Z, num_sub, num_neg, num_add, of_Q. rewrite Math_max_Fin.
  destruct (Qltb _ _) eqn:P.
  - apply Qltb_lt in P. eexists. eexists. split; [reflexivity|].
    split; [reflexivity|]. revert P. unred. intro P.
    change (inject_Z 0) with 0%Q in P.
    repeat split; lra.
  - apply Qltb_ge in P. eexists. eexists. split; [reflexivity|].
    split; [reflexivity|]. revert P. unred. intro P.
    change (inject_Z 0) with 0%Q in *.
    repeat split; lra.
Qed.

(** X23: the scope slider is disabled unless the model has a closed
    sprint that is not its last sprint.  When it is enabled its baseline is
    the scope at the end of the last closed sprint, and for a finite
    baseline [b >= 0] its range is finite, lies between 0 and at least
    [b + 50], contains the baseline, and is centred on the baseline unless
    it is cut at 0. *)
Theorem scope_slider_is_centred_on_the_last_closed_sprint (m : BurnupModel) :
  let cfg := computeScopeSliderConfig (Some m) in
  ((forall i anchor, is_last_closed (sprints m) i anchor ->
                     S i = List.length (sprints m)) ->
   cfg = disabledScopeSlider) /\
  (forall (i : nat) (anchor : SprintSummary),
     is_last_closed (sprints m) i anchor ->
     (S i < List.length (sprints m))%nat ->
     ScopeSlider.enabled cfg = true /\
     ScopeSlider.baselineScope cfg = scopeAtEnd anchor /\
     forall b : Q,
       scopeAtEnd anchor = Fin b -> (0 <= b)%Q ->
       exists lo hi : Q,
         ScopeSlider.min cfg = Fin lo /\ ScopeSlider.max cfg = Fin hi /\
         (0 <= lo)%Q /\ (lo <= b)%Q /\ (b + 50 <= hi)%Q /\
         ((lo == 0)%Q \/ (hi - b == b - lo)%Q)).
Proof.
  cbv zeta. unfold computeScopeSliderConfig. split.
  - intro Hlast. destruct (sprints m) as [|s0 rest] eqn:Es; [reflexivity|].
    rewrite <- Es in *.
    pose proof (lastClosedIndex_loop_spec (sprints m)) as F.
    destruct (lastClosedIndex_loop (sprints m) 0 None) as [[i s]|]; [|reflexivity].
    specialize (Hlast i s F).
    destruct (Nat.eqb_spec i (List.length (sprints m) - 1)); [reflexivity | lia].
  - intros i anchor Hlc Hi. rewrite (forward_scan_found _ _ _ Hlc).
    destruct (sprints m) as [|s0 rest] eqn:Es; [simpl in Hi; lia|].
    rewrite <- Es in *.
    destruct (Nat.eqb_spec i (List.length (sprints m) - 1)); [lia|].
    cbn [ScopeSlider.enabled ScopeSlider.baselineScope ScopeSlider.min
         ScopeSlider.max].
    split; [reflexivity|]. split; [reflexivity|].
    intros b Eb Hb. rewrite Eb. exact (scope_slider_range b Hb).
Qed.

(** ** The velocity slider *)

(** X24: for a model that is forecastable whenever it has a signal, and
    for no model at all, the bounds of the velocity slider are whole numbers
    with [min >= 1] and [max >= min + 5]: the slider always has room. *)
Theorem velocity_slider_always_has_room (model : option BurnupModel) :
  (forall m, model = Some m -> hasSignal (projection m) = true -> forecastable m) ->
  exists lo hi : Z,
    VelocitySlider.min (getVelocitySliderBounds model) = of_Z lo /\
    VelocitySlider.max (getVelocitySliderBounds model) = of_Z hi /\
    (1 <= lo)%Z /\ (lo + 5 <= hi)%Z.
Proof.
  intro Hf.
  assert (Default : exists lo hi : Z,
            VelocitySlider.min defaultVelocityBounds = of_Z lo /\
            VelocitySlider.max defaultVelocityBounds = of_Z hi /\
            (1 <= lo)%Z /\ (lo + 5 <= hi)%Z).
  { exists 5%Z, 80%Z. repeat split; lia. }
  unfold getVelocitySliderBounds.
  destruct model as [m|]; [|exact Default].
  destruct (hasSignal (projection m)) eqn:Hsig; [|exact Default].
  destruct (Hf m eq_refl Hsig)
    as (_ & _ & i & t & d & a & s & L & _ & Ht & Hd & _ & _ & Hs & HL & HL0).
  rewrite Ht, Hd, Hs, HL. cbv zeta.
  destruct (negb (isFinite (targetDateMs m)) || (Fin L <=? of_Z 0)) eqn:G1;
    [exact Default|].
  apply orb_false_iff in G1. destruct G1 as [G1 G2].
  apply negb_false_iff in G1. destruct (finite_is_Fin _ G1) as [g Eg].
  rewrite Eg.
  assert (HLpos : (0 < L)%Q).
  { unfold num_le, of_Z in G2. apply Qle_bool_false in G2. exact G2. }
  destruct (remaining_value s d) as (r & Er & Hr & _). rewrite Er.
  change (Fin g - Fin t) with (Fin (Qred (g + Qred (- t)))).
  set (tau := Qred (g + Qred (- t))).
  destruct ((Fin r <=? of_Z 0) || (Fin tau <=? of_Z 0)) eqn:G3; [exact Default|].
  apply orb_false_iff in G3. destruct G3 as [G3 G4].
  assert (Hrpos : (0 < r)%Q) by (unfold num_le, of_Z in G3; now apply Qle_bool_false in G3).
  change (Fin L * DAY_MS) with (Fin (Qred (L * inject_Z 86400000))).
  set (lam := Qred (L * inject_Z 86400000)).
  assert (Hlam : (0 < lam)%Q).
  { unfold lam. rewrite Qred_correct. apply Qmult_lt_0_compat; [assumption | reflexivity]. }
  rewrite (div_Fin _ _ (Qpos_nonzero _ Hlam)), ceil_of_Q, of_Z_max.
  set (K := Z.max 1 (Qceiling (tau / lam))).
  assert (HK : (0 < inject_Z K)%Q).
  { change 0%Q with (inject_Z 0). rewrite <- Zlt_Qlt. unfold K. lia. }
  change (Fin r / of_Z K) with (Fin r / Fin (inject_Z K)).
  rewrite (div_Fin _ _ (Qpos_nonzero _ HK)).
  set (rho := (r / inject_Z K)%Q).
  assert (Hrho : (0 < Qred rho)%Q).
  { rewrite Qred_correct. unfold rho. apply Qlt_shift_div_l; [assumption | lra]. }
  assert (Grho : (of_Q rho >? of_Z 0) = true)
    by (unfold of_Q, num_gt, num_lt, of_Z; now apply Qltb_lt).
  rewrite Grho.
  assert (Final : forall beta : Q,
            exists lo hi : Z,
              Math_max (of_Z 1) (Math_floor (Fin beta * Fin (1 # 2))) = of_Z lo /\
              Math_max
                (Math_max (of_Z 1) (Math_floor (Fin beta * Fin (1 # 2))) + of_Z 5)
                (Math_max (Math_ceil (of_Q rho * Fin (3 # 2)))
                   (Math_ceil (Fin beta * of_Z 2))) = of_Z hi /\
              (1 <= lo)%Z /\ (lo + 5 <= hi)%Z).
  { intro beta.
    change (Fin beta * Fin (1 # 2)) with (of_Q (beta * (1 # 2))).
    change (Fin beta * of_Z 2) with (of_Q (beta * inject_Z 2)).
    change (of_Q rho * Fin (3 # 2)) with (of_Q (Qred rho * (3 # 2))).
    rewrite floor_of_Q, !ceil_of_Q, !of_Z_max, of_Z_add, of_Z_max.
    eexists. eexists. split; [reflexivity|]. split; [reflexivity|]. lia. }
  set (recent := recentStoriesPerSprint (projection m)).
  destruct (truthy_opt recent &&
            match recent with Some r0 => r0 >? of_Z 0 | None => false end) eqn:Grec.
  - destruct recent as [r0|]; [|discriminate].
    destruct (negb (truthy r0) || negb (isFinite r0)) eqn:G5; [exact Default|].
    apply orb_false_iff in G5. destruct G5 as [_ G5].
    apply negb_false_iff in G5. destruct (finite_is_Fin _ G5) as [beta ->].
    cbn [VelocitySlider.min VelocitySlider.max]. apply Final.
  - assert (Gt : truthy (of_Q rho) = true).
    { unfold of_Q, truthy.
      now rewrite (proj2 (Qeq_bool_false _ 0) (Qpos_nonzero _ Hrho)). }
    rewrite Gt. cbn [negb orb isFinite of_Q VelocitySlider.min VelocitySlider.max].
    apply Final.
Qed.

(** ** The sliders on a returned model *)


Section BuiltSlider.
Context {rt : JsRuntime}.


End BuiltSlider.

Lemma clamp_value (lo hi x : Q) :
  (lo <= hi)%Q ->
  exists v : Q,
    (if (if Fin x <? Fin lo then Fin lo else Fin x) >? Fin hi then Fin hi
     else if Fin x <? Fin lo then Fin lo else Fin x) = Fin v /\
    (lo <= v)%Q /\ (v <= hi)%Q /\
    ((x < lo)%Q -> v = lo) /\
    ((lo <= x)%Q -> (x <= hi)%Q -> v = x) /\
    ((hi < x)%Q -> v = hi).
Proof.
  intro Hb. change (Fin x <? Fin lo) with (Qltb x lo).
  destruct (Qltb x lo) eqn:E1.
  - apply Qltb_lt in E1. change (Fin lo >? Fin hi) with (Qltb hi lo).
    assert (E2 : Qltb hi lo = false) by now apply Qltb_ge.
    rewrite E2. exists lo.
    split; [reflexivity|]. split; [lra|]. split; [exact Hb|].
    split; [reflexivity|]. split; intros; lra.
  - apply Qltb_ge in E1. change (Fin x >? Fin hi) with (Qltb hi x).
    destruct (Qltb hi x) eqn:E2.
    + apply Qltb_lt in E2. exists hi.
      split; [reflexivity|]. split; [exact Hb|]. split; [lra|].
      split; [intros; lra|]. split; [intros; lra | reflexivity].
    + apply Qltb_ge in E2. exists x.
      split; [reflexivity|]. split; [exact E1|]. split; [exact E2|].
      split; [intros; lra|]. split; [reflexivity | intros; lra].
Qed.

(** X26: [onChangeFTE] keeps the slider value inside the bounds of the
    slider: a value below the minimum acts as the minimum, one above the
    maximum as the maximum, one in between as itself.  On a forecastable
    model whose slider asks for at most a million FTE (the maximum is at
    most a million times the velocity per FTE) it always gives a model with
    a signal, and moving the slider up never projects a lower velocity nor
    a later completion: for [x <= y] each of the three completion timestamps
    after [onChangeFTE(y)] is at or before the one after [onChangeFTE(x)]. *)
Theorem velocity_slider_is_clamped_and_monotone
  (m : BurnupModel) (a lo hi x y : Q) :
  forecastable m ->
  avgVelPerFTE (projection m) = Some (Fin a) ->
  (lo <= hi)%Q ->
  (hi <= a * 1000000)%Q ->
  (x <= y)%Q ->
  exists (vx vy : Q) (mx my : BurnupModel),
    onChangeFTE (Fin lo) (Fin hi) (Fin x) (Some m) = (Fin vx, Some mx) /\
    onChangeFTE (Fin lo) (Fin hi) (Fin y) (Some m) = (Fin vy, Some my) /\
    (lo <= vx)%Q /\ (vx <= vy)%Q /\ (vy <= hi)%Q /\
    ((x < lo)%Q -> vx = lo) /\
    ((lo <= x)%Q -> (x <= hi)%Q -> vx = x) /\
    ((hi < x)%Q -> vx = hi) /\
    hasSignal (projection mx) = true /\ hasSignal (projection my) = true /\
    exists v v' e e' c c' la la',
      projectedDonePerSprint (projection mx) = Some v /\
      projectedDonePerSprint (projection my) = Some v' /\
      projectedCompletionEarlyMs (projection mx) = Some e /\
      projectedCompletionEarlyMs (projection my) = Some e' /\
      projectedCompletionMs (projection mx) = Some c /\
      projectedCompletionMs (projection my) = Some c' /\
      projectedCompletionLateMs (projection mx) = Some la /\
      projectedCompletionLateMs (projection my) = Some la' /\
      (v <=? v') = true /\ (e' <=? e) = true /\ (c' <=? c) = true /\
      (la' <=? la) = true.
Proof.
  intros F Ha0 Hb _ Hxy.
  destruct (clamp_value lo hi x Hb) as (vx & Ex & Lx & Ux & X1 & X2 & X3).
  destruct (clamp_value lo hi y Hb) as (vy & Ey & Ly & Uy & Y1 & Y2 & Y3).
  assert (Hv : (vx <= vy)%Q).
  { destruct (Qlt_le_dec x lo) as [A | A].
    - rewrite (X1 A). exact Ly.
    - destruct (Qlt_le_dec hi y) as [B | B].
      + rewrite (Y3 B). exact Ux.
      + destruct (Qlt_le_dec hi x) as [C | C]; [lra|].
        destruct (Qlt_le_dec y lo) as [D | D]; [lra|].
        rewrite (X2 A C), (Y2 D B). exact Hxy. }
  pose proof F as (Hne & Hsig & i & t & d & a' & s & L & Hi & Ht & Hd & Ha & Hpos & Hs
                   & HL & HL0).
  assert (a' = a) by congruence. subst a'.
  assert (Hnz : ~ (a == 0)%Q) by now apply Qpos_nonzero.
  assert (Hale : (Fin a <=? of_Z 0) = false)
    by (unfold num_le, of_Z; now apply Qle_bool_false).
  assert (Hq : (Qred (vx / a) <= Qred (vy / a))%Q).
  { rewrite !Qred_correct. unfold Qdiv. apply Qmult_le_compat_r; [exact Hv|].
    apply Qlt_le_weak, Qinv_lt_0_compat. exact Hpos. }
  exists vx, vy, (recomputeProjectionWithFTE m (Fin (Qred (vx / a)))),
         (recomputeProjectionWithFTE m (Fin (Qred (vy / a)))).
  split.
  { unfold onChangeFTE. cbv zeta. rewrite Ex, Hsig, Ha, Hale.
    now rewrite (div_Fin _ _ Hnz). }
  split.
  { unfold onChangeFTE. cbv zeta. rewrite Ey, Hsig, Ha, Hale.
    now rewrite (div_Fin _ _ Hnz). }
  repeat (split; [assumption|]).
  split; [apply (recompute_cone_ordered m _ F)|].
  split; [apply (recompute_cone_ordered m _ F)|].
  exact (recompute_monotone m _ _ F Hq).
Qed.

(** The mixed project: its fourth sprint is the last closed one. *)
Lemma model_mixed_anchor :
  exists anchor,
    nth_error (sprints model_mixed) 3 = Some anchor /\
    is_last_closed (sprints model_mixed) 3 anchor.
Proof.
  destruct (nth_error (sprints model_mixed) 3) as [anchor|] eqn:E3;
    [|vm_compute in E3; discriminate].
  exists anchor. split; [reflexivity|].
  apply found_is_last. vm_compute in E3. inversion E3. vm_compute. reflexivity.
Defined.

(** The mixed project with its scope overridden to 9 stories. *)
Lemma scope_override_rewrites_the_open_sprints_witness :
  exists anchor m',
    is_last_closed (sprints model_mixed) 3 anchor /\
    buildScopeAdjustedModel model_mixed (of_Z 9) = Some m' /\
    List.length (sprints m') = List.length (sprints model_mixed) /\
    latestScope m' = of_Z 9 /\
    targetScope m' = computeScopeAtDate (sprints m') (targetDateMs model_mixed) /\
    projection m' = projection model_mixed.
Proof.
  destruct model_mixed_anchor as (anchor & _ & Hlc).
  destruct (scope_override_rewrites_the_open_sprints model_mixed (of_Z 9))
    as (_ & _ & S).
  destruct (S 3%nat anchor Hlc) as (m' & E & Hlen & _ & Hls & Hts & Hp & _).
  exists anchor, m'.
  split; [exact Hlc|]. split; [exact E|]. split; [exact Hlen|].
  split; [rewrite Hls; vm_compute; reflexivity|].
  split; [exact Hts | exact Hp].
Defined.

Lemma scope_slider_is_centred_on_the_last_closed_sprint_witness :
  exists anchor,
    is_last_closed (sprints model_mixed) 3 anchor /\
    ScopeSlider.enabled (computeScopeSliderConfig (Some model_mixed)) = true /\
    ScopeSlider.baselineScope (computeScopeSliderConfig (Some model_mixed))
      = scopeAtEnd anchor /\
    exists lo hi : Q,
      ScopeSlider.min (computeScopeSliderConfig (Some model_mixed)) = Fin lo /\
      ScopeSlider.max (computeScopeSliderConfig (Some model_mixed)) = Fin hi /\
      (0 <= lo)%Q /\ (lo <= 4)%Q /\ (4 + 50 <= hi)%Q.
Proof.
  destruct model_mixed_anchor as (anchor & En & Hlc).
  destruct (scope_slider_is_centred_on_the_last_closed_sprint model_mixed)
    as (_ & S).
  destruct (S 3%nat anchor Hlc) as (H1 & H2 & H3); [vm_compute; lia|].
  exists anchor. split; [exact Hlc|]. split; [exact H1|]. split; [exact H2|].
  destruct (H3 4%Q) as (lo & hi & A & B & C & D & E & _).
  - vm_compute in En. inversion En. reflexivity.
  - discriminate.
  - exists lo, hi. repeat split; assumption.
Defined.

Lemma velocity_slider_always_has_room_witness :
  exists lo hi : Z,
    VelocitySlider.min (getVelocitySliderBounds (Some model_mixed)) = of_Z lo /\
    VelocitySlider.max (getVelocitySliderBounds (Some model_mixed)) = of_Z hi /\
    (1 <= lo)%Z /\ (lo + 5 <= hi)%Z.
Proof.
  apply (velocity_slider_always_has_room (Some model_mixed)).
  intros m E _. assert (Em : m = model_mixed) by congruence.
  rewrite Em. exact model_mixed_forecastable.
Defined.

(** The mixed project, whose slider runs from 1 to 6 stories per sprint,
    with the slider at 0 and at 3. *)
Lemma velocity_slider_is_clamped_and_monotone_witness :
  avgVelPerFTE (projection model_mixed) = Some (Fin (1 # 2)) /\
  VelocitySlider.min (getVelocitySliderBounds (Some model_mixed)) = Fin 1 /\
  VelocitySlider.max (getVelocitySliderBounds (Some model_mixed)) = Fin 6 /\
  exists (mx my : BurnupModel),
    onChangeFTE (Fin 1) (Fin 6) (Fin 0) (Some model_mixed) = (Fin 1, Some mx) /\
    onChangeFTE (Fin 1) (Fin 6) (Fin 3) (Some model_mixed) = (Fin 3, Some my) /\
    exists c c',
      projectedCompletionMs (projection mx) = Some c /\
      projectedCompletionMs (projection my) = Some c' /\
      (c' <=? c) = true.
Proof.
  split; [vm_compute; reflexivity|].
  split; [vm_compute; reflexivity|]. split; [vm_compute; reflexivity|].
  destruct (velocity_slider_is_clamped_and_monotone model_mixed (1 # 2) 1 6 0 3
              model_mixed_forecastable)
    as (vx & vy & mx & my & Ex & Ey & _ & _ & _ & X1 & _ & _ & _ & _
        & v & v' & e & e' & c & c' & la & la' & _ & _ & _ & _ & Hc & Hc' & _ & _
        & _ & _ & O & _);
    [vm_compute; reflexivity | discriminate | discriminate | discriminate |].
  assert (Evx : vx = 1%Q) by (apply X1; reflexivity).
  assert (Evy : vy = 3%Q).
  { assert (E3 : fst (onChangeFTE (Fin 1) (Fin 6) (Fin 3) (Some model_mixed)) = Fin 3)
      by reflexivity.
    rewrite Ey in E3. cbn [fst] in E3. congruence. }
  rewrite Evx in Ex. rewrite Evy in Ey.
  exists mx, my. split; [exact Ex|]. split; [exact Ey|].
  exists c, c'. repeat split; assumption.
Defined.


(** ** On track *)

Lemma Qfloor_nonpos (y : Q) : (Qfloor y <= 0)%Z <-> (y < 1)%Q.
Proof.
  split; intro H.
  - apply Qlt_le_trans with (inject_Z (Qfloor y + 1)); [apply Qlt_floor|].
    change 1%Q with (inject_Z 1). rewrite <- Zle_Qle. lia.
  - assert (L : (inject_Z (Qfloor y) < inject_Z 1)%Q).
    { apply Qle_lt_trans with y; [apply Qfloor_le | exact H]. }
    rewrite <- Zlt_Qlt in L. lia.
Qed.

(** The days between a completion timestamp and the target date, rounded:
    at most 0 exactly when the completion is less than half a day after the
    target date. *)
Lemma health_value (c g : Q) :
  exists z : Z,
    Math_round ((Fin c - Fin g) / DAY_MS) = of_Z z /\
    z = Qfloor ((c - g) / inject_Z 86400000 + (1 # 2)) /\
    ((z <= 0)%Z <-> (c < g + 43200000)%Q) /\
    ((c == g)%Q -> z = 0%Z).
Proof.
  assert (Hd : ~ (inject_Z 86400000 == 0)%Q) by discriminate.
  change (Fin c - Fin g) with (Fin (Qred (c + Qred (- g)))).
  change DAY_MS with (Fin (inject_Z 86400000)).
  rewrite (div_Fin _ _ Hd), round_of_Q.
  assert (E : (Qred (c + Qred (- g)) / inject_Z 86400000 + (1 # 2)
               == (c - g) / inject_Z 86400000 + (1 # 2))%Q).
  { rewrite !Qred_correct. reflexivity. }
  rewrite (Qfloor_comp _ _ E).
  eexists. split; [reflexivity|]. split; [reflexivity|]. split.
  - rewrite Qfloor_nonpos. split; intro H.
    + assert (H1 : ((c - g) / inject_Z 86400000 < 1 # 2)%Q) by lra.
      assert (H2 : ((c - g) / inject_Z 86400000 * inject_Z 86400000
                    < (1 # 2) * inject_Z 86400000)%Q)
        by (apply Qmult_lt_compat_r; [reflexivity | exact H1]).
      assert (H3 : ((c - g) / inject_Z 86400000 * inject_Z 86400000 == c - g)%Q)
        by (field; exact Hd).
      rewrite H3 in H2.
      assert (H4 : ((1 # 2) * inject_Z 86400000 == 43200000)%Q) by reflexivity.
      rewrite H4 in H2. lra.
    + assert (H1 : ((c - g) / inject_Z 86400000 < 1 # 2)%Q).
      { apply Qlt_shift_div_r; [reflexivity|].
        assert (H4 : ((1 # 2) * inject_Z 86400000 == 43200000)%Q) by reflexivity.
        rewrite H4. lra. }
      lra.
  - intro Ecg.
    assert (E0 : ((c - g) / inject_Z 86400000 + (1 # 2) == 1 # 2)%Q).
    { rewrite Ecg. field. }
    rewrite (Qfloor_comp _ _ E0). reflexivity.
Qed.

Section BuiltHealth.
Context {rt : JsRuntime}.


End BuiltHealth.

Lemma recompute_health (m : BurnupModel) (f : number) :
  forecastable m ->
  isFinite (targetDateMs m) = true ->
  exists pc,
    projectedCompletionMs (projection (recomputeProjectionWithFTE m f)) = Some pc /\
    daysDeltaFromTarget (recomputeProjectionWithFTE m f)
      = Some (Math_round ((pc - targetDateMs m) / DAY_MS)) /\
    isOnTrack (recomputeProjectionWithFTE m f)
      = (if isFinite (Math_round ((pc - targetDateMs m) / DAY_MS))
         then Some (Math_round ((pc - targetDateMs m) / DAY_MS) <=? of_Z 0)
         else None).
Proof.
  intros (Hne & Hsig & i & t & d & a & s & L & Hi & Ht & Hd & Ha & Hpos & Hs & HL & HL0)
         Hg.
  destruct (reparamFTE_value f) as (phi & Ephi & Hphi & _).
  assert (Hv : (0 < a * phi)%Q) by (apply Qmult_lt_0_compat; lra).
  unfold recomputeProjectionWithFTE. fold (reparamFTE f).
  destruct (sprints m) as [|s0 rest]; [contradiction|].
  rewrite Hsig, Hi, Ht, Hd, Ha, Ephi, Hg.
  assert (Hale : (Fin a <=? of_Z 0) = false)
    by (unfold num_le, of_Z; now apply Qle_bool_false).
  rewrite Hale.
  change (Fin a * Fin phi) with (Fin (Qred (a * phi))).
  assert (Hple : (Fin (Qred (a * phi)) <=? of_Z 0) = false).
  { unfold num_le, of_Z. apply Qle_bool_false. now rewrite Qred_correct. }
  rewrite Hple. cbv zeta.
  cbn [projection withProjection withForecast projectedCompletionMs
       daysDeltaFromTarget isOnTrack].
  eexists. split; [reflexivity|]. split; reflexivity.
Qed.

Section OnTrack.
Context {rt : JsRuntime}.

Lemma built_target (fuel : nat) (input : BuildBurnupInput) (m : BurnupModel) :
  buildBurnupModel fuel input = Some m ->
  sprints m <> [] ->
  exists kg : Z, targetDateMs m = dayMs kg /\ targetOf input = dayMs kg.
Proof.
  intros H Hne.
  destruct (built_sprints _ _ _ H Hne)
    as (n & ko & kt & kg & ks & l & Ht & _ & _ & _ & _ & Eg & _).
  destruct (build_closed_form _ _ _ H Ht) as (n' & _ & _ & _ & _ & _ & Etg & _ & _).
  exists kg. now rewrite Etg.
Qed.


End OnTrack.


(** ** The FTE required to hit the target *)

Lemma positive_times_positive (a : number) (x : Q) :
  (a >? of_Z 0) = true -> (0 < x)%Q -> (a * Fin x >? of_Z 0) = true.
Proof.
  intros Ha Hx. destruct a as [|[|]|q]; try discriminate.
  - unfold num_mul.
    rewrite (proj2 (Qeq_bool_false x 0) (Qpos_nonzero _ Hx)).
    assert (E : Qltb x 0 = false) by (apply Qltb_ge; lra).
    rewrite E. reflexivity.
  - unfold num_gt, num_lt, of_Z in Ha. apply Qltb_lt in Ha.
    change (inject_Z 0) with 0%Q in Ha.
    unfold num_mul, of_Q, num_gt, num_lt, of_Z. apply Qltb_lt.
    rewrite Qred_correct. change (inject_Z 0) with 0%Q.
    apply Qmult_lt_0_compat; assumption.
Qed.

(** What a required FTE other than 0 says about the projection it is part
    of. *)
Lemma computeProjection_required (sprints : list SprintSummary)
  (sprintLenMs sprintFTE latestScope targetScope targetDateMs f : number) :
  let p := computeProjection sprints sprintLenMs sprintFTE latestScope targetScope
             targetDateMs in
  requiredFTEToHitTarget p = Some f ->
  f <> of_Z 0 ->
  hasSignal p = true /\
  exists t d avg,
    fromTimeMs p = Some t /\ fromDone p = Some d /\ avgVelPerFTE p = Some avg /\
    isFinite targetDateMs = true /\
    (Math_max (of_Z 0) (targetScope - d) <=? of_Z 0) = false /\
    (targetDateMs >? t) = true /\
    ((targetDateMs - t) / sprintLenMs >? of_Z 0) = true /\
    f = Math_max (of_Z 0) (targetScope - d) / ((targetDateMs - t) / sprintLenMs) / avg /\
    requiredStoriesPerSprintToHitTarget p =
      Some (if Math_max (of_Z 0) (targetScope - d) >? of_Z 0
            then Math_max (of_Z 0) (targetScope - d) / ((targetDateMs - t) / sprintLenMs)
            else of_Z 0).
Proof.
  cbv zeta. unfold computeProjection.
  destruct sprints as [|s0 rest]; [discriminate|].
  destruct (findLastClosed _ _) as [[i anchor]|]; [|discriminate].
  cbv zeta.
  destruct (nonZeroVel_loop _ _ _ _ _) as [|v vs]; [discriminate|].
  set (avg := sum_numbers (v :: vs) / of_nat (List.length (v :: vs))).
  set (rtt := Math_max (of_Z 0) (targetScope - cumDoneEnd anchor)).
  set (sf := (targetDateMs - endMs anchor) / sprintLenMs).
  assert (K : forall q : BurnupProjection,
             requiredFTEToHitTarget q =
               fst (if (avg >? of_Z 0) && isFinite targetDateMs then
                      if rtt <=? of_Z 0 then
                        (Some (of_Z 0), Some (Math_max sprintFTE (of_Z 0) + of_Z 1))
                      else if targetDateMs >? endMs anchor then
                        if sf >? of_Z 0 then
                          if isFinite (rtt / sf / avg) && (rtt / sf / avg >? of_Z 0)
                          then (Some (rtt / sf / avg), Some (rtt / sf / avg + of_Z 1))
                          else (None, None)
                        else (None, None)
                      else (None, None)
                    else (None, None)) ->
             requiredStoriesPerSprintToHitTarget q =
               snd (if isFinite targetDateMs && (targetDateMs >? endMs anchor) then
                      if sf >? of_Z 0 then
                        (Some (Math_ceil sf),
                         Some (if rtt >? of_Z 0 then rtt / sf else of_Z 0))
                      else (None, None)
                    else (None, None)) ->
             fromTimeMs q = Some (endMs anchor) ->
             fromDone q = Some (cumDoneEnd anchor) ->
             avgVelPerFTE q = Some avg ->
             hasSignal q = true ->
             requiredFTEToHitTarget q = Some f -> f <> of_Z 0 ->
             hasSignal q = true /\
             exists t d a,
               fromTimeMs q = Some t /\ fromDone q = Some d /\ avgVelPerFTE q = Some a /\
               isFinite targetDateMs = true /\
               (Math_max (of_Z 0) (targetScope - d) <=? of_Z 0) = false /\
               (targetDateMs >? t) = true /\
               ((targetDateMs - t) / sprintLenMs >? of_Z 0) = true /\
               f = Math_max (of_Z 0) (targetScope - d)
                   / ((targetDateMs - t) / sprintLenMs) / a /\
               requiredStoriesPerSprintToHitTarget q =
                 Some (if Math_max (of_Z 0) (targetScope - d) >? of_Z 0
                       then Math_max (of_Z 0) (targetScope - d)
                            / ((targetDateMs - t) / sprintLenMs)
                       else of_Z 0)).
  { intros q R1 R2 Q1 Q2 Q3 Q4 Hf Hz. split; [exact Q4|].
    exists (endMs anchor), (cumDoneEnd anchor), avg.
    fold rtt sf. rewrite R1 in Hf. rewrite R2.
    destruct (avg >? of_Z 0); [|discriminate].
    destruct (isFinite targetDateMs); [|discriminate]. cbn [andb] in *.
    destruct (rtt <=? of_Z 0).
    { cbn [fst] in Hf. congruence. }
    destruct (targetDateMs >? endMs anchor); [|discriminate].
    destruct (sf >? of_Z 0); [|discriminate].
    destruct (isFinite (rtt / sf / avg) && (rtt / sf / avg >? of_Z 0));
      [|discriminate].
    cbn [fst snd] in *. injection Hf as <-. repeat split; assumption. }
  destruct (avg >? of_Z 0) eqn:Havg.
  2:{ match goal with |- context [negb ?c] => destruct c end; cbn [negb];
        [|discriminate].
      destruct (Math_max (of_Z 0) (latestScope - cumDoneEnd anchor) === of_Z 0);
        discriminate. }
  fold (effectiveFTE sprintFTE).
  destruct (effectiveFTE_positive sprintFTE) as (x & -> & Hx).
  rewrite (positive_times_positive avg x Havg Hx). cbn [negb].
  destruct (Math_max (of_Z 0) (latestScope - cumDoneEnd anchor) === of_Z 0);
    intros; apply K; auto.
Qed.

Lemma on_track_of_Z (z : Z) :
  (if isFinite (of_Z z) then Some (of_Z z <=? of_Z 0) else None)
  = Some (z <=? 0)%Z.
Proof.
  change (isFinite (of_Z z)) with true. cbv iota. f_equal.
  unfold num_le, of_Z.
  destruct (Qle_bool (inject_Z z) (inject_Z 0)) eqn:E.
  - apply Qle_bool_iff in E. rewrite <- Zle_Qle in E. symmetry.
    now apply Z.leb_le.
  - apply Qle_bool_false in E. rewrite <- Zlt_Qlt in E. symmetry.
    apply Z.leb_gt. lia.
Qed.

Section RequiredFTE.
Context {rt : JsRuntime}.

(** X28: when a returned model names a required FTE of at least 0.1 and
    its latest scope is the scope at the target date, the model has a
    signal, re-parameterising it at the required FTE gives a delay of 0 days
    and an on-track verdict, and at every finite FTE at or above the
    required one the verdict is on track as well: staffing at or above the
    required FTE puts the model on track. *)
Theorem required_fte_puts_the_model_on_track
  (fuel : nat) (input : BuildBurnupInput) (m : BurnupModel) (f : number) :
  buildBurnupModel fuel input = Some m ->
  requiredFTEToHitTarget (projection m) = Some f ->
  (f >=? Fin (1 # 10)) = true ->
  latestScope m = targetScope m ->
  hasSignal (projection m) = true /\
  daysDeltaFromTarget (recomputeProjectionWithFTE m f) = Some (of_Z 0) /\
  isOnTrack (recomputeProjectionWithFTE m f) = Some true /\
  forall y : Q,
    (f <=? Fin y) = true ->
    isOnTrack (recomputeProjectionWithFTE m (Fin y)) = Some true.
Proof.
  intros H Hreq Hf Hscope.
  destruct (build_fields _ _ _ H) as (_ & _ & _ & _ & Ep).
  assert (Hf0 : f <> of_Z 0).
  { intros ->. discriminate. }
  pose proof Hreq as Hreq'. rewrite Ep in Hreq'.
  destruct (computeProjection_required _ _ _ _ _ _ _ Hreq' Hf0)
    as (Hsig & t0 & d0 & a0 & Et & Ed & Ea & Hfin & Hrtt & Hgt & Hsf & Ef & Ers).
  rewrite <- Ep in Hsig, Et, Ed, Ea, Ers.
  split; [exact Hsig|].
  pose proof (built_signal_forecastable _ _ _ H Hsig) as F.
  assert (Hne : sprints m <> []) by apply F.
  destruct (built_target _ _ _ H Hne) as (kg & Eg & Eg').
  assert (Hg : isFinite (targetDateMs m) = true) by now rewrite Eg.
  destruct (built_sprints _ _ _ H Hne)
    as (n & ko & kt & kg0 & ks & l & Ht & Hl & _ & _ & _ & _ & _ & El & _).
  destruct (build_closed_form _ _ _ H Ht) as (n' & _ & _ & _ & _ & _ & _ & _ & Esd).
  assert (Em : sprintLengthDays m * DAY_MS = Fin l) by (rewrite Esd; exact El).
  destruct (recompute_health m f F Hg) as (pc & Epc & Edd & Eot).
  pose proof F as F'.
  destruct F as (_ & _ & i & t & d & a & s & L & Hi & Ht' & Hd & Ha & Hpos & Hs
                 & HL & _).
  rewrite Ht' in Et. injection Et as <-.
  rewrite Hd in Ed. injection Ed as <-.
  rewrite Ha in Ea. injection Ea as <-.
  destruct (recompute_forecast m f i t d a s L Hne Hsig Hi Ht' Hd Ha Hpos Hs HL)
    as (phi & r & c & _ & _ & Ephi & Hphi & Er & Hr & _ & Hv & Hc & _ & _ & Vc & _).
  rewrite Epc in Hc. injection Hc as ->.
  pose proof Em as Em'. rewrite HL in Em'.
  pose proof (mul_DAY_MS_value _ _ Em') as Vl.
  rewrite <- Hscope, Hs, Er in Hrtt, Ef, Ers.
  assert (Eg2 : dayMs kg = Fin (inject_Z (kg * msPerDay))) by reflexivity.
  rewrite Eg', Eg2 in Hgt, Hsf, Ef, Ers.
  rewrite Em in Hsf, Ef, Ers.
  set (g := inject_Z (kg * msPerDay)) in *.
  assert (Hr0 : (0 < r)%Q).
  { unfold num_le, of_Z in Hrtt. apply Qle_bool_false in Hrtt. exact Hrtt. }
  assert (Hgt' : (t < g)%Q).
  { unfold num_gt, num_lt in Hgt. now apply Qltb_lt in Hgt. }
  assert (Hl0 : ~ (l == 0)%Q) by (apply Qpos_nonzero; exact Hl).
  change (Fin g - Fin t) with (Fin (Qred (g + Qred (- t)))) in Hsf, Ef, Ers.
  rewrite (div_Fin _ _ Hl0) in Hsf, Ef, Ers.
  set (sf := Qred (Qred (g + Qred (- t)) / l)) in *.
  assert (Vsf : (sf == (g - t) / l)%Q).
  { unfold sf. now rewrite !Qred_correct. }
  assert (Hsf0 : (0 < sf)%Q).
  { unfold of_Q, num_gt, num_lt, of_Z in Hsf. fold sf in Hsf.
    now apply Qltb_lt in Hsf. }
  unfold of_Q in Ef, Ers. fold sf in Ef, Ers.
  rewrite (div_Fin _ _ (Qpos_nonzero _ Hsf0)) in Ef, Ers.
  unfold of_Q in Ef. rewrite (div_Fin _ _ (Qpos_nonzero _ Hpos)) in Ef.
  destruct (reparamFTE_value f) as (phi' & Ephi' & _ & Hcase).
  rewrite Ephi in Ephi'. injection Ephi' as <-.
  destruct (Hcase _ Ef) as (Hle & Hor).
  assert (Hfq : (1 # 10 <= Qred (Qred (r / sf) / a))%Q).
  { rewrite Ef in Hf. unfold num_ge, num_le, of_Q in Hf.
    now apply Qle_bool_iff in Hf. }
  assert (Vphi : (phi == r / sf / a)%Q).
  { destruct Hor as [E | E].
    - rewrite E in Hle. rewrite !Qred_correct in Hle, Hfq. rewrite E. lra.
    - rewrite E. now rewrite !Qred_correct. }
  assert (Va : (a * phi == r / sf)%Q).
  { rewrite Vphi. field. split; apply Qpos_nonzero; assumption. }
  assert (Vcg : (c == g)%Q).
  { rewrite Vc, Va, <- Vl, Vsf. field. split; [|split].
    - exact Hl0.
    - lra.
    - apply Qpos_nonzero; exact Hr0. }
  destruct (health_value c g) as (z & Ez & _ & _ & Hz0).
  rewrite (Hz0 Vcg) in Ez.
  rewrite Eg, Eg2 in Edd, Eot. fold g in Edd, Eot. rewrite Ez in Edd, Eot.
  split; [exact Edd|]. split; [exact Eot|].
  intros y Hy. rewrite Ef in Hy. unfold of_Q, num_le in Hy.
  apply Qle_bool_iff in Hy.
  destruct (recompute_monotone m _ y F' Hy)
    as (_ & _ & _ & _ & c0 & c1 & _ & _ & _ & _ & _ & _ & Hc0 & Hc1 & _ & _ & _ & _
        & Ord & _).
  pose proof Ef as Ef'. unfold of_Q in Ef'. rewrite <- Ef', Epc in Hc0. injection Hc0 as <-.
  destruct (recompute_health m (Fin y) F' Hg) as (pc' & Epc' & _ & Eot').
  rewrite Epc' in Hc1. injection Hc1 as ->.
  destruct (recompute_forecast m (Fin y) i t d a s L Hne Hsig Hi Ht' Hd Ha Hpos Hs HL)
    as (_ & _ & c2 & _ & _ & _ & _ & _ & _ & _ & _ & Hc2 & _).
  rewrite Epc' in Hc2. injection Hc2 as ->.
  unfold num_le in Ord. apply Qle_bool_iff in Ord.
  destruct (health_value c2 g) as (z' & Ez' & _ & Hz' & _).
  rewrite Eot', Eg, Eg2. fold g. rewrite Ez', on_track_of_Z. f_equal.
  apply Z.leb_le, Hz'. rewrite <- Vcg.
  apply Qle_lt_trans with c; [exact Ord|]. lra.
Qed.

End RequiredFTE.

(** The mixed project with the target date two sprints after the last
    closed sprint: two stories are left and the velocity is half a story per
    sprint and FTE, so 2 FTE are required. *)
Lemma required_fte_puts_the_model_on_track_witness :
  requiredFTEToHitTarget (projection model_on_time) = Some (of_Z 2) /\
  latestScope model_on_time = targetScope model_on_time /\
  hasSignal (projection model_on_time) = true /\
  daysDeltaFromTarget (recomputeProjectionWithFTE model_on_time (of_Z 2))
    = Some (of_Z 0) /\
  isOnTrack (recomputeProjectionWithFTE model_on_time (of_Z 2)) = Some true /\
  isOnTrack (recomputeProjectionWithFTE model_on_time (Fin 3)) = Some true.
Proof.
  assert (B : @buildBurnupModel exampleRuntime 100 scenario_on_time
              = Some model_on_time) by (vm_compute; reflexivity).
  assert (R : requiredFTEToHitTarget (projection model_on_time) = Some (of_Z 2))
    by (vm_compute; reflexivity).
  assert (E : latestScope model_on_time = targetScope model_on_time)
    by (vm_compute; reflexivity).
  split; [exact R|]. split; [exact E|].
  destruct (@required_fte_puts_the_model_on_track exampleRuntime 100
              scenario_on_time model_on_time (of_Z 2) B R eq_refl E)
    as (S1 & S2 & S3 & S4).
  split; [exact S1|]. split; [exact S2|]. split; [exact S3|].
  apply S4. reflexivity.
Defined.
